(* ===== verification/_CoqProject ===== *)
-Q . S2P
Prelude.v
PyBytes.v
PyStr.v
Crc16.v
Frames.v
Serial.v
Decode.v
Device.v
JsonBridge.v
TextBridge.v
TestSub.v
Broker.v
Sessions.v
Wire.v
System.v
