(* ===== verification/Prelude.v ===== *)
(** * A verification library for the Modbus RTU / MQTT bridge scripts

    The repository is four Python scripts that drive an 8-channel relay
    and input module over Modbus RTU:
    - [src/raw_modbus_test.py]: an interactive serial tester (the "raw"
      variant); its [main] reads text commands from the console, then
      sends the manual's example frames;
    - [src/modbus_mqtt_bridge.py]: the same command language received as
      MQTT text messages (the "text bridge");
    - [src/modbus_mqtt_bridge_json.py]: a bridge taking JSON commands over
      MQTT and publishing JSON results (the "JSON bridge");
    - [src/mqtt_test_sub.py]: an MQTT chat bot, independent of Modbus.

    The three Modbus scripts each carry their own copy of the same layers:
    a CRC16, frame builders, the inline decoding of a reply
    ([resp[4] == 1]) and a command processor that exchanges frames over
    one serial line ([ser.reset_input_buffer(); ser.write(frame);
    time.sleep(..); ser.read(256)]), looping over channels 1..8 for the
    sweep commands. A command flows: MQTT message or console line ->
    command processor -> frame builder (+ CRC16) -> serial exchange ->
    decoding -> published or printed text.

    ** Files, in dependency order, and what they model

    - [Prelude] (this file): Python exceptions as values ([exn],
      [result], notation [x <- c ;; k] in [py_scope]); the
      state-plus-exception monad [st] of the handlers ([x <-- c ;; k],
      [st_try] for [try/except], [st_for] / [st_for_acc] for [for]
      loops); [py_range]; the JSON value type; byte predicates; shared
      lemmas on lists, bytes and bit fields; hint databases [pybytes],
      [pybytes_rw] and the tactic [solve_bytes].
    - [PyBytes]: the built-ins on bytes ([bytes([...])], [int.to_bytes],
      [b[i]], [str(n)]), the Python operators on JSON values, dict access
      ([.get], [[k]]), and the repository's [hexdump] and
      [hexstr_to_bytes] (over [bytes.fromhex]).
    - [PyStr]: [str.strip], [lower], [split], [startswith] and [int(s)]
      on ASCII strings.
    - [Crc16] (Module [Crc16]): [crc16], the 8-round shift loop on a Z
      register, and its little-endian bytes; [modbus_crc_reference],
      the standard CRC-16/MODBUS (polynomial 0x8005 MSB first, reflected
      input and output) the spec names, as the abstract specification.
    - [Frames]: Module [AddressMap], the spec's channel address map and
      request encoder (the abstract specification); Modules [Raw],
      [Bridge], [Json], the builders of each script, named as in the
      source ([builst_read_output] included), each with the script's
      own copies of the helpers it calls ([Raw.crc16], [Bridge.crc16],
      the register constants, [Bridge.hexdump], [Json.hexdump]; the
      text bridge's unused [hexstr_to_bytes] and [EXAMPLES]). The copies
      are textually identical to the shared definitions and convertible
      to them, so the shared lemmas apply to every script.
    - [Serial]: the serial line as a record ([rx], [late], [replies],
      [written]) with [reset_input_buffer], [write], [read]; the class
      [HasSerial] (with its lens laws [HasSerialLaws]) is the interface
      through which a handler's state reaches the line; [exchange] is the
      four statements above and [poll_cycle] the body of every
      eight-channel loop, with the loop lemmas [polls_ok] and
      [polls_abort] proved once against the interface.
    - [Decode]: Module [Spec], the spec's reply decoder
      ([Timeout]/[Malformed]/[On]/[Off]), and the handlers' inline tests
      [json_state] and [text_state].
    - [Device] (Module [Device]): the relay/input module, an environment
      model written from the spec and the Modbus RTU rules for a slave:
      a [board] (address, relays, inputs), [respond] for one
      request/response cycle (silence on a bad frame or another address,
      echo of a write, read replies, exception replies) and [answers]
      over the frames a handler writes; boards are compared by the
      setoid [board_equiv].
    - [JsonBridge]: state = line + list of published objects + console;
      [process_command] (lines 104-206) statement by statement,
      [dispatch] its [if/elif] chain, [report_error] its [except],
      [on_message] (lines 216-224).
    - [TextBridge]: state = line + published texts + console. Module
      [RawMain]: [run_command] (raw lines 135-213), [command_loop] (the
      [while True] with [exit] and [EOFError]), [send_examples];
      Module [TextMqtt]: [process_command] (bridge lines 150-252),
      [print_pubish], [on_message] (lines 37-57), the unused
      [on_publish]. The two scripts' [build_relay_command], which prints
      the frame before its CRC, is the statement [relay_command_io],
      and [relay_cycle] is the body of each script's relay sweep.
    - [TestSub] (Module [TestSub]): [on_message] and [get_random_joke] of
      the chat bot, [random.choice] being a Section variable; the
      module-level client run ([main]) and the unused
      [print_message_info].
    - [Broker] (Module [Broker]): the MQTT broker around copies of the
      chat bot, an environment model written from the protocol: a queue
      of messages, a [step] relation that hands the oldest message on
      [george/test/board] to every bot ([fan_out]) and queues what they
      publish, and a [measure] that every step lowers.
    - [Sessions]: the programs. [args] is what [argparse] returns;
      [text_start] the banner, the port opening (an input: [None] or the
      exception text) and the help text; Modules [RawProgram],
      [TextProgram] and [JsonProgram] hold each script's [main], the
      bridges' [on_connect] and [loop] ([client.loop_forever()] over the
      delivered payloads, ended by the first exception a callback lets
      out).
    - [Wire]: what the programs put on the serial line. [keeps c] (every
      frame [c] writes is well formed) and [lsim R c d] (from the same
      line, [c] and [d] leave the same line and related outcomes; a
      heterogeneous simulation over two handler states), each with one
      lemma per statement form of [st] and a tactic ([keeps_tac],
      [lsim_step]) that follows a handler's code.
    - [System]: the programs against the board: the line's replies are
      the board's answers to exactly the frames the program writes.

    ** What the theorems show (claim ids C1..C39)

    - CRC16 (C1-C3, C27): equivalence with the CRC-16/MODBUS reference
      algorithm (polynomial 0x8005 MSB first, reflected), the residue
      property (a frame followed by its CRC has register 0), no
      OverflowError in [to_bytes(2)], and detection of every single-byte
      corruption of a frame by the receiver's CRC check.
    - Frames (C4-C11): every script's relay and input builders refine the
      address map; invalid channels raise before a frame exists; the
      order of the checks differs between scripts; devices 0 and 248-255
      are accepted; [build_read_input] has no channel check; the raw
      tester reads output [n + 1]; built frames carry a valid CRC.
    - Decoding (C12): each inline test against the spec's decoder.
    - JSON bridge (C13-C17, C28-C30): every JSON object gets exactly one
      reply; the error paths of [on_message]; the sweeps write the spec's
      frames in order and report each reply; a short reply aborts a
      sweep; [output] and [input] on one channel (frame sent, reply
      decoded, the missing channel check of [input]); unknown commands.
    - Hex (C18): [hexstr_to_bytes (hexdump b) = b].
    - Text bridge and raw tester (C19-C24, C31-C33): the sweeps (order,
      frames, published text, the "Input" label of [status out]); bad
      input and short replies raise out of the MQTT callback; own
      messages, ping and bye are ignored; the raw tester's off-by-one
      status; the raw session runs the typed lines up to [exit], then the
      examples; [out n on|off] and [in n] on one channel, with the
      console log of [out] (the builder prints the frame before its CRC,
      and raises before printing on a bad channel).
    - Chat bot and broker (C25-C26, C34): no reply loop; the reply
      table; delivery among any number of bots terminates (a
      well-founded step relation).
    - Programs (C35-C37): the JSON bridge answers every message and keeps
      running, printing only its connect line, the text bridge stops at
      its first failing message (liveness); every frame any program writes is a well-formed 8-byte
      frame with a valid CRC, whatever the inputs (a type invariant of
      the line); the three front ends drive the line identically on the
      sweep commands they share (equivalence by simulation).
    - Programs and board (C38-C39): with the relay board of [Device]
      answering, the JSON bridge's [output_all] then [status] switches
      the eight relays and reports exactly the state commanded (a
      refinement of the board's abstract state); the raw tester's
      [status out] prints for channel [i] the state of relay [i + 1], and
      for channel 8 the board's exception reply read as a state.

    ** Bounds and fuel

    No definition uses fuel: every loop of the scripts is a [for] over a
    finite list ([range(1, 9)], the bytes of a frame, the 8 rounds of the
    CRC, the typed lines) and is a structural recursion, so each model is
    total and each theorem states the result outright. Integers are Z
    with the source's masks and [% 65536] written out; [bytes()] and
    [to_bytes] raise where CPython does. [read(256)] is modelled with its
    bound (replies longer than 256 bytes are cut). The CRC equivalence
    decides its one-round lemma over all 65536 register values and its
    byte lemma over all 256 bytes ([check_range], run by [vm_compute]);
    the registers of both algorithms stay below 2^16, so these ranges
    cover every state the loops reach.

    ** Not modelled

    What the scripts call in libraries: the parsing done by [argparse]
    (its result is the record [args]); the [serial.Serial] and paho
    client objects and the broker connection: the models take their
    observable effect as input (the port opens or raises, the payloads
    arrive in order, the reason code of [on_connect]); the payload's
    UTF-8 decoding in the text bridge; the wall-clock sleeps (they only
    decide which part of a reply is late, which is an input of the
    model); [ser.close()] in the [finally]; [json.dumps] text layout;
    Unicode case mapping and whitespace. Every function of the four
    scripts has a definition, the dead ones included (the text bridge's
    [on_publish], never registered with the client, and
    [print_message_info] of [mqtt_test_sub.py], never called); what
    remains outside the map is imports, comments, docstrings, the
    commented-out code and the bare [main()] call at the end of each
    script. The
    board of [Device] is not code either: it is the device the spec
    describes, with the Modbus slave behaviour the theorems of [System]
    rely on stated in that file. The broker of [Broker] is not
    code of the repository: it is the MQTT delivery the chat bot relies
    on, kept as small as the termination argument needs (one topic, no
    QoS, no retained messages). *)

From Stdlib Require Import ZArith List Lia String Ascii Bool.
Import ListNotations.
Open Scope Z_scope.

(** ** Python exceptions as values *)

(** The exceptions the modelled code can raise, with the message Python
    attaches where the code observes it ([str(e)] is published by the JSON
    bridge). *)
Inductive exn : Type :=
| ValueError (msg : string)
| IndexError (msg : string)
| TypeError (msg : string)
| KeyError (key : string)
| OverflowError (msg : string)
| AttributeError (msg : string)
| EOFError (msg : string)
| SystemExit (code : Z).

Inductive result (A : Type) : Type :=
| Ok (a : A)
| Raise (e : exn).
Arguments Ok {A} a.
Arguments Raise {A} e.

Definition bind {A B} (c : result A) (k : A -> result B) : result B :=
  match c with
  | Ok a => k a
  | Raise e => Raise e
  end.

Definition is_ok {A} (r : result A) : bool :=
  match r with Ok _ => true | Raise _ => false end.

Declare Scope py_scope.
Delimit Scope py_scope with py.
Notation "x <- c ;; k" := (bind c (fun x => k))
  (at level 61, c at next level, right associativity) : py_scope.
Notation "c ;;; k" := (bind c (fun _ => k))
  (at level 61, right associativity) : py_scope.

(** ** The handler monad: state threaded through code that may raise

    A Python statement that raises keeps the side effects done before the
    raise: the state is returned on both paths. *)
Definition st (S A : Type) : Type := S -> result A * S.

Definition st_ret {S A} (a : A) : st S A := fun s => (Ok a, s).
Definition st_raise {S A} (e : exn) : st S A := fun s => (Raise e, s).
Definition st_bind {S A B} (c : st S A) (k : A -> st S B) : st S B :=
  fun s => match c s with
           | (Ok a, s') => k a s'
           | (Raise e, s') => (Raise e, s')
           end.
Definition st_lift {S A} (r : result A) : st S A := fun s => (r, s).
Definition st_get {S} : st S S := fun s => (Ok s, s).
Definition st_modify {S} (f : S -> S) : st S unit := fun s => (Ok tt, f s).

(** [try: c except Exception as e: h e] *)
Definition st_try {S A} (c : st S A) (h : exn -> st S A) : st S A :=
  fun s => match c s with
           | (Raise e, s') => h e s'
           | r => r
           end.

(** [for i in xs: body i], stopping at the first exception. *)
Fixpoint st_for {S} (xs : list Z) (body : Z -> st S unit) : st S unit :=
  match xs with
  | [] => st_ret tt
  | x :: xs' => st_bind (body x) (fun _ => st_for xs' body)
  end.

(** [for i in xs: acc = body(acc, i)]: a loop that accumulates a value
    (a list the body appends to), stopping at the first exception. *)
Fixpoint st_for_acc {S A} (xs : list Z) (acc : A) (body : A -> Z -> st S A) : st S A :=
  match xs with
  | [] => st_ret acc
  | x :: xs' => st_bind (body acc x) (fun acc' => st_for_acc xs' acc' body)
  end.

Notation "x <-- c ;; k" := (st_bind c (fun x => k))
  (at level 61, c at next level, right associativity) : py_scope.

(** [range(a, b)] on integers. *)
Definition py_range (a b : Z) : list Z :=
  map (fun k => a + Z.of_nat k) (seq 0 (Z.to_nat (b - a))).

(** ** Values decoded by [json.loads]

    Objects keep their key order (a Python dict preserves insertion order
    and [json.dumps] prints in that order). Floats are not modelled. *)
Inductive json : Type :=
| JNull
| JBool (b : bool)
| JInt (n : Z)
| JStr (s : string)
| JArr (items : list json)
| JObj (fields : list (string * json)).

(** ** Bytes

    A Python [bytes] value is a list of integers in [range(0, 256)]. *)
Definition is_byte (z : Z) : bool := (0 <=? z) && (z <? 256).
Definition bytes_ok (l : list Z) : bool := forallb is_byte l.

(** [f] holds on the [n] integers [z, z + 1, ..., z + n - 1]: a decision
    procedure for a finite range, run by [vm_compute]. *)
Fixpoint check_range (f : Z -> bool) (n : nat) (z : Z) : bool :=
  match n with
  | O => true
  | S n' => f z && check_range f n' (z + 1)
  end.

(** ** Generic lemmas *)

Lemma bind_ok {A B} (a : A) (k : A -> result B) : bind (Ok a) k = k a.
Proof. reflexivity. Qed.

Lemma bind_raise {A B} (e : exn) (k : A -> result B) : bind (Raise e) k = Raise e.
Proof. reflexivity. Qed.

Lemma bind_assoc {A B C} (c : result A) (g : A -> result B) (k : B -> result C) :
  bind (bind c g) k = bind c (fun a => bind (g a) k).
Proof. destruct c; reflexivity. Qed.

(** The monad laws of [st] used to restructure a handler, pointwise in
    the state. *)
Lemma st_bind_assoc {S A B C} (c : st S A) (k : A -> st S B) (f : B -> st S C) s :
  st_bind (st_bind c k) f s = st_bind c (fun a => st_bind (k a) f) s.
Proof. unfold st_bind. destruct (c s) as [[a|e] s']; reflexivity. Qed.

Lemma st_bind_ext {S A B} (c : st S A) (k1 k2 : A -> st S B) s :
  (forall a s', k1 a s' = k2 a s') -> st_bind c k1 s = st_bind c k2 s.
Proof. intros H. unfold st_bind. destruct (c s) as [[a|e] s']; [apply H | reflexivity]. Qed.

Lemma is_byte_spec z : is_byte z = true <-> 0 <= z < 256.
Proof. unfold is_byte. rewrite andb_true_iff, Z.leb_le, Z.ltb_lt. tauto. Qed.

Lemma is_byte_intro z : 0 <= z < 256 -> is_byte z = true.
Proof. apply is_byte_spec. Qed.

Lemma bytes_ok_cons x l : bytes_ok (x :: l) = is_byte x && bytes_ok l.
Proof. reflexivity. Qed.

Lemma bytes_ok_app l1 l2 : bytes_ok (l1 ++ l2) = bytes_ok l1 && bytes_ok l2.
Proof. apply forallb_app. Qed.

Lemma bytes_ok_In l x : bytes_ok l = true -> In x l -> 0 <= x < 256.
Proof.
  unfold bytes_ok. rewrite forallb_forall. intros H Hx.
  apply is_byte_spec, H, Hx.
Qed.

Lemma land_255_byte x : 0 <= Z.land x 255 < 256.
Proof.
  change 255 with (Z.ones 8). rewrite Z.land_ones by lia.
  apply Z.mod_pos_bound. lia.
Qed.

Lemma shiftr8_byte x : 0 <= x < 65536 -> 0 <= Z.shiftr x 8 < 256.
Proof.
  intros H. rewrite Z.shiftr_div_pow2 by lia. change (2 ^ 8) with 256.
  split; [apply Z.div_pos | apply Z.div_lt_upper_bound]; lia.
Qed.

Lemma land_255_mod x : Z.land x 255 = x mod 256.
Proof. change 255 with (Z.ones 8). apply Z.land_ones. lia. Qed.

Lemma shiftr_8_div x : Z.shiftr x 8 = x / 256.
Proof. apply Z.shiftr_div_pow2. lia. Qed.

(** The high and low byte of a 16-bit quantity put back together. *)
Lemma hi_lo_recombine x : Z.shiftr x 8 * 256 + Z.land x 255 = x.
Proof.
  rewrite land_255_mod, shiftr_8_div.
  pose proof (Z.div_mod x 256). lia.
Qed.

(** An [n]-bit quantity stays [n]-bit under exclusive or. *)
(** Soundness of the range checker. *)
Lemma check_range_sound f n z :
  check_range f n z = true -> forall x, z <= x < z + Z.of_nat n -> f x = true.
Proof.
  revert z; induction n as [|n IH]; intros z H x Hx; cbn [check_range] in H; [lia|].
  apply andb_true_iff in H as [Hz Hn].
  destruct (Z.eq_dec x z) as [->|Hne]; [exact Hz|].
  apply (IH (z + 1) Hn). lia.
Qed.

Lemma lxor_lt_pow2 n a b :
  0 <= n -> 0 <= a < 2 ^ n -> 0 <= b < 2 ^ n -> 0 <= Z.lxor a b < 2 ^ n.
Proof.
  intros Hn Ha Hb.
  assert (Hp : 0 < 2 ^ n) by (apply Z.pow_pos_nonneg; lia).
  assert (H0 : 0 <= Z.lxor a b) by (apply Z.lxor_nonneg; lia).
  assert (Hs : Z.shiftr (Z.lxor a b) n = 0).
  { rewrite Z.shiftr_lxor, !Z.shiftr_div_pow2, !Z.div_small by lia. reflexivity. }
  rewrite Z.shiftr_div_pow2 in Hs by lia.
  apply Z.div_small_iff in Hs; lia.
Qed.

Lemma py_range_length a b : List.length (py_range a b) = Z.to_nat (b - a).
Proof. unfold py_range. rewrite length_map, length_seq. reflexivity. Qed.

Lemma in_py_range i a b : In i (py_range a b) -> a <= i < b.
Proof.
  unfold py_range. rewrite in_map_iff. intros (k & <- & Hk).
  apply in_seq in Hk. lia.
Qed.

Lemma py_range_In i a b : a <= i < b -> In i (py_range a b).
Proof.
  intros H. unfold py_range. apply in_map_iff. exists (Z.to_nat (i - a)).
  split; [lia|]. apply in_seq. lia.
Qed.

(** A list paired with an image of itself. *)
Lemma combine_map_r {A B} (f : A -> B) (l : list A) : combine l (map f l) = map (fun x => (x, f x)) l.
Proof. induction l as [|x l IH]; cbn; [reflexivity | rewrite IH; reflexivity]. Qed.

Lemma existsb_eqb_In x l : existsb (Z.eqb x) l = true <-> In x l.
Proof.
  rewrite existsb_exists. split.
  - intros (y & Hy & E). apply Z.eqb_eq in E. subst. exact Hy.
  - intros H. exists x. split; [exact H | apply Z.eqb_refl].
Qed.

Lemma list_split_at {A} (l : list A) k d :
  (k < List.length l)%nat -> l = firstn k l ++ nth k l d :: skipn (S k) l.
Proof.
  revert k; induction l as [|x l IH]; intros k Hk; cbn in Hk; [lia|].
  destruct k as [|k]; [reflexivity|]. cbn. f_equal. apply IH. lia.
Qed.

Lemma firstn_S_nth {A} (l : list A) k d :
  (k < List.length l)%nat -> firstn (S k) l = firstn k l ++ [nth k l d].
Proof.
  revert k; induction l as [|x l IH]; intros k Hk; cbn in Hk; [lia|].
  destruct k as [|k]; [reflexivity|].
  change (x :: firstn (S k) l = x :: firstn k l ++ [nth k l d]).
  rewrite (IH k) by lia. reflexivity.
Qed.

Lemma in_firstn_in {A} (x : A) k l : In x (firstn k l) -> In x l.
Proof.
  revert k; induction l as [|y l IH]; intros k H; destruct k; cbn in *; try tauto.
  destruct H; [left | right; eapply IH]; eauto.
Qed.

Create HintDb pybytes discriminated.
#[export] Hint Resolve is_byte_intro land_255_byte shiftr8_byte : pybytes.
Create Rewrite HintDb pybytes_rw.
#[export] Hint Rewrite bytes_ok_cons bytes_ok_app : pybytes_rw.

(** Closes [bytes_ok]/[is_byte] goals on concrete shapes. *)
Ltac solve_bytes :=
  repeat (autorewrite with pybytes_rw in *; simpl);
  repeat match goal with
         | |- (_ && _)%bool = true => apply andb_true_iff; split
         | |- is_byte _ = true => apply is_byte_intro
         end;
  eauto with pybytes; try lia.
