(* ===== verification/PyBytes.v ===== *)
(** * Python built-ins on bytes and the scripts' hex helpers

    The built-ins the scripts call on [bytes] values, with the exceptions
    CPython raises: the constructor [bytes([...])], [int.to_bytes(n,
    'little')], indexing [b[i]], [str(n)] on integers, and the two helpers
    of the repository built on them: [hexdump] (all three Modbus scripts)
    and [hexstr_to_bytes] ([raw_modbus_test.py], [modbus_mqtt_bridge.py]),
    which relies on [bytes.fromhex]. *)

From Stdlib Require Import ZArith List Lia String Ascii Bool DecimalString.
From S2P Require Import Prelude.
Import ListNotations.
Open Scope Z_scope.
Local Open Scope py_scope.

(** ** Built-ins *)

(** [bytes(l)] for a list of ints: [ValueError] when an element is outside
    [range(0, 256)]. *)
Definition py_bytes (l : list Z) : result (list Z) :=
  if bytes_ok l then Ok l
  else Raise (ValueError "bytes must be in range(0, 256)").

(** Little-endian digits of [n] in base 256, [len] of them. *)
Fixpoint le_digits (len : nat) (n : Z) : list Z :=
  match len with
  | O => []
  | S len' => Z.land n 255 :: le_digits len' (Z.shiftr n 8)
  end.

(** [n.to_bytes(len, byteorder='little')]. *)
Definition int_to_bytes_le (len : nat) (n : Z) : result (list Z) :=
  if n <? 0 then Raise (OverflowError "can't convert negative int to unsigned")
  else if n <? 2 ^ (8 * Z.of_nat len) then Ok (le_digits len n)
  else Raise (OverflowError "int too big to convert").

(** [b[i]] on a bytes value, negative indices counting from the end. *)
Definition py_getitem (b : list Z) (i : Z) : result Z :=
  let n := Z.of_nat (List.length b) in
  let j := if i <? 0 then i + n else i in
  if (0 <=? j) && (j <? n) then
    match nth_error b (Z.to_nat j) with
    | Some x => Ok x
    | None => Raise (IndexError "index out of range")
    end
  else Raise (IndexError "index out of range").

(** [str(n)] for an integer. *)
Definition py_str_int (n : Z) : string := NilEmpty.string_of_int (Z.to_int n).

(** ** Python operations on decoded JSON values *)

(** [type(v).__name__] *)
Definition py_type_name (v : json) : string :=
  match v with
  | JNull => "NoneType" | JBool _ => "bool" | JInt _ => "int"
  | JStr _ => "str" | JArr _ => "list" | JObj _ => "dict"
  end.

(** The integer value of an [int] or a [bool] ([bool] is a subclass of
    [int]); [None] for the other types. *)
Definition py_int_value (v : json) : option Z :=
  match v with
  | JInt n => Some n
  | JBool b => Some (if b then 1 else 0)
  | _ => None
  end.

(** [v < n] and [v > n] for an int [n]. *)
Definition py_lt_int (v : json) (n : Z) : result bool :=
  match py_int_value v with
  | Some m => Ok (m <? n)
  | None => Raise (TypeError ("'<' not supported between instances of '"
                              ++ py_type_name v ++ "' and 'int'"))
  end.

Definition py_gt_int (v : json) (n : Z) : result bool :=
  match py_int_value v with
  | Some m => Ok (n <? m)
  | None => Raise (TypeError ("'>' not supported between instances of '"
                              ++ py_type_name v ++ "' and 'int'"))
  end.

(** [n + v] for an int [n]. *)
Definition py_int_add (n : Z) (v : json) : result Z :=
  match py_int_value v with
  | Some m => Ok (n + m)
  | None => Raise (TypeError ("unsupported operand type(s) for +: 'int' and '"
                              ++ py_type_name v ++ "'"))
  end.

(** [v == s] for a string literal [s]. *)
Definition py_eq_str (v : json) (s : string) : bool :=
  match v with JStr t => String.eqb t s | _ => false end.

(** [bytes(l)] for a list of Python values: each item is converted in
    order, a non-integer raising [TypeError], an integer out of range
    [ValueError]. *)
Fixpoint py_bytes_vals (l : list json) : result (list Z) :=
  match l with
  | [] => Ok []
  | v :: vs =>
      match py_int_value v with
      | None => Raise (TypeError ("'" ++ py_type_name v
                                  ++ "' object cannot be interpreted as an integer"))
      | Some n =>
          if is_byte n then (rest <- py_bytes_vals vs ;; Ok (n :: rest))
          else Raise (ValueError "bytes must be in range(0, 256)")
      end
  end.

(** [str(e)] for an exception: the message; a [KeyError] shows its key
    quoted. *)
Definition py_str_exn (e : exn) : string :=
  match e with
  | ValueError m | IndexError m | TypeError m | OverflowError m | AttributeError m
  | EOFError m => m
  | KeyError k => "'" ++ k ++ "'"
  | SystemExit code => py_str_int code
  end.

(** The value of the last field named [k] ([json.loads] keeps the last of
    duplicate keys). *)
Fixpoint fields_lookup (fields : list (string * json)) (k : string) : option json :=
  match fields with
  | [] => None
  | (k', v) :: rest =>
      match fields_lookup rest k with
      | Some w => Some w
      | None => if String.eqb k' k then Some v else None
      end
  end.

(** [data.get(k)] *)
Definition dict_get (data : json) (k : string) : result json :=
  match data with
  | JObj fields => match fields_lookup fields k with Some v => Ok v | None => Ok JNull end
  | _ => Raise (AttributeError ("'" ++ py_type_name data ++ "' object has no attribute 'get'"))
  end.

(** [data[k]] on a dict *)
Definition dict_getitem (data : json) (k : string) : result json :=
  match data with
  | JObj fields => match fields_lookup fields k with Some v => Ok v | None => Raise (KeyError k) end
  | JArr _ => Raise (TypeError "list indices must be integers or slices, not str")
  | JStr _ => Raise (TypeError "string indices must be integers, not 'str'")
  | _ => Raise (TypeError ("'" ++ py_type_name data ++ "' object is not subscriptable"))
  end.

(** ** [hexdump] *)

Definition hex_digit (n : Z) : ascii :=
  ascii_of_nat (Z.to_nat (if n <? 10 then 48 + n else 55 + n)).

(** [f"{x:02X}"] for a byte [x]: two upper-case hex digits. *)
Definition fmt_02X (x : Z) : string :=
  String (hex_digit (x / 16)) (String (hex_digit (x mod 16)) EmptyString).

(** [sep.join(parts)] *)
Fixpoint py_join (sep : string) (parts : list string) : string :=
  match parts with
  | [] => EmptyString
  | [p] => p
  | p :: ps => p ++ sep ++ py_join sep ps
  end.

(** [hexdump(b) = ' '.join(f"{x:02X}" for x in b)] *)
Definition hexdump (b : list Z) : string := py_join " " (map fmt_02X b).

(** ** [hexstr_to_bytes] *)

(** [s.replace(c, '')] for a one-character [c]. *)
Fixpoint str_remove (c : ascii) (s : string) : string :=
  match s with
  | EmptyString => EmptyString
  | String d s' => if Ascii.eqb c d then str_remove c s' else String d (str_remove c s')
  end.

(** [Py_ISSPACE]: space, \t, \n, \v, \f, \r. *)
Definition py_isspace (c : ascii) : bool :=
  let n := nat_of_ascii c in (n =? 32)%nat || ((9 <=? n)%nat && (n <=? 13)%nat).

(** [_PyLong_DigitValue] restricted to hex digits. *)
Definition hex_value (c : ascii) : option Z :=
  let n := Z.of_nat (nat_of_ascii c) in
  if (48 <=? n) && (n <=? 57) then Some (n - 48)
  else if (65 <=? n) && (n <=? 70) then Some (n - 55)
  else if (97 <=? n) && (n <=? 102) then Some (n - 87)
  else None.

Definition fromhex_bad_char (pos : nat) : exn :=
  ValueError ("non-hexadecimal number found in fromhex() arg at position "
              ++ py_str_int (Z.of_nat pos)).

Definition fromhex_odd : exn :=
  ValueError "fromhex() arg must contain an even number of hexadecimal digits".

(** The loop of CPython's [bytes.fromhex]: skip whitespace between pairs,
    then read two hex digits. [pos] is the index of [s] in the argument. *)
Fixpoint fromhex_from (pos : nat) (s : string) : result (list Z) :=
  match s with
  | EmptyString => Ok []
  | String c s' =>
      if py_isspace c then fromhex_from (S pos) s'
      else match hex_value c with
           | None => Raise (fromhex_bad_char pos)
           | Some top =>
               match s' with
               | EmptyString => Raise fromhex_odd
               | String c2 s'' =>
                   match hex_value c2 with
                   | None => Raise (fromhex_bad_char (S pos))
                   | Some bot =>
                       rest <- fromhex_from (S (S pos)) s'' ;;
                       Ok (top * 16 + bot :: rest)
                   end
               end
           end
  end.

Definition bytes_fromhex (s : string) : result (list Z) := fromhex_from 0 s.

(** [hexstr_to_bytes(s)]: drop spaces and newlines, then [bytes.fromhex]. *)
Definition hexstr_to_bytes (s : string) : result (list Z) :=
  bytes_fromhex (str_remove "010"%char (str_remove " "%char s)).

(** The hex digits of [b] without separators. *)
Definition hex_concat (b : list Z) : string := fold_right String.append EmptyString (map fmt_02X b).

(** ** Lemmas *)

(** Evaluate the comparisons of closed strings (dictionary keys, command
    names). *)
Ltac str_simpl :=
  repeat match goal with
         | |- context [String.eqb ?x ?y] =>
             let v := eval compute in (String.eqb x y) in change (String.eqb x y) with v
         end.

Lemma py_bytes_vals_ints l : py_bytes_vals (map JInt l) = py_bytes l.
Proof.
  unfold py_bytes. induction l as [|x l IH]; simpl; [reflexivity|].
  destruct (is_byte x); simpl; [|reflexivity].
  rewrite IH. destruct (bytes_ok l); reflexivity.
Qed.

Lemma py_bytes_ok l : bytes_ok l = true -> py_bytes l = Ok l.
Proof. unfold py_bytes. intros ->. reflexivity. Qed.

Lemma py_bytes_bad l :
  bytes_ok l = false -> py_bytes l = Raise (ValueError "bytes must be in range(0, 256)").
Proof. unfold py_bytes. intros ->. reflexivity. Qed.

Lemma length_le_digits len n : List.length (le_digits len n) = len.
Proof. revert n; induction len; simpl; auto. Qed.

Lemma bytes_ok_le_digits len n : bytes_ok (le_digits len n) = true.
Proof.
  revert n; induction len as [|len IH]; intros n; [reflexivity|].
  cbn [le_digits]. rewrite bytes_ok_cons, IH, is_byte_intro by apply land_255_byte. reflexivity.
Qed.

Lemma int_to_bytes_le_2 n :
  0 <= n < 65536 -> int_to_bytes_le 2 n = Ok [Z.land n 255; Z.shiftr n 8].
Proof.
  intros H. unfold int_to_bytes_le.
  replace (n <? 0) with false by (symmetry; apply Z.ltb_ge; lia).
  replace (n <? 2 ^ (8 * Z.of_nat 2)) with true by (symmetry; apply Z.ltb_lt; simpl; lia).
  simpl.
  rewrite (land_255_mod (Z.shiftr n 8)).
  rewrite Z.mod_small; [reflexivity|]. apply shiftr8_byte; lia.
Qed.

Lemma py_getitem_nth b i x :
  nth_error b i = Some x -> py_getitem b (Z.of_nat i) = Ok x.
Proof.
  intros H. unfold py_getitem.
  pose proof (nth_error_Some b i) as [Hl _]. rewrite H in Hl.
  specialize (Hl ltac:(discriminate)).
  replace (Z.of_nat i <? 0) with false by (symmetry; apply Z.ltb_ge; lia).
  replace ((0 <=? Z.of_nat i) && (Z.of_nat i <? Z.of_nat (List.length b)))%bool
    with true by (symmetry; apply andb_true_iff; split; [apply Z.leb_le | apply Z.ltb_lt]; lia).
  rewrite Nat2Z.id, H. reflexivity.
Qed.

Lemma py_getitem_short b i :
  0 <= i -> Z.of_nat (List.length b) <= i -> py_getitem b i = Raise (IndexError "index out of range").
Proof.
  intros H0 H1. unfold py_getitem.
  replace (i <? 0) with false by (symmetry; apply Z.ltb_ge; lia).
  replace ((0 <=? i) && (i <? Z.of_nat (List.length b)))%bool with false
    by (symmetry; apply andb_false_iff; right; apply Z.ltb_ge; lia).
  reflexivity.
Qed.

(** ** The hex round trip *)

Lemma hex_digit_value n :
  0 <= n < 16 ->
  hex_value (hex_digit n) = Some n /\ py_isspace (hex_digit n) = false /\
  Ascii.eqb " "%char (hex_digit n) = false /\ Ascii.eqb "010"%char (hex_digit n) = false.
Proof.
  intros H. apply py_range_In in H. revert n H. apply Forall_forall.
  vm_compute. repeat constructor.
Qed.

Lemma string_app_nil_r (s : string) : (s ++ EmptyString)%string = s.
Proof. induction s as [|c s IH]; cbn; [reflexivity | rewrite IH; reflexivity]. Qed.

Lemma str_remove_app c s1 s2 : str_remove c (s1 ++ s2) = (str_remove c s1 ++ str_remove c s2)%string.
Proof.
  induction s1 as [|d s1 IH]; cbn; [reflexivity|].
  rewrite IH. destruct (Ascii.eqb c d); reflexivity.
Qed.

Lemma fmt_02X_digits x :
  0 <= x < 256 ->
  fmt_02X x = String (hex_digit (x / 16)) (String (hex_digit (x mod 16)) EmptyString) /\
  0 <= x / 16 < 16 /\ 0 <= x mod 16 < 16.
Proof.
  intros H. split; [reflexivity|]. split.
  - split; [apply Z.div_pos | apply Z.div_lt_upper_bound]; lia.
  - apply Z.mod_pos_bound. lia.
Qed.

Lemma str_remove_fmt c x :
  0 <= x < 256 -> (c = " "%char \/ c = "010"%char) -> str_remove c (fmt_02X x) = fmt_02X x.
Proof.
  intros H Hc. destruct (fmt_02X_digits x H) as (-> & Hhi & Hlo).
  destruct (hex_digit_value _ Hhi) as (_ & _ & Hs1 & Hn1).
  destruct (hex_digit_value _ Hlo) as (_ & _ & Hs2 & Hn2).
  cbn. destruct Hc as [-> | ->]; [rewrite Hs1, Hs2 | rewrite Hn1, Hn2]; reflexivity.
Qed.

Lemma hexdump_strip b :
  bytes_ok b = true ->
  str_remove "010"%char (str_remove " "%char (hexdump b)) = hex_concat b.
Proof.
  unfold hexdump, hex_concat. induction b as [|x b IH]; intros Hok; [reflexivity|].
  rewrite bytes_ok_cons, andb_true_iff, is_byte_spec in Hok. destruct Hok as [Hx Hb].
  destruct b as [|y b].
  - cbn [map py_join fold_right]. rewrite string_app_nil_r.
    rewrite !str_remove_fmt by auto. reflexivity.
  - change (py_join " " (map fmt_02X (x :: y :: b)))
      with (fmt_02X x ++ " " ++ py_join " " (map fmt_02X (y :: b)))%string.
    rewrite !str_remove_app. cbn [str_remove Ascii.eqb].
    rewrite IH by exact Hb. rewrite !str_remove_fmt by auto.
    reflexivity.
Qed.

Lemma fromhex_concat pos b :
  bytes_ok b = true -> fromhex_from pos (hex_concat b) = Ok b.
Proof.
  unfold hex_concat. revert pos; induction b as [|x b IH]; intros pos Hok; [reflexivity|].
  rewrite bytes_ok_cons, andb_true_iff, is_byte_spec in Hok. destruct Hok as [Hx Hb].
  destruct (fmt_02X_digits x Hx) as (Hf & Hhi & Hlo).
  destruct (hex_digit_value _ Hhi) as (Hv1 & Hs1 & _).
  destruct (hex_digit_value _ Hlo) as (Hv2 & _ & _).
  cbn [map fold_right]. rewrite Hf. cbn [String.append fromhex_from].
  rewrite Hs1, Hv1, Hv2. rewrite IH by exact Hb. cbn [bind].
  rewrite (Z.div_mod x 16) at 3 by lia. rewrite Z.mul_comm. reflexivity.
Qed.

(** C18: round trip of the hex helpers. For every bytes value [b],
    [hexstr_to_bytes(hexdump(b))] gives back [b]: the text the bridges
    publish for a reply or a frame parses back to the same bytes. *)
Theorem hexdump_roundtrip (b : list Z) :
  bytes_ok b = true -> hexstr_to_bytes (hexdump b) = Ok b.
Proof.
  intros H. unfold hexstr_to_bytes, bytes_fromhex.
  rewrite hexdump_strip by exact H. apply fromhex_concat, H.
Qed.

Lemma hexdump_roundtrip_witness :
  bytes_ok [0x01; 0x03; 0x00; 0x81; 0x00; 0x01; 0xD4; 0x22] = true /\
  hexstr_to_bytes (hexdump [0x01; 0x03; 0x00; 0x81; 0x00; 0x01; 0xD4; 0x22])
    = Ok [0x01; 0x03; 0x00; 0x81; 0x00; 0x01; 0xD4; 0x22].
Proof.
  assert (H : bytes_ok [0x01; 0x03; 0x00; 0x81; 0x00; 0x01; 0xD4; 0x22] = true) by reflexivity.
  split; [exact H|]. exact (hexdump_roundtrip _ H).
Defined.
