(* ===== verification/PyStr.v ===== *)
(** * Python built-ins on text

    The [str] methods and the [int] constructor the text handlers call on
    a command line: [strip()], [lower()], [split()], [startswith()],
    [sep.join()], and [int(s)] in base 10. Strings are ASCII
    ([Stdlib.Strings.String]); Unicode whitespace, case mapping and digits
    outside ASCII are not modelled. *)

From Stdlib Require Import ZArith List Lia String Ascii Bool.
From S2P Require Import Prelude PyBytes.
Import ListNotations.
Open Scope Z_scope.
Local Open Scope py_scope.

(** ["\n"] *)
Definition nl : string := String (ascii_of_nat 10) EmptyString.

(** [c.isspace()] on ASCII: \t \n \v \f \r, the separators \x1c..\x1f
    and space. *)
Definition str_isspace (c : ascii) : bool :=
  let n := nat_of_ascii c in
  ((9 <=? n)%nat && (n <=? 13)%nat) || ((28 <=? n)%nat && (n <=? 32)%nat).

Fixpoint lstrip (s : string) : string :=
  match s with
  | EmptyString => EmptyString
  | String c s' => if str_isspace c then lstrip s' else s
  end.

Definition rstrip (s : string) : string :=
  string_of_list_ascii (rev (list_ascii_of_string (lstrip
    (string_of_list_ascii (rev (list_ascii_of_string s)))))).

(** [s.strip()] *)
Definition py_strip (s : string) : string := rstrip (lstrip s).

Definition ascii_lower (c : ascii) : ascii :=
  let n := nat_of_ascii c in
  if ((65 <=? n)%nat && (n <=? 90)%nat) then ascii_of_nat (n + 32) else c.

(** [s.lower()] *)
Fixpoint py_lower (s : string) : string :=
  match s with
  | EmptyString => EmptyString
  | String c s' => String (ascii_lower c) (py_lower s')
  end.

(** [s.split()]: the maximal runs of non-whitespace characters. [cur] is
    the word being read. *)
Fixpoint split_words (cur : string) (s : string) : list string :=
  match s with
  | EmptyString => match cur with EmptyString => [] | _ => [cur] end
  | String c s' =>
      if str_isspace c then
        match cur with
        | EmptyString => split_words EmptyString s'
        | _ => cur :: split_words EmptyString s'
        end
      else split_words (cur ++ String c EmptyString) s'
  end.

Definition py_split (s : string) : list string := split_words EmptyString s.

(** [s.startswith(p)] *)
Definition py_startswith (s p : string) : bool := String.prefix p s.

(** [int(s)] in base 10: optional surrounding whitespace, an optional
    sign, decimal digits with single underscores between digits. *)
Definition digit_value (c : ascii) : option Z :=
  let n := Z.of_nat (nat_of_ascii c) in
  if (48 <=? n) && (n <=? 57) then Some (n - 48) else None.

(** Digits after the first one: [acc] is the value so far; an underscore
    must be followed by a digit. *)
Fixpoint int_digits (acc : Z) (s : string) : option Z :=
  match s with
  | EmptyString => Some acc
  | String c s' =>
      match digit_value c with
      | Some d => int_digits (acc * 10 + d) s'
      | None =>
          if Ascii.eqb c "_"%char then
            match s' with
            | String c2 s'' =>
                match digit_value c2 with
                | Some d => int_digits (acc * 10 + d) s''
                | None => None
                end
            | EmptyString => None
            end
          else None
      end
  end.

Definition int_unsigned (s : string) : option Z :=
  match s with
  | String c s' => match digit_value c with Some d => int_digits d s' | None => None end
  | EmptyString => None
  end.

Definition py_int (s : string) : result Z :=
  let t := py_strip s in
  let parsed :=
    match t with
    | String "-"%char t' => option_map Z.opp (int_unsigned t')
    | String "+"%char t' => int_unsigned t'
    | _ => int_unsigned t
    end in
  match parsed with
  | Some n => Ok n
  | None => Raise (ValueError ("invalid literal for int() with base 10: '" ++ s ++ "'"))
  end.
