(* ===== verification/Crc16.v ===== *)
(** * The Modbus CRC16 of the three scripts

    [crc16] appears three times, identically, in [raw_modbus_test.py]
    (lines 35-44), [modbus_mqtt_bridge.py] (lines 77-86) and
    [modbus_mqtt_bridge_json.py] (lines 30-39):
<<
    crc = 0xFFFF
    for byte in data:
        crc ^= byte
        for _ in range(8):
            if crc & 1: crc = (crc >> 1) ^ 0xA001
            else:       crc >>= 1
    return crc.to_bytes(2, byteorder='little')
>>
    The spec asks for "the standard Modbus CRC16"; [modbus_crc_reference]
    is that algorithm as the CRC parameter model states it (polynomial
    0x8005 processed MSB first, reflected input and output), and the
    scripts' loop is proved equal to it on every byte string: the bit
    reversal is linear over [^], and the one-round correspondence is
    decided over all 2^16 registers by [check_range] and [vm_compute].
    The register is an unbounded Python int; the theorems show it stays
    16-bit, so [to_bytes] never raises. The residue theorem is the
    property a receiver uses to check a frame: running the CRC over a
    frame followed by its own two CRC bytes leaves the register at 0.
    The register is linear over GF(2) in the bytes fed to it and a round
    never clears a non-zero 16-bit register; together these show that
    every corruption confined to one byte of a frame changes the CRC, so
    the receiver's check catches it. *)

From Stdlib Require Import ZArith List Lia Bool Btauto.
From S2P Require Import Prelude PyBytes.
Import ListNotations.
Open Scope Z_scope.

Module Crc16.

(** One iteration of [for _ in range(8)]. *)
Definition crc16_shift (crc : Z) : Z :=
  if negb (Z.land crc 1 =? 0) then Z.lxor (Z.shiftr crc 1) 0xA001
  else Z.shiftr crc 1.

(** [for _ in range(k)] *)
Fixpoint crc16_rounds (k : nat) (crc : Z) : Z :=
  match k with
  | O => crc
  | S k' => crc16_rounds k' (crc16_shift crc)
  end.

(** The body of [for byte in data]. *)
Definition crc16_step (crc byte : Z) : Z := crc16_rounds 8 (Z.lxor crc byte).

(** The register after the loop. *)
Definition crc16_register (data : list Z) : Z := fold_left crc16_step data 0xFFFF.

(** [crc16(data)] *)
Definition crc16 (data : list Z) : result (list Z) :=
  int_to_bytes_le 2 (crc16_register data).

(** ** The reference algorithm

    The CRC the spec asks for, "the standard Modbus CRC16", in the usual
    parameter model of CRC algorithms: width 16, polynomial 0x8005,
    initial register 0xFFFF, input and output reflected, no final xor.
    The register is processed MSB first, each input byte is bit-reversed
    before it enters the top of the register, and the final register is
    bit-reversed. The scripts run the equivalent LSB-first loop with the
    reversed polynomial 0xA001. *)

(** The low [n] bits of [r] in reverse order. *)
Fixpoint reflect (n : nat) (r : Z) : Z :=
  match n with
  | O => 0
  | S n' => Z.lxor (if Z.odd r then 2 ^ Z.of_nat n' else 0) (reflect n' (Z.div2 r))
  end.

(** One MSB-first round: shift left within 16 bits, add the polynomial
    when the bit shifted out was set. *)
Definition ref_shift (r : Z) : Z :=
  if Z.testbit r 15 then Z.lxor (Z.land (Z.shiftl r 1) 0xFFFF) 0x8005
  else Z.land (Z.shiftl r 1) 0xFFFF.

Fixpoint ref_rounds (k : nat) (r : Z) : Z :=
  match k with
  | O => r
  | S k' => ref_rounds k' (ref_shift r)
  end.

(** One byte, reflected, enters the top of the register. *)
Definition ref_step (r b : Z) : Z := ref_rounds 8 (Z.lxor r (Z.shiftl (reflect 8 b) 8)).

(** The CRC-16/MODBUS register of [data]. *)
Definition modbus_crc_reference (data : list Z) : Z :=
  reflect 16 (fold_left ref_step data 0xFFFF).

(** ** Bounds *)

Lemma crc16_shift_bound c : 0 <= c < 65536 -> 0 <= crc16_shift c < 65536.
Proof.
  intros H. unfold crc16_shift.
  assert (Hs : 0 <= Z.shiftr c 1 < 65536).
  { rewrite Z.shiftr_div_pow2 by lia.
    split; [apply Z.div_pos | apply Z.div_lt_upper_bound]; lia. }
  destruct (negb _); [|exact Hs].
  apply (lxor_lt_pow2 16); simpl; lia.
Qed.

Lemma crc16_rounds_bound k c : 0 <= c < 65536 -> 0 <= crc16_rounds k c < 65536.
Proof.
  revert c; induction k as [|k IH]; intros c H; simpl; [exact H|].
  apply IH, crc16_shift_bound, H.
Qed.

Lemma crc16_step_bound c b :
  0 <= c < 65536 -> 0 <= b < 256 -> 0 <= crc16_step c b < 65536.
Proof.
  intros Hc Hb. apply crc16_rounds_bound.
  apply (lxor_lt_pow2 16); simpl; lia.
Qed.

Lemma crc16_fold_bound data c :
  bytes_ok data = true -> 0 <= c < 65536 ->
  0 <= fold_left crc16_step data c < 65536.
Proof.
  revert c; induction data as [|b data IH]; intros c Hok Hc; simpl; [exact Hc|].
  rewrite bytes_ok_cons, andb_true_iff, is_byte_spec in Hok.
  apply IH; [tauto|]. apply crc16_step_bound; tauto.
Qed.

(** ** Residue *)

Lemma crc16_shift_even x : 0 <= x -> crc16_shift (2 * x) = x.
Proof.
  intros H. unfold crc16_shift.
  rewrite (Z.land_ones _ 1), Z.shiftr_div_pow2 by lia. change (2 ^ 1) with 2.
  rewrite (Z.mul_comm 2 x), Z.mod_mul, Z.div_mul by lia. reflexivity.
Qed.

(** A register whose [k] low bits are clear is shifted right by [k] rounds
    without any polynomial feedback. *)
Lemma crc16_rounds_shifted k x : 0 <= x -> crc16_rounds k (x * 2 ^ Z.of_nat k) = x.
Proof.
  revert x; induction k as [|k IH]; intros x Hx; cbn [crc16_rounds].
  - change (2 ^ Z.of_nat 0) with 1. apply Z.mul_1_r.
  - rewrite Nat2Z.inj_succ, Z.pow_succ_r by lia.
    replace (x * (2 * 2 ^ Z.of_nat k)) with (2 * (x * 2 ^ Z.of_nat k)) by ring.
    rewrite crc16_shift_even by (apply Z.mul_nonneg_nonneg; lia).
    apply IH, Hx.
Qed.

Lemma crc16_rounds_0 k : crc16_rounds k 0 = 0.
Proof. induction k; simpl; auto. Qed.

(** Feeding the low byte of the register clears it and shifts out 8 bits. *)
Lemma crc16_step_low r : 0 <= r -> crc16_step r (Z.land r 255) = Z.shiftr r 8.
Proof.
  intros Hr. unfold crc16_step.
  assert (E : Z.lxor r (Z.land r 255) = Z.shiftr r 8 * 2 ^ Z.of_nat 8).
  { pose proof (Z.add_lxor_2land r (Z.land r 255)) as Hx.
    rewrite Z.land_assoc, Z.land_diag in Hx.
    pose proof (hi_lo_recombine r). simpl. lia. }
  rewrite E. apply crc16_rounds_shifted.
  rewrite shiftr_8_div. apply Z.div_pos; lia.
Qed.

Lemma crc16_step_self x : crc16_step x x = 0.
Proof. unfold crc16_step. rewrite Z.lxor_nilpotent. apply crc16_rounds_0. Qed.

Lemma crc16_fold_residue r : 0 <= r ->
  fold_left crc16_step [Z.land r 255; Z.shiftr r 8] r = 0.
Proof. intros Hr. simpl. rewrite crc16_step_low by exact Hr. apply crc16_step_self. Qed.

Lemma crc16_le_digits data :
  bytes_ok data = true -> crc16 data = Ok (le_digits 2 (crc16_register data)).
Proof.
  intros Hok. pose proof (crc16_fold_bound data 0xFFFF Hok ltac:(lia)) as Hb.
  unfold crc16, int_to_bytes_le. fold (crc16_register data) in Hb.
  replace (crc16_register data <? 0) with false by (symmetry; apply Z.ltb_ge; lia).
  replace (crc16_register data <? 2 ^ (8 * Z.of_nat 2)) with true
    by (symmetry; apply Z.ltb_lt; simpl; lia).
  reflexivity.
Qed.

(** ** Linearity over GF(2) *)

Lemma crc16_shift_odd c :
  crc16_shift c = if Z.odd c then Z.lxor (Z.shiftr c 1) 0xA001 else Z.shiftr c 1.
Proof.
  unfold crc16_shift. rewrite (Z.land_ones _ 1) by lia. change (2 ^ 1) with 2.
  rewrite Zmod_odd. destruct (Z.odd c); reflexivity.
Qed.

Lemma odd_lxor a b : Z.odd (Z.lxor a b) = xorb (Z.odd a) (Z.odd b).
Proof. rewrite <- !Z.bit0_odd. apply Z.lxor_spec. Qed.

(** One round is linear: the feedback polynomial is added exactly when
    the bit shifted out is set. *)
Lemma crc16_shift_lxor a b :
  crc16_shift (Z.lxor a b) = Z.lxor (crc16_shift a) (crc16_shift b).
Proof.
  rewrite !crc16_shift_odd, odd_lxor, Z.shiftr_lxor.
  apply Z.bits_inj'; intros n _.
  destruct (Z.odd a), (Z.odd b); cbn [xorb]; rewrite ?Z.lxor_spec; btauto.
Qed.

Lemma crc16_rounds_lxor k a b :
  crc16_rounds k (Z.lxor a b) = Z.lxor (crc16_rounds k a) (crc16_rounds k b).
Proof.
  revert a b; induction k as [|k IH]; intros a b; cbn [crc16_rounds]; [reflexivity|].
  rewrite crc16_shift_lxor. apply IH.
Qed.

Lemma crc16_rounds_add m n c : crc16_rounds (m + n) c = crc16_rounds n (crc16_rounds m c).
Proof. revert c; induction m as [|m IH]; intros c; cbn [Nat.add crc16_rounds]; auto. Qed.

(** Two registers fed the same bytes: their difference only goes through
    the rounds. *)
Lemma crc16_fold_lxor post r1 r2 :
  Z.lxor (fold_left crc16_step post r1) (fold_left crc16_step post r2)
  = crc16_rounds (8 * List.length post) (Z.lxor r1 r2).
Proof.
  revert r1 r2; induction post as [|b post IH]; intros r1 r2; cbn [fold_left List.length].
  - reflexivity.
  - rewrite IH. unfold crc16_step. rewrite <- crc16_rounds_lxor.
    replace (Z.lxor (Z.lxor r1 b) (Z.lxor r2 b)) with (Z.lxor r1 r2)
      by (apply Z.bits_inj'; intros n _; rewrite !Z.lxor_spec; btauto).
    rewrite <- crc16_rounds_add. f_equal. lia.
Qed.

(** A round never clears a non-zero 16-bit register. *)
Lemma crc16_shift_nonzero c : 0 < c < 65536 -> 0 < crc16_shift c < 65536.
Proof.
  intros Hc. pose proof (crc16_shift_bound c ltac:(lia)) as Hb.
  enough (crc16_shift c <> 0) by lia. rewrite crc16_shift_odd.
  rewrite Z.shiftr_div_pow2 by lia. change (2 ^ 1) with 2.
  destruct (Z.odd c) eqn:Ho; intros E.
  - apply Z.lxor_eq in E. assert (c / 2 < 32768) by (apply Z.div_lt_upper_bound; lia). lia.
  - pose proof (Z.div_mod c 2 ltac:(lia)) as Hd. rewrite Zmod_odd, Ho in Hd. lia.
Qed.

Lemma crc16_rounds_nonzero k c : 0 < c < 65536 -> 0 < crc16_rounds k c < 65536.
Proof.
  revert c; induction k as [|k IH]; intros c Hc; cbn [crc16_rounds]; [exact Hc|].
  apply IH, crc16_shift_nonzero, Hc.
Qed.

(** Two byte strings that differ in one byte have different registers. *)
Lemma crc16_register_byte_change pre x x' post :
  0 <= x < 256 -> 0 <= x' < 256 -> x <> x' ->
  crc16_register (pre ++ x' :: post) <> crc16_register (pre ++ x :: post).
Proof.
  intros Hx Hx' Hne E. unfold crc16_register in E. rewrite !fold_left_app in E.
  cbn [fold_left] in E. set (r := fold_left crc16_step pre 0xFFFF) in E.
  apply Z.lxor_eq_0_iff in E. rewrite crc16_fold_lxor in E.
  unfold crc16_step in E. rewrite <- crc16_rounds_lxor in E.
  replace (Z.lxor (Z.lxor r x') (Z.lxor r x)) with (Z.lxor x' x) in E
    by (apply Z.bits_inj'; intros n _; rewrite !Z.lxor_spec; btauto).
  rewrite <- crc16_rounds_add in E.
  assert (Hd : 0 < Z.lxor x' x < 65536).
  { assert (Z.lxor x' x <> 0) by (rewrite Z.lxor_eq_0_iff; congruence).
    assert (0 <= Z.lxor x' x) by (apply Z.lxor_nonneg; lia).
    assert (Z.lxor x' x < 2 ^ 16) by (apply (lxor_lt_pow2 16); simpl; lia). simpl in *; lia. }
  pose proof (crc16_rounds_nonzero (8 + 8 * List.length post) _ Hd). lia.
Qed.

(** [crc16] on bytes: the register is 16-bit and [to_bytes(2, 'little')]
    splits it into its low and high byte. *)
Lemma crc16_ok data :
  bytes_ok data = true ->
  0 <= crc16_register data < 65536 /\
  crc16 data = Ok [Z.land (crc16_register data) 255; Z.shiftr (crc16_register data) 8].
Proof.
  intros Hok.
  assert (Hb : 0 <= crc16_register data < 65536)
    by (apply crc16_fold_bound; [exact Hok | lia]).
  split; [exact Hb|]. apply int_to_bytes_le_2, Hb.
Qed.

(** The register over a frame followed by its own CRC bytes. *)
Lemma crc16_residue_bytes data :
  bytes_ok data = true ->
  crc16_register (data ++ [Z.land (crc16_register data) 255; Z.shiftr (crc16_register data) 8]) = 0.
Proof.
  intros Hok. destruct (crc16_ok data Hok) as [Hb _].
  unfold crc16_register at 1. rewrite fold_left_app.
  change (fold_left crc16_step data 0xFFFF) with (crc16_register data).
  apply crc16_fold_residue. lia.
Qed.

(** ** Equivalence with the reference algorithm *)

Lemma reflect_bound n r : 0 <= reflect n r < 2 ^ Z.of_nat n.
Proof.
  revert r; induction n as [|n IH]; intros r; cbn [reflect]; [simpl; lia|].
  specialize (IH (Z.div2 r)).
  assert (Hp : 0 < 2 ^ Z.of_nat n) by (apply Z.pow_pos_nonneg; lia).
  pose proof (lxor_lt_pow2 (Z.succ (Z.of_nat n)) (if Z.odd r then 2 ^ Z.of_nat n else 0)
                (reflect n (Z.div2 r))) as H.
  rewrite Nat2Z.inj_succ. rewrite Z.pow_succ_r in H |- * by lia.
  apply H; [lia | destruct (Z.odd r); lia | lia].
Qed.

(** Reversing the bits commutes with [^]. *)
Lemma reflect_lxor n a b : reflect n (Z.lxor a b) = Z.lxor (reflect n a) (reflect n b).
Proof.
  revert a b; induction n as [|n IH]; intros a b; cbn [reflect]; [reflexivity|].
  rewrite odd_lxor, !Z.div2_spec, Z.shiftr_lxor, IH.
  destruct (Z.odd a), (Z.odd b); cbn [xorb];
    apply Z.bits_inj'; intros i _; rewrite !Z.lxor_spec, ?Z.bits_0; btauto.
Qed.

(** The per-round correspondence, decided over all 2^16 registers: the
    LSB-first round with 0xA001 is the MSB-first round with 0x8005 seen
    through the bit reversal. *)
Lemma ref_shift_reflect r :
  0 <= r < 65536 -> reflect 16 (ref_shift r) = crc16_shift (reflect 16 r).
Proof.
  intros Hr. apply Z.eqb_eq.
  refine (check_range_sound (fun r => reflect 16 (ref_shift r) =? crc16_shift (reflect 16 r))
            (Z.to_nat 65536) 0 _ r _); [vm_compute; reflexivity | rewrite Z2Nat.id; lia].
Qed.

(** A reflected byte placed in the top half of the register is the byte
    itself seen through the reversal, decided over all 256 bytes. *)
Lemma reflect_byte_top b : 0 <= b < 256 -> reflect 16 (Z.shiftl (reflect 8 b) 8) = b.
Proof.
  intros Hb. apply Z.eqb_eq.
  refine (check_range_sound (fun b => reflect 16 (Z.shiftl (reflect 8 b) 8) =? b)
            (Z.to_nat 256) 0 _ b _); [vm_compute; reflexivity | rewrite Z2Nat.id; lia].
Qed.

Lemma ref_shift_bound r : 0 <= r < 65536 -> 0 <= ref_shift r < 65536.
Proof.
  intros Hr. unfold ref_shift.
  assert (H : 0 <= Z.land (Z.shiftl r 1) 0xFFFF < 65536).
  { change 0xFFFF with (Z.ones 16). rewrite Z.land_ones by lia. apply Z.mod_pos_bound; lia. }
  destruct (Z.testbit r 15); [apply (lxor_lt_pow2 16); [lia | exact H | cbn; lia] | exact H].
Qed.

Lemma ref_rounds_bound k r : 0 <= r < 65536 -> 0 <= ref_rounds k r < 65536.
Proof.
  revert r; induction k as [|k IH]; intros r Hr; cbn [ref_rounds]; [exact Hr|].
  apply IH, ref_shift_bound, Hr.
Qed.

Lemma ref_rounds_reflect k r :
  0 <= r < 65536 -> reflect 16 (ref_rounds k r) = crc16_rounds k (reflect 16 r).
Proof.
  revert r; induction k as [|k IH]; intros r Hr; cbn [ref_rounds crc16_rounds]; [reflexivity|].
  rewrite IH by (apply ref_shift_bound, Hr). rewrite ref_shift_reflect by exact Hr. reflexivity.
Qed.

(** One byte: the reference step seen through the reversal is the
    script's [crc ^= byte] followed by its eight rounds. *)
Lemma ref_step_reflect r b :
  0 <= r < 65536 -> 0 <= b < 256 ->
  reflect 16 (ref_step r b) = crc16_step (reflect 16 r) b /\ 0 <= ref_step r b < 65536.
Proof.
  intros Hr Hb. unfold ref_step, crc16_step.
  assert (Hx : 0 <= Z.lxor r (Z.shiftl (reflect 8 b) 8) < 65536).
  { pose proof (reflect_bound 8 b) as H8. cbn in H8.
    rewrite Z.shiftl_mul_pow2 by lia.
    apply (lxor_lt_pow2 16); [lia | exact Hr |]. cbn. lia. }
  split; [|apply ref_rounds_bound, Hx].
  rewrite ref_rounds_reflect by exact Hx. rewrite reflect_lxor, reflect_byte_top by exact Hb.
  reflexivity.
Qed.

Lemma ref_fold_reflect data r :
  bytes_ok data = true -> 0 <= r < 65536 ->
  reflect 16 (fold_left ref_step data r) = fold_left crc16_step data (reflect 16 r).
Proof.
  revert r; induction data as [|b data IH]; intros r Hok Hr; cbn [fold_left]; [reflexivity|].
  rewrite bytes_ok_cons, andb_true_iff, is_byte_spec in Hok. destruct Hok as [Hb Hok].
  destruct (ref_step_reflect r b Hr Hb) as [E Hs].
  rewrite IH by assumption. rewrite E. reflexivity.
Qed.

(** C1: [crc16] is the standard Modbus CRC16. For every bytes value, the
    scripts' LSB-first loop with 0xA001 computes the register of the
    CRC-16/MODBUS reference algorithm (polynomial 0x8005, initial
    register 0xFFFF, reflected input and output, no final xor), and
    [crc16] returns that register's low byte, then its high byte. *)
Theorem crc16_is_modbus_crc (data : list Z) :
  bytes_ok data = true ->
  crc16_register data = modbus_crc_reference data /\
  crc16 data = Ok [Z.land (modbus_crc_reference data) 255; Z.shiftr (modbus_crc_reference data) 8].
Proof.
  intros Hok.
  assert (E : crc16_register data = modbus_crc_reference data).
  { unfold crc16_register, modbus_crc_reference.
    rewrite (ref_fold_reflect data 0xFFFF Hok) by lia.
    replace (reflect 16 0xFFFF) with 0xFFFF by reflexivity. reflexivity. }
  split; [exact E|]. rewrite <- E. exact (proj2 (crc16_ok data Hok)).
Qed.

(** At the first frame of the device manual, whose CRC bytes are
    [D9 9A]. *)
Lemma crc16_is_modbus_crc_witness :
  bytes_ok [0x01; 0x06; 0x00; 0x01; 0x01; 0x00] = true /\
  (crc16_register [0x01; 0x06; 0x00; 0x01; 0x01; 0x00]
     = modbus_crc_reference [0x01; 0x06; 0x00; 0x01; 0x01; 0x00] /\
   crc16 [0x01; 0x06; 0x00; 0x01; 0x01; 0x00]
     = Ok [Z.land (modbus_crc_reference [0x01; 0x06; 0x00; 0x01; 0x01; 0x00]) 255;
           Z.shiftr (modbus_crc_reference [0x01; 0x06; 0x00; 0x01; 0x01; 0x00]) 8]) /\
  modbus_crc_reference [0x01; 0x06; 0x00; 0x01; 0x01; 0x00] = 0x9AD9.
Proof.
  assert (H : bytes_ok [0x01; 0x06; 0x00; 0x01; 0x01; 0x00] = true) by reflexivity.
  split; [exact H|]. split; [exact (crc16_is_modbus_crc _ H) | vm_compute; reflexivity].
Defined.

(** C3: on any bytes value the CRC register stays a 16-bit quantity, so
    [crc.to_bytes(2, 'little')] never raises [OverflowError]: [crc16]
    returns exactly two bytes, the low byte of the register first. *)
Theorem crc16_no_overflow (data : list Z) :
  bytes_ok data = true ->
  0 <= crc16_register data < 65536 /\
  crc16 data = Ok [Z.land (crc16_register data) 255; Z.shiftr (crc16_register data) 8] /\
  bytes_ok [Z.land (crc16_register data) 255; Z.shiftr (crc16_register data) 8] = true.
Proof.
  intros Hok. destruct (crc16_ok data Hok) as [Hb Hc].
  split; [exact Hb|]. split; [exact Hc | solve_bytes].
Qed.

Lemma crc16_no_overflow_witness :
  bytes_ok [0x01; 0x03; 0x00; 0x81; 0x00; 0x01] = true /\
  0 <= crc16_register [0x01; 0x03; 0x00; 0x81; 0x00; 0x01] < 65536 /\
  crc16 [0x01; 0x03; 0x00; 0x81; 0x00; 0x01] =
    Ok [Z.land (crc16_register [0x01; 0x03; 0x00; 0x81; 0x00; 0x01]) 255;
        Z.shiftr (crc16_register [0x01; 0x03; 0x00; 0x81; 0x00; 0x01]) 8] /\
  bytes_ok [Z.land (crc16_register [0x01; 0x03; 0x00; 0x81; 0x00; 0x01]) 255;
            Z.shiftr (crc16_register [0x01; 0x03; 0x00; 0x81; 0x00; 0x01]) 8] = true.
Proof.
  split; [reflexivity|].
  apply crc16_no_overflow. reflexivity.
Defined.

(** C2: round trip of the checksum. For every bytes value [data], [crc16]
    succeeds and running the CRC register over [data] followed by the two
    bytes [crc16] returned gives 0: a receiver recomputing the CRC over a
    whole frame built as [frame + crc16(frame)] finds the Modbus residue. *)
Theorem crc16_residue_zero (data : list Z) :
  bytes_ok data = true ->
  exists c, crc16 data = Ok c /\ crc16_register (data ++ c) = 0.
Proof.
  intros Hok. destruct (crc16_ok data Hok) as [_ Hc].
  eexists; split; [exact Hc | apply crc16_residue_bytes, Hok].
Qed.

Lemma crc16_residue_zero_witness :
  bytes_ok [0x01; 0x06; 0x00; 0x01; 0x01; 0x00] = true /\
  exists c, crc16 [0x01; 0x06; 0x00; 0x01; 0x01; 0x00] = Ok c /\
            crc16_register ([0x01; 0x06; 0x00; 0x01; 0x01; 0x00] ++ c) = 0.
Proof.
  split; [reflexivity|].
  apply crc16_residue_zero. reflexivity.
Defined.

(** C27: the receiver's CRC check catches every corruption confined to
    one byte. Take the frame [data ++ crc16(data)] a builder sends and
    replace any one of its bytes, data or CRC, by a different byte: the
    CRC register over the received frame is no longer the residue 0, so
    a receiver checking the CRC rejects it. *)
Theorem crc16_detects_byte_error data c pre x post x' :
  bytes_ok data = true -> crc16 data = Ok c -> data ++ c = pre ++ x :: post ->
  0 <= x' < 256 -> x' <> x ->
  crc16_register (pre ++ x' :: post) <> 0.
Proof.
  intros Hok Hc Hsplit Hx' Hne.
  destruct (crc16_ok data Hok) as [Hb Hc']. rewrite Hc' in Hc. injection Hc as <-.
  pose proof (crc16_residue_bytes data Hok) as Hres. rewrite Hsplit in Hres.
  assert (Hx : 0 <= x < 256).
  { assert (Hall : bytes_ok (pre ++ x :: post) = true).
    { rewrite <- Hsplit, bytes_ok_app, Hok. cbn [andb]. solve_bytes. }
    rewrite bytes_ok_app, bytes_ok_cons in Hall. apply andb_true_iff in Hall as [_ Hall].
    apply andb_true_iff in Hall as [Hall _]. apply is_byte_spec in Hall. exact Hall. }
  rewrite <- Hres. apply crc16_register_byte_change; auto.
Qed.

Lemma crc16_detects_byte_error_witness :
  bytes_ok [0x01; 0x06; 0x00; 0x01; 0x01; 0x00] = true /\
  crc16 [0x01; 0x06; 0x00; 0x01; 0x01; 0x00] = Ok [0xD9; 0x9A] /\
  [0x01; 0x06; 0x00; 0x01; 0x01; 0x00] ++ [0xD9; 0x9A] = [0x01; 0x06] ++ 0x00 :: [0x01; 0x01; 0x00; 0xD9; 0x9A] /\
  0 <= 0x04 < 256 /\ 0x04 <> 0x00 /\
  crc16_register ([0x01; 0x06] ++ 0x04 :: [0x01; 0x01; 0x00; 0xD9; 0x9A]) <> 0.
Proof.
  assert (H1 : bytes_ok [0x01; 0x06; 0x00; 0x01; 0x01; 0x00] = true) by reflexivity.
  assert (H2 : crc16 [0x01; 0x06; 0x00; 0x01; 0x01; 0x00] = Ok [0xD9; 0x9A]) by (vm_compute; reflexivity).
  assert (H3 : [0x01; 0x06; 0x00; 0x01; 0x01; 0x00] ++ [0xD9; 0x9A]
               = [0x01; 0x06] ++ 0x00 :: [0x01; 0x01; 0x00; 0xD9; 0x9A]) by reflexivity.
  assert (H4 : 0 <= 0x04 < 256) by lia.
  assert (H5 : 0x04 <> 0x00) by discriminate.
  split; [exact H1|]. split; [exact H2|]. split; [exact H3|]. split; [exact H4|]. split; [exact H5|].
  exact (crc16_detects_byte_error _ _ _ _ _ _ H1 H2 H3 H4 H5).
Defined.

End Crc16.
