(* ===== verification/Frames.v ===== *)
(** * Request frames: the channel address map and the frame builders

    The spec's Channel Address Map and Request Builder (an abstract
    description, module [AddressMap]) and the builders each script really
    has:
    - [Raw]: [raw_modbus_test.py] lines 47-95 ([build_relay_command],
      [build_read_input], [builst_read_output] with its [+ 1]);
    - [Bridge]: [modbus_mqtt_bridge.py] lines 89-137 (the same, but
      [builst_read_output] addresses the channel directly);
    - [Json]: [modbus_mqtt_bridge_json.py] lines 47-89 ([build_relay_command]
      with the checks in the other order, [build_read_input],
      [build_read_output] without masking); its arguments are the values
      [json.loads] produced, so a string channel raises [TypeError].

    The text variants' relay builder prints the frame before its CRC; it
    is split at that statement into [relay_frame_wo_crc] (the checks and
    the six bytes) and [build_relay_command] (the frame it returns), and
    the print is a statement of the handlers that call it
    ([TextBridge.relay_command_io]). Each of [Raw] and [Bridge] carries
    the script's own [crc16], [WRITE_REG] and [READ_REG]; [Bridge] and
    [Json] also carry the script's own [hexdump]. *)

From Stdlib Require Import ZArith List Lia String Ascii Bool.
From S2P Require Import Prelude PyBytes Crc16.
Import ListNotations.
Open Scope Z_scope.
Local Open Scope py_scope.
Import Crc16.

Definition WRITE_REG : Z := 0x06.
Definition READ_REG : Z := 0x03.

(** ** The spec's address map (spec 3, 4.2, 4.3, 6) *)
Module AddressMap.

Inductive function_code := ReadHoldingRegister | WriteSingleRegister.

Definition function_code_byte (f : function_code) : Z :=
  match f with ReadHoldingRegister => READ_REG | WriteSingleRegister => WRITE_REG end.

Inductive relay_action := On | Off.

Definition action_data (a : relay_action) : Z * Z :=
  match a with On => (0x01, 0x00) | Off => (0x02, 0x00) end.

(** The textual token of an action, as the commands carry it. *)
Definition action_token (a : relay_action) : string :=
  match a with On => "on" | Off => "off" end.

Inductive channel_kind :=
| RelayOutput (a : relay_action)
| DigitalInput
| OutputStatus.

(** A resolved request: function, register address, data word. *)
Record request := mk_request { req_fn : function_code; req_addr : Z; req_data : Z * Z }.

Inductive map_error := InvalidChannel.

Definition valid_channel (ch : Z) : bool := (1 <=? ch) && (ch <=? 8).

(** (kind, channel) to (function, address, data); output status is read
    at the channel's own register, the policy of the JSON bridge. *)
Definition address_map (k : channel_kind) (ch : Z) : map_error + request :=
  if valid_channel ch then
    inr (match k with
         | RelayOutput a => mk_request WriteSingleRegister ch (action_data a)
         | DigitalInput => mk_request ReadHoldingRegister (0x0080 + ch) (0x00, 0x01)
         | OutputStatus => mk_request ReadHoldingRegister ch (0x00, 0x01)
         end)
  else inl InvalidChannel.

(** The 6-byte body and the 8-byte frame with its little-endian CRC. *)
Definition body (device : Z) (r : request) : list Z :=
  [device; function_code_byte (req_fn r); Z.shiftr (req_addr r) 8;
   Z.land (req_addr r) 255; fst (req_data r); snd (req_data r)].

Definition encode (device : Z) (r : request) : list Z :=
  body device r ++ le_digits 2 (crc16_register (body device r)).

Definition build_request (device : Z) (k : channel_kind) (ch : Z) : map_error + list Z :=
  match address_map k ch with
  | inl e => inl e
  | inr r => inr (encode device r)
  end.

End AddressMap.

(** ** [raw_modbus_test.py] *)
Module Raw.

(** This script's own copies of the register constants and of [crc16]
    (lines 21-22 and 35-44 of the script). *)
Definition WRITE_REG : Z := 0x06.
Definition READ_REG : Z := 0x03.

Definition crc16 (data : list Z) : result (list Z) :=
  int_to_bytes_le 2 (fold_left Crc16.crc16_step data 0xFFFF).

(** [build_relay_command] up to [frame_wo_crc = bytes([...])]: the
    action and channel checks and the six bytes. *)
Definition relay_frame_wo_crc (device channel : Z) (action : string) : result (list Z) :=
  let reg_hi := 0x00 in
  let reg_lo := channel in
  data <- (if String.eqb action "on" then Ok (0x01, 0x00)
           else if String.eqb action "off" then Ok (0x02, 0x00)
           else Raise (ValueError "action must be 'on' or 'off'")) ;;
  let '(data_hi, data_lo) := data in
  if (8 <? channel) || (channel <? 1) then Raise (ValueError "channel must be 1-8")
  else py_bytes [device; WRITE_REG; reg_hi; reg_lo; data_hi; data_lo].

(** The frame [build_relay_command] returns. Between the two steps the
    function prints the frame without its CRC; that statement is part
    of the handlers' model ([TextBridge.relay_command_io]). *)
Definition build_relay_command (device channel : Z) (action : string) : result (list Z) :=
  frame_wo_crc <- relay_frame_wo_crc device channel action ;;
  crc <- crc16 frame_wo_crc ;;
  Ok (frame_wo_crc ++ crc).

Definition build_read_input (device input_num : Z) : result (list Z) :=
  let addr := 0x0080 + input_num in
  frame_wo_crc <- py_bytes [device; READ_REG; Z.land (Z.shiftr addr 8) 0xFF;
                            Z.land addr 0xFF; 0x00; 0x01] ;;
  crc <- crc16 frame_wo_crc ;;
  Ok (frame_wo_crc ++ crc).

Definition builst_read_output (device output_num : Z) : result (list Z) :=
  let addr := output_num + 1 in
  frame_wo_crc <- py_bytes [device; READ_REG; Z.land (Z.shiftr addr 8) 0xFF;
                            Z.land addr 0xFF; 0x00; 0x01] ;;
  crc <- crc16 frame_wo_crc ;;
  Ok (frame_wo_crc ++ crc).

(** [EXAMPLES]: the frames of the device manual, as hex strings. *)
Definition EXAMPLES : list (string * string) :=
  [("chan1_open"%string, "01 06 00 01 01 00 D9 9A"%string);
   ("chan1_close"%string, "01 06 00 01 02 00 D9 6A"%string);
   ("read_ch1"%string, "01 03 00 01 00 01 D5 CA"%string);
   ("remove realationship"%string, "01 06 00 FD 00 00 18 3A"%string)].

End Raw.

(** ** [modbus_mqtt_bridge.py] *)
Module Bridge.

(** This script's own copies of the register constants and of [crc16]
    (lines 63-64 and 77-86 of the script). *)
Definition WRITE_REG : Z := 0x06.
Definition READ_REG : Z := 0x03.

Definition crc16 (data : list Z) : result (list Z) :=
  int_to_bytes_le 2 (fold_left Crc16.crc16_step data 0xFFFF).

(** This script's own copy of [hexdump] (lines 139-140). *)
Definition hexdump (b : list Z) : string := py_join " " (map fmt_02X b).

(** [build_relay_command] up to [frame_wo_crc = bytes([...])]: the
    action and channel checks and the six bytes. *)
Definition relay_frame_wo_crc (device channel : Z) (action : string) : result (list Z) :=
  let reg_hi := 0x00 in
  let reg_lo := channel in
  data <- (if String.eqb action "on" then Ok (0x01, 0x00)
           else if String.eqb action "off" then Ok (0x02, 0x00)
           else Raise (ValueError "action must be 'on' or 'off'")) ;;
  let '(data_hi, data_lo) := data in
  if (8 <? channel) || (channel <? 1) then Raise (ValueError "channel must be 1-8")
  else py_bytes [device; WRITE_REG; reg_hi; reg_lo; data_hi; data_lo].

(** The frame [build_relay_command] returns. Between the two steps the
    function prints the frame without its CRC; that statement is part
    of the handlers' model ([TextBridge.relay_command_io]). *)
Definition build_relay_command (device channel : Z) (action : string) : result (list Z) :=
  frame_wo_crc <- relay_frame_wo_crc device channel action ;;
  crc <- crc16 frame_wo_crc ;;
  Ok (frame_wo_crc ++ crc).

Definition build_read_input (device input_num : Z) : result (list Z) :=
  let addr := 0x0080 + input_num in
  frame_wo_crc <- py_bytes [device; READ_REG; Z.land (Z.shiftr addr 8) 0xFF;
                            Z.land addr 0xFF; 0x00; 0x01] ;;
  crc <- crc16 frame_wo_crc ;;
  Ok (frame_wo_crc ++ crc).

Definition builst_read_output (device output_num : Z) : result (list Z) :=
  let addr := output_num in
  frame_wo_crc <- py_bytes [device; READ_REG; Z.land (Z.shiftr addr 8) 0xFF;
                            Z.land addr 0xFF; 0x00; 0x01] ;;
  crc <- crc16 frame_wo_crc ;;
  Ok (frame_wo_crc ++ crc).

(** The script's copies of [hexstr_to_bytes] and [EXAMPLES] (lines 66-75);
    nothing in the script uses them. *)
Definition hexstr_to_bytes (s : string) : result (list Z) :=
  bytes_fromhex (str_remove "010"%char (str_remove " "%char s)).

Definition EXAMPLES : list (string * string) :=
  [("chan1_open"%string, "01 06 00 01 01 00 D9 9A"%string);
   ("chan1_close"%string, "01 06 00 01 02 00 D9 6A"%string);
   ("read_ch1"%string, "01 03 00 01 00 01 D5 CA"%string);
   ("remove realationship"%string, "01 06 00 FD 00 00 18 3A"%string)].

End Bridge.

(** ** [modbus_mqtt_bridge_json.py] *)
Module Json.

(** This script's own copy of [hexdump] (lines 41-42); its [crc16] and
    register constants are the shared ones above. *)
Definition hexdump (b : list Z) : string := py_join " " (map fmt_02X b).

Definition build_relay_command (device : Z) (channel action : json) : result (list Z) :=
  lt1 <- py_lt_int channel 1 ;;
  bad <- (if lt1 then Ok true else py_gt_int channel 8) ;;
  if bad then Raise (ValueError "channel must be 1-8")
  else
    data <- (if py_eq_str action "on" then Ok (0x01, 0x00)
             else if py_eq_str action "off" then Ok (0x02, 0x00)
             else Raise (ValueError "action must be 'on' or 'off'")) ;;
    let '(data_hi, data_lo) := data in
    frame <- py_bytes_vals [JInt device; JInt WRITE_REG; JInt 0x00; channel;
                            JInt data_hi; JInt data_lo] ;;
    crc <- crc16 frame ;;
    Ok (frame ++ crc).

Definition build_read_input (device : Z) (input_num : json) : result (list Z) :=
  addr <- py_int_add 0x0080 input_num ;;
  frame <- py_bytes [device; READ_REG; Z.land (Z.shiftr addr 8) 0xFF;
                     Z.land addr 0xFF; 0x00; 0x01] ;;
  crc <- crc16 frame ;;
  Ok (frame ++ crc).

Definition build_read_output (device : Z) (output_num : json) : result (list Z) :=
  frame <- py_bytes_vals [JInt device; JInt READ_REG; JInt 0x00; output_num;
                          JInt 0x00; JInt 0x01] ;;
  crc <- crc16 frame ;;
  Ok (frame ++ crc).

End Json.

(** The frames of a sweep over channels 1..8 ([for i in range(1, 9)]) as
    the spec's address map encodes them: the relay command [a] on every
    channel, or a read of the register [addr i] of every channel. *)
Definition relay_frames (device : Z) (a : AddressMap.relay_action) : list (list Z) :=
  map (fun i => AddressMap.encode device
                  (AddressMap.mk_request AddressMap.WriteSingleRegister i (AddressMap.action_data a)))
      (py_range 1 9).

Definition read_holding_frame (device a : Z) : list Z :=
  AddressMap.encode device (AddressMap.mk_request AddressMap.ReadHoldingRegister a (0x00, 0x01)).

Definition read_frames (device : Z) (addr : Z -> Z) : list (list Z) :=
  map (fun i => read_holding_frame device (addr i)) (py_range 1 9).

(** An 8-byte frame of bytes whose CRC register residue is 0. *)
Definition frame_ok (f : list Z) : bool :=
  (Nat.eqb (List.length f) 8 && bytes_ok f && (crc16_register f =? 0))%bool.

(** ** Shared lemmas *)

Lemma valid_channel_spec ch : AddressMap.valid_channel ch = true <-> 1 <= ch <= 8.
Proof. unfold AddressMap.valid_channel. rewrite andb_true_iff, !Z.leb_le. tauto. Qed.

Lemma channel_test_valid ch :
  ((8 <? ch) || (ch <? 1))%bool = negb (AddressMap.valid_channel ch).
Proof.
  unfold AddressMap.valid_channel.
  destruct (Z.ltb_spec 8 ch), (Z.ltb_spec ch 1), (Z.leb_spec 1 ch), (Z.leb_spec ch 8);
    simpl; reflexivity || lia.
Qed.

(** The tail every builder shares: [frame + crc16(frame)]. *)
Lemma frame_plus_crc body :
  bytes_ok body = true ->
  (frame <- py_bytes body ;; crc <- crc16 frame ;; Ok (frame ++ crc))
  = Ok (body ++ le_digits 2 (crc16_register body)).
Proof. intros Hok. rewrite py_bytes_ok by exact Hok. simpl. rewrite crc16_le_digits by exact Hok. reflexivity. Qed.

Lemma frame_plus_crc_vals body :
  bytes_ok body = true ->
  (frame <- py_bytes_vals (map JInt body) ;; crc <- crc16 frame ;; Ok (frame ++ crc))
  = Ok (body ++ le_digits 2 (crc16_register body)).
Proof. rewrite py_bytes_vals_ints. apply frame_plus_crc. Qed.

Lemma frame_plus_crc_vals6 b0 b1 b2 b3 b4 b5 :
  bytes_ok [b0; b1; b2; b3; b4; b5] = true ->
  (frame <- py_bytes_vals [JInt b0; JInt b1; JInt b2; JInt b3; JInt b4; JInt b5] ;;
   crc <- crc16 frame ;; Ok (frame ++ crc))
  = Ok ([b0; b1; b2; b3; b4; b5] ++ le_digits 2 (crc16_register [b0; b1; b2; b3; b4; b5])).
Proof. exact (frame_plus_crc_vals [b0; b1; b2; b3; b4; b5]). Qed.

Lemma frame_plus_crc_bad body :
  bytes_ok body = false ->
  (frame <- py_bytes body ;; crc <- crc16 frame ;; Ok (frame ++ crc))
  = Raise (ValueError "bytes must be in range(0, 256)").
Proof. intros H. rewrite py_bytes_bad by exact H. reflexivity. Qed.

(** A register address below 256 has high byte 0 and is its own low byte. *)
Lemma small_addr_hi a : 0 <= a < 256 -> Z.land (Z.shiftr a 8) 255 = Z.shiftr a 8 /\ Z.shiftr a 8 = 0.
Proof.
  intros H. rewrite shiftr_8_div, Z.div_small by lia. split; reflexivity.
Qed.

Lemma small_addr_lo a : 0 <= a < 256 -> Z.land a 255 = a.
Proof. intros H. rewrite land_255_mod. apply Z.mod_small, H. Qed.

(** Resolving a valid (kind, channel) in the spec. *)
Lemma build_request_inv device k ch f :
  AddressMap.build_request device k ch = inr f ->
  1 <= ch <= 8 /\
  f = AddressMap.encode device
        match k with
        | AddressMap.RelayOutput a =>
            AddressMap.mk_request AddressMap.WriteSingleRegister ch (AddressMap.action_data a)
        | AddressMap.DigitalInput =>
            AddressMap.mk_request AddressMap.ReadHoldingRegister (0x0080 + ch) (0x00, 0x01)
        | AddressMap.OutputStatus =>
            AddressMap.mk_request AddressMap.ReadHoldingRegister ch (0x00, 0x01)
        end.
Proof.
  unfold AddressMap.build_request, AddressMap.address_map.
  destruct (AddressMap.valid_channel ch) eqn:Hv; [|discriminate].
  intros H. injection H as <-. apply valid_channel_spec in Hv. split; [exact Hv|reflexivity].
Qed.

Lemma encode_small device fn addr data :
  0 <= addr < 256 ->
  AddressMap.encode device (AddressMap.mk_request fn addr data) =
  [device; AddressMap.function_code_byte fn; 0; addr; fst data; snd data]
    ++ le_digits 2 (crc16_register [device; AddressMap.function_code_byte fn; 0; addr;
                                     fst data; snd data]).
Proof.
  intros H. unfold AddressMap.encode, AddressMap.body. cbn [AddressMap.req_addr].
  rewrite (proj2 (small_addr_hi addr H)), (small_addr_lo addr H). reflexivity.
Qed.

(** Unfold a builder down to its checks and the shared [frame + crc] tail. *)
Ltac open_builder :=
  try unfold Raw.relay_frame_wo_crc, Bridge.relay_frame_wo_crc;
  cbn -[py_bytes py_bytes_vals crc16 crc16_register le_digits Z.land Z.shiftr];
  rewrite ?channel_test_valid.

Section ValidRelay.
Variables (device ch : Z) (a : AddressMap.relay_action).
Hypothesis Hdev : 0 <= device < 256.
Hypothesis Hch : 1 <= ch <= 8.

Local Abbreviation frame := (AddressMap.encode device
  (AddressMap.mk_request AddressMap.WriteSingleRegister ch (AddressMap.action_data a))).

Lemma relay_body_ok : bytes_ok [device; WRITE_REG; 0; ch; fst (AddressMap.action_data a);
                          snd (AddressMap.action_data a)] = true.
  Proof. destruct a; solve_bytes. Qed.

Lemma relay_channel_valid : AddressMap.valid_channel ch = true.
  Proof. apply valid_channel_spec, Hch. Qed.

(** The six bytes the text scripts' relay builder prints. *)
Lemma text_relay_wo_crc_valid :
  Raw.relay_frame_wo_crc device ch (AddressMap.action_token a)
    = Ok [device; WRITE_REG; 0; ch; fst (AddressMap.action_data a); snd (AddressMap.action_data a)] /\
  Bridge.relay_frame_wo_crc device ch (AddressMap.action_token a)
    = Ok [device; WRITE_REG; 0; ch; fst (AddressMap.action_data a); snd (AddressMap.action_data a)].
  Proof.
    pose proof relay_body_ok as Hb. destruct a; open_builder; rewrite relay_channel_valid; cbn [negb];
      (split; apply py_bytes_ok; exact Hb).
  Qed.

Lemma raw_relay_valid : Raw.build_relay_command device ch (AddressMap.action_token a) = Ok frame.
  Proof.
    rewrite encode_small by lia. unfold Raw.build_relay_command.
    pose proof relay_body_ok as Hb. destruct a; open_builder; rewrite relay_channel_valid; cbn [negb];
      (rewrite frame_plus_crc; [reflexivity | exact Hb]).
  Qed.

Lemma bridge_relay_valid : Bridge.build_relay_command device ch (AddressMap.action_token a) = Ok frame.
  Proof.
    rewrite encode_small by lia. unfold Bridge.build_relay_command.
    pose proof relay_body_ok as Hb. destruct a; open_builder; rewrite relay_channel_valid; cbn [negb];
      (rewrite frame_plus_crc; [reflexivity | exact Hb]).
  Qed.
Lemma json_relay_valid :
    Json.build_relay_command device (JInt ch) (JStr (AddressMap.action_token a)) = Ok frame.
  Proof.
    rewrite encode_small by lia. unfold Json.build_relay_command.
    pose proof relay_body_ok as Hb. destruct a; open_builder;
      replace (ch <? 1) with false by (symmetry; apply Z.ltb_ge; lia);
      replace (8 <? ch) with false by (symmetry; apply Z.ltb_ge; lia); cbn [bind];
      (rewrite frame_plus_crc_vals6; [reflexivity | exact Hb]).
  Qed.
End ValidRelay.

(** Masking [(addr >> 8) & 0xFF] and [addr & 0xFF] keeps the 16-bit
    address [addr mod 2^16], for any Python int, negative ones included. *)
Lemma addr16_hi a : Z.land (Z.shiftr a 8) 255 = Z.shiftr (a mod 65536) 8.
Proof.
  rewrite land_255_mod, !shiftr_8_div.
  change 65536 with (256 * 256). rewrite Z.rem_mul_r by lia.
  replace (a mod 256 + 256 * (a / 256 mod 256)) with (a / 256 mod 256 * 256 + a mod 256) by ring.
  rewrite Z.div_add_l by lia.
  rewrite (Z.div_small (a mod 256) 256) by (apply Z.mod_pos_bound; lia). ring.
Qed.

Lemma addr16_lo a : Z.land a 255 = Z.land (a mod 65536) 255.
Proof.
  rewrite !land_255_mod. change 65536 with (256 * 256).
  rewrite Z.rem_mul_r by lia.
  replace (a mod 256 + 256 * (a / 256 mod 256)) with (a mod 256 + a / 256 mod 256 * 256) by ring.
  rewrite Z.mod_add, Z.mod_mod by lia. reflexivity.
Qed.

Lemma read_body_ok device a :
  0 <= device < 256 ->
  bytes_ok [device; READ_REG; Z.land (Z.shiftr a 8) 255; Z.land a 255; 0; 1] = true.
Proof. intros H. solve_bytes. Qed.

Lemma encode_read_masked device a :
  [device; READ_REG; Z.land (Z.shiftr a 8) 255; Z.land a 255; 0; 1]
    ++ le_digits 2 (crc16_register [device; READ_REG; Z.land (Z.shiftr a 8) 255;
                                     Z.land a 255; 0; 1]) =
  AddressMap.encode device
    (AddressMap.mk_request AddressMap.ReadHoldingRegister (a mod 65536) (0x00, 0x01)).
Proof.
  unfold AddressMap.encode, AddressMap.body. cbn [AddressMap.req_addr AddressMap.req_fn
    AddressMap.req_data fst snd AddressMap.function_code_byte].
  rewrite (addr16_hi a), (addr16_lo a). reflexivity.
Qed.

Section AnyRead.
Variables (device n : Z).
Hypothesis Hdev : 0 <= device < 256.

Local Abbreviation read_frame a := (AddressMap.encode device
  (AddressMap.mk_request AddressMap.ReadHoldingRegister (a mod 65536) (0x00, 0x01))).

Lemma raw_input_any : Raw.build_read_input device n = Ok (read_frame (0x0080 + n)).
  Proof.
    unfold Raw.build_read_input. open_builder.
    rewrite frame_plus_crc by (apply read_body_ok, Hdev). rewrite encode_read_masked. reflexivity.
  Qed.

Lemma bridge_input_any : Bridge.build_read_input device n = Ok (read_frame (0x0080 + n)).
  Proof.
    unfold Bridge.build_read_input. open_builder.
    rewrite frame_plus_crc by (apply read_body_ok, Hdev). rewrite encode_read_masked. reflexivity.
  Qed.

Lemma json_input_any : Json.build_read_input device (JInt n) = Ok (read_frame (0x0080 + n)).
  Proof.
    unfold Json.build_read_input. open_builder.
    rewrite frame_plus_crc by (apply read_body_ok, Hdev). rewrite encode_read_masked. reflexivity.
  Qed.

Lemma raw_output_any : Raw.builst_read_output device n = Ok (read_frame (n + 1)).
  Proof.
    unfold Raw.builst_read_output. open_builder.
    rewrite frame_plus_crc by (apply read_body_ok, Hdev). rewrite encode_read_masked. reflexivity.
  Qed.

Lemma bridge_output_any : Bridge.builst_read_output device n = Ok (read_frame n).
  Proof.
    unfold Bridge.builst_read_output. open_builder.
    rewrite frame_plus_crc by (apply read_body_ok, Hdev). rewrite encode_read_masked. reflexivity.
  Qed.

Lemma json_output_byte :
    0 <= n < 256 -> Json.build_read_output device (JInt n) = Ok (read_frame n).
  Proof.
    intros Hn. unfold Json.build_read_output.
    rewrite frame_plus_crc_vals6 by solve_bytes. rewrite Z.mod_small by lia.
    rewrite encode_small by lia. reflexivity.
  Qed.
End AnyRead.

Lemma read_frame_mod device a :
  0 <= a < 65536 ->
  AddressMap.encode device (AddressMap.mk_request AddressMap.ReadHoldingRegister (a mod 65536) (0x00, 0x01))
  = read_holding_frame device a.
Proof. intros H. rewrite Z.mod_small by exact H. reflexivity. Qed.

(** A read builder of the AnyRead lemmas [L], on an address in range. *)
Ltac read_ok L :=
  let i := fresh "i" in let Hi := fresh "Hi" in
  intros i Hi; rewrite L by lia; rewrite read_frame_mod by lia; reflexivity.

(** ** Well-formed frames *)

Lemma le_digits_crc_residue body :
  bytes_ok body = true ->
  crc16_register (body ++ le_digits 2 (crc16_register body)) = 0.
Proof.
  intros Hok. pose proof (crc16_le_digits body Hok) as Hl.
  destruct (crc16_ok body Hok) as [_ Hc]. rewrite Hc in Hl.
  assert (E : le_digits 2 (crc16_register body)
              = [Z.land (crc16_register body) 255; Z.shiftr (crc16_register body) 8]) by congruence.
  rewrite E. apply crc16_residue_bytes, Hok.
Qed.

Lemma sealed_frame_ok body :
  List.length body = 6%nat -> bytes_ok body = true ->
  frame_ok (body ++ le_digits 2 (crc16_register body)) = true.
Proof.
  intros Hl Hok. unfold frame_ok.
  rewrite length_app, length_le_digits, Hl, le_digits_crc_residue by exact Hok.
  rewrite bytes_ok_app, Hok, bytes_ok_le_digits. reflexivity.
Qed.

Lemma tail_frame_ok body f :
  List.length body = 6%nat ->
  (frame <- py_bytes body ;; crc <- crc16 frame ;; Ok (frame ++ crc)) = Ok f ->
  frame_ok f = true.
Proof.
  intros Hl H. destruct (bytes_ok body) eqn:Hok.
  - rewrite frame_plus_crc in H by exact Hok. injection H as <-.
    apply sealed_frame_ok; assumption.
  - rewrite frame_plus_crc_bad in H by exact Hok. discriminate.
Qed.

Lemma py_bytes_vals_ok l b :
  py_bytes_vals l = Ok b -> List.length b = List.length l /\ bytes_ok b = true.
Proof.
  revert b; induction l as [|v l IH]; intros b H; cbn in H.
  - injection H as <-. split; reflexivity.
  - destruct (py_int_value v) as [n|]; [|discriminate].
    destruct (is_byte n) eqn:Hn; [|discriminate].
    destruct (py_bytes_vals l) as [r|] eqn:Hr; [|discriminate].
    cbn in H. injection H as <-. destruct (IH r eq_refl) as [Hl Hok].
    rewrite bytes_ok_cons, Hn, Hok. cbn. rewrite Hl. split; reflexivity.
Qed.

Lemma tail_frame_ok_vals vals f :
  List.length vals = 6%nat ->
  (frame <- py_bytes_vals vals ;; crc <- crc16 frame ;; Ok (frame ++ crc)) = Ok f ->
  frame_ok f = true.
Proof.
  intros Hl H. destruct (py_bytes_vals vals) as [b|] eqn:Hb; [|discriminate].
  destruct (py_bytes_vals_ok vals b Hb) as [Hlb Hok].
  apply (tail_frame_ok b f); [congruence|]. rewrite py_bytes_ok by exact Hok. exact H.
Qed.

(** Walk the checks in front of the [frame + crc16(frame)] tail of a
    builder that returned [Ok f]. *)
Ltac builder_ok_inv H :=
  rewrite ?bind_assoc in H;
  repeat first
    [ solve [refine (tail_frame_ok _ _ _ H); reflexivity]
    | solve [refine (tail_frame_ok_vals _ _ _ H); reflexivity]
    | match type of H with
      | bind (let '(_, _) := ?p in _) _ = Ok _ => destruct p
      | bind (if ?b then _ else _) _ = Ok _ => destruct b; cbn [bind] in H; try discriminate H
      | bind ?c _ = Ok _ =>
          let a := fresh "a" in
          destruct c as [a|] eqn:?; [cbn [bind] in H | discriminate H]
      | (if ?b then _ else _) = Ok _ => destruct b; [try discriminate H | try discriminate H]
      | (let '(_, _) := ?p in _) = Ok _ => destruct p
      | Raise _ = Ok _ => discriminate H
      end ].

(** Each builder, on any arguments: a frame it returns is well formed. *)
Lemma raw_relay_frame_ok d c s f : Raw.build_relay_command d c s = Ok f -> frame_ok f = true.
Proof. intros H. unfold Raw.build_relay_command, Raw.relay_frame_wo_crc in H. builder_ok_inv H. Qed.

Lemma raw_input_frame_ok d n f : Raw.build_read_input d n = Ok f -> frame_ok f = true.
Proof. intros H. unfold Raw.build_read_input in H. builder_ok_inv H. Qed.

Lemma raw_output_frame_ok d n f : Raw.builst_read_output d n = Ok f -> frame_ok f = true.
Proof. intros H. unfold Raw.builst_read_output in H. builder_ok_inv H. Qed.

Lemma bridge_relay_frame_ok d c s f : Bridge.build_relay_command d c s = Ok f -> frame_ok f = true.
Proof. intros H. unfold Bridge.build_relay_command, Bridge.relay_frame_wo_crc in H. builder_ok_inv H. Qed.

Lemma bridge_input_frame_ok d n f : Bridge.build_read_input d n = Ok f -> frame_ok f = true.
Proof. intros H. unfold Bridge.build_read_input in H. builder_ok_inv H. Qed.

Lemma bridge_output_frame_ok d n f : Bridge.builst_read_output d n = Ok f -> frame_ok f = true.
Proof. intros H. unfold Bridge.builst_read_output in H. builder_ok_inv H. Qed.

Lemma json_relay_frame_ok d c s f : Json.build_relay_command d c s = Ok f -> frame_ok f = true.
Proof. intros H. unfold Json.build_relay_command in H. builder_ok_inv H. Qed.

Lemma json_input_frame_ok d n f : Json.build_read_input d n = Ok f -> frame_ok f = true.
Proof. intros H. unfold Json.build_read_input in H. builder_ok_inv H. Qed.

Lemma json_output_frame_ok d n f : Json.build_read_output d n = Ok f -> frame_ok f = true.
Proof. intros H. unfold Json.build_read_output in H. builder_ok_inv H. Qed.

Create HintDb frames discriminated.
#[export] Hint Resolve raw_relay_frame_ok raw_input_frame_ok raw_output_frame_ok
  bridge_relay_frame_ok bridge_input_frame_ok bridge_output_frame_ok
  json_relay_frame_ok json_input_frame_ok json_output_frame_ok : frames.

Lemma json_relay_bad_action device ch (s : string) :
  1 <= ch <= 8 -> s <> "on"%string -> s <> "off"%string ->
  Json.build_relay_command device (JInt ch) (JStr s)
    = Raise (ValueError "action must be 'on' or 'off'").
Proof.
  intros Hch Hon Hoff. apply String.eqb_neq in Hon, Hoff.
  unfold Json.build_relay_command. open_builder.
  replace (ch <? 1) with false by (symmetry; apply Z.ltb_ge; lia).
  replace (8 <? ch) with false by (symmetry; apply Z.ltb_ge; lia).
  cbn [bind py_eq_str]. rewrite Hon, Hoff. reflexivity.
Qed.

(** ** Relay builders *)

(** C4: refinement of the spec's request builder by the relay builders
    of all three scripts: whenever the address map resolves
    [RelayOutput a] on channel [ch] to a frame [f] (channel in 1..8, data
    01 00 for on and 02 00 for off, CRC appended little-endian), each
    script's [build_relay_command] on a byte device returns exactly [f]. *)
Theorem relay_builders_refine device ch a f :
  0 <= device < 256 ->
  AddressMap.build_request device (AddressMap.RelayOutput a) ch = inr f ->
  Raw.build_relay_command device ch (AddressMap.action_token a) = Ok f /\
  Bridge.build_relay_command device ch (AddressMap.action_token a) = Ok f /\
  Json.build_relay_command device (JInt ch) (JStr (AddressMap.action_token a)) = Ok f.
Proof.
  intros Hd Hf. apply build_request_inv in Hf as [Hch ->].
  split; [|split]; [apply raw_relay_valid | apply bridge_relay_valid | apply json_relay_valid];
    assumption.
Qed.

Lemma relay_builders_refine_witness :
  0 <= 1 < 256 /\
  AddressMap.build_request 1 (AddressMap.RelayOutput AddressMap.On) 1
    = inr [0x01; 0x06; 0x00; 0x01; 0x01; 0x00; 0xD9; 0x9A] /\
  (Raw.build_relay_command 1 1 "on" = Ok [0x01; 0x06; 0x00; 0x01; 0x01; 0x00; 0xD9; 0x9A] /\
   Bridge.build_relay_command 1 1 "on" = Ok [0x01; 0x06; 0x00; 0x01; 0x01; 0x00; 0xD9; 0x9A] /\
   Json.build_relay_command 1 (JInt 1) (JStr "on")
     = Ok [0x01; 0x06; 0x00; 0x01; 0x01; 0x00; 0xD9; 0x9A]).
Proof.
  assert (H : AddressMap.build_request 1 (AddressMap.RelayOutput AddressMap.On) 1
              = inr [0x01; 0x06; 0x00; 0x01; 0x01; 0x00; 0xD9; 0x9A]) by (vm_compute; reflexivity).
  split; [lia|]. split; [exact H|].
  apply (relay_builders_refine 1 1 AddressMap.On); [lia | exact H].
Defined.

(** The text scripts' checks raise on an invalid channel, before the
    six bytes exist. *)
Lemma text_relay_wo_crc_bad device ch a :
  AddressMap.valid_channel ch = false ->
  Raw.relay_frame_wo_crc device ch (AddressMap.action_token a) = Raise (ValueError "channel must be 1-8") /\
  Bridge.relay_frame_wo_crc device ch (AddressMap.action_token a) = Raise (ValueError "channel must be 1-8").
Proof. intros Hv. destruct a; open_builder; rewrite Hv; split; reflexivity. Qed.

(** The three relay builders on a valid action and an invalid channel. *)
Lemma relay_bad_channel device ch a :
  AddressMap.valid_channel ch = false ->
  Raw.build_relay_command device ch (AddressMap.action_token a)
    = Raise (ValueError "channel must be 1-8") /\
  Bridge.build_relay_command device ch (AddressMap.action_token a)
    = Raise (ValueError "channel must be 1-8") /\
  Json.build_relay_command device (JInt ch) (JStr (AddressMap.action_token a))
    = Raise (ValueError "channel must be 1-8").
Proof.
  intros Hv.
  assert (Hn : ~ (1 <= ch <= 8)) by (rewrite <- valid_channel_spec; congruence).
  unfold Raw.build_relay_command, Bridge.build_relay_command, Json.build_relay_command.
  assert (Hj : forall k : bool -> result (list Z),
             k true = Raise (ValueError "channel must be 1-8") ->
             (bad <- (if ch <? 1 then Ok true else Ok (8 <? ch)) ;; k bad)
             = Raise (ValueError "channel must be 1-8")).
  { intros k Hk. destruct (Z.ltb_spec ch 1); [exact Hk|].
    destruct (Z.ltb_spec 8 ch); [exact Hk | lia]. }
  destruct a; open_builder; rewrite Hv; cbn [negb];
    (split; [reflexivity | split; [reflexivity | apply Hj; reflexivity]]).
Qed.

(** C5: a relay command on a channel outside 1..8 (the spec's
    [InvalidChannel]) makes every script's [build_relay_command] raise
    [ValueError("channel must be 1-8")], before any frame exists. *)
Theorem relay_builders_invalid_channel device ch a :
  AddressMap.build_request device (AddressMap.RelayOutput a) ch = inl AddressMap.InvalidChannel ->
  Raw.build_relay_command device ch (AddressMap.action_token a)
    = Raise (ValueError "channel must be 1-8") /\
  Bridge.build_relay_command device ch (AddressMap.action_token a)
    = Raise (ValueError "channel must be 1-8") /\
  Json.build_relay_command device (JInt ch) (JStr (AddressMap.action_token a))
    = Raise (ValueError "channel must be 1-8").
Proof.
  unfold AddressMap.build_request, AddressMap.address_map.
  destruct (AddressMap.valid_channel ch) eqn:Hv; [discriminate|intros _].
  exact (relay_bad_channel device ch a Hv).
Qed.

Lemma relay_builders_invalid_channel_witness :
  AddressMap.build_request 1 (AddressMap.RelayOutput AddressMap.On) 9
    = inl AddressMap.InvalidChannel /\
  (Raw.build_relay_command 1 9 "on" = Raise (ValueError "channel must be 1-8") /\
   Bridge.build_relay_command 1 9 "on" = Raise (ValueError "channel must be 1-8") /\
   Json.build_relay_command 1 (JInt 9) (JStr "on") = Raise (ValueError "channel must be 1-8")).
Proof.
  assert (H : AddressMap.build_request 1 (AddressMap.RelayOutput AddressMap.On) 9
              = inl AddressMap.InvalidChannel) by reflexivity.
  split; [exact H|]. apply (relay_builders_invalid_channel 1 9 AddressMap.On H).
Defined.

(** C6: which error a relay command with an unknown action raises depends
    on the script. The text variants check the action first, so they
    raise [ValueError("action must be 'on' or 'off'")] on any channel;
    the JSON bridge checks the channel first and raises the channel error
    when both are wrong. *)
Theorem relay_error_precedence device ch (s : string) :
  s <> "on"%string -> s <> "off"%string ->
  Raw.build_relay_command device ch s = Raise (ValueError "action must be 'on' or 'off'") /\
  Bridge.build_relay_command device ch s = Raise (ValueError "action must be 'on' or 'off'") /\
  Json.build_relay_command device (JInt ch) (JStr s) =
    Raise (ValueError (if AddressMap.valid_channel ch then "action must be 'on' or 'off'"
                       else "channel must be 1-8")).
Proof.
  intros Hon Hoff.
  apply String.eqb_neq in Hon, Hoff.
  unfold Raw.build_relay_command, Bridge.build_relay_command, Json.build_relay_command.
  open_builder. rewrite Hon, Hoff. split; [reflexivity | split; [reflexivity|]].
  unfold AddressMap.valid_channel.
  destruct (Z.leb_spec 1 ch), (Z.leb_spec ch 8), (Z.ltb_spec ch 1), (Z.ltb_spec 8 ch);
    cbn; reflexivity || lia.
Qed.

Lemma relay_error_precedence_witness :
  "toggle"%string <> "on"%string /\ "toggle"%string <> "off"%string /\
  (Raw.build_relay_command 1 9 "toggle" = Raise (ValueError "action must be 'on' or 'off'") /\
   Bridge.build_relay_command 1 9 "toggle" = Raise (ValueError "action must be 'on' or 'off'") /\
   Json.build_relay_command 1 (JInt 9) (JStr "toggle") =
     Raise (ValueError (if AddressMap.valid_channel 9 then "action must be 'on' or 'off'"
                        else "channel must be 1-8"))).
Proof.
  assert (H1 : "toggle"%string <> "on"%string) by discriminate.
  assert (H2 : "toggle"%string <> "off"%string) by discriminate.
  split; [exact H1|]. split; [exact H2|].
  apply (relay_error_precedence 1 9 "toggle" H1 H2).
Defined.

(** C10: the only check the relay builders make on the device address is
    Python's [bytes] range: on a valid channel they build the frame for
    every device in [0, 256) (including the broadcast address 0 and the
    reserved 248..255 the spec excludes) and raise
    [ValueError("bytes must be in range(0, 256)")] for any other int. *)
Theorem relay_device_check device ch a :
  AddressMap.valid_channel ch = true ->
  let f := AddressMap.encode device
             (AddressMap.mk_request AddressMap.WriteSingleRegister ch (AddressMap.action_data a)) in
  let r := if is_byte device then Ok f
           else Raise (ValueError "bytes must be in range(0, 256)") in
  Raw.build_relay_command device ch (AddressMap.action_token a) = r /\
  Bridge.build_relay_command device ch (AddressMap.action_token a) = r /\
  Json.build_relay_command device (JInt ch) (JStr (AddressMap.action_token a)) = r.
Proof.
  intros Hv f r. subst f r. pose proof Hv as Hch. apply valid_channel_spec in Hch.
  destruct (is_byte device) eqn:Hd.
  - apply is_byte_spec in Hd.
    split; [|split]; [apply raw_relay_valid | apply bridge_relay_valid | apply json_relay_valid];
      assumption.
  - assert (Hb : forall l, bytes_ok (device :: l) = false)
      by (intros l; rewrite bytes_ok_cons, Hd; reflexivity).
    unfold Raw.build_relay_command, Bridge.build_relay_command, Json.build_relay_command.
    destruct a; open_builder; rewrite ?Hv; cbn [negb];
      rewrite ?frame_plus_crc_bad by apply Hb;
      replace (ch <? 1) with false by (symmetry; apply Z.ltb_ge; lia);
      replace (8 <? ch) with false by (symmetry; apply Z.ltb_ge; lia);
      cbn [bind py_bytes_vals py_int_value]; rewrite Hd;
      (split; [reflexivity | split; reflexivity]).
Qed.

Lemma relay_device_check_witness :
  AddressMap.valid_channel 1 = true /\
  Raw.build_relay_command 0 1 "on"
    = Ok (AddressMap.encode 0 (AddressMap.mk_request AddressMap.WriteSingleRegister 1
                                (AddressMap.action_data AddressMap.On))) /\
  Raw.build_relay_command 300 1 "on" = Raise (ValueError "bytes must be in range(0, 256)").
Proof.
  assert (Hv : AddressMap.valid_channel 1 = true) by reflexivity.
  split; [exact Hv|]. split.
  - exact (proj1 (relay_device_check 0 1 AddressMap.On Hv)).
  - exact (proj1 (relay_device_check 300 1 AddressMap.On Hv)).
Defined.

(** ** Read builders *)

(** C7: refinement of the spec's [DigitalInput] requests: for a channel
    in 1..8 every script's [build_read_input] returns the spec's frame,
    a read of one holding register at 0x0080 + channel. *)
Theorem input_builders_refine device ch f :
  0 <= device < 256 ->
  AddressMap.build_request device AddressMap.DigitalInput ch = inr f ->
  Raw.build_read_input device ch = Ok f /\
  Bridge.build_read_input device ch = Ok f /\
  Json.build_read_input device (JInt ch) = Ok f.
Proof.
  intros Hd Hf. apply build_request_inv in Hf as [Hch ->].
  rewrite raw_input_any, bridge_input_any, json_input_any by exact Hd.
  rewrite (Z.mod_small (0x0080 + ch)) by lia. auto.
Qed.

Lemma input_builders_refine_witness :
  0 <= 1 < 256 /\
  AddressMap.build_request 1 AddressMap.DigitalInput 1
    = inr [0x01; 0x03; 0x00; 0x81; 0x00; 0x01; 0xD4; 0x22] /\
  (Raw.build_read_input 1 1 = Ok [0x01; 0x03; 0x00; 0x81; 0x00; 0x01; 0xD4; 0x22] /\
   Bridge.build_read_input 1 1 = Ok [0x01; 0x03; 0x00; 0x81; 0x00; 0x01; 0xD4; 0x22] /\
   Json.build_read_input 1 (JInt 1) = Ok [0x01; 0x03; 0x00; 0x81; 0x00; 0x01; 0xD4; 0x22]).
Proof.
  assert (H : AddressMap.build_request 1 AddressMap.DigitalInput 1
              = inr [0x01; 0x03; 0x00; 0x81; 0x00; 0x01; 0xD4; 0x22]) by (vm_compute; reflexivity).
  split; [lia|]. split; [exact H|].
  apply (input_builders_refine 1 1); [lia | exact H].
Defined.

(** C8: [build_read_input] has no channel check: for every integer
    [input_num], negative or above 8, the builders of all three scripts
    return a frame (the spec's [InvalidChannel] is never raised) reading
    register [(0x0080 + input_num) mod 2^16], the masks [(addr >> 8) &
    0xFF] and [addr & 0xFF] wrapping the address to 16 bits. *)
Theorem input_builders_any_channel device n :
  0 <= device < 256 ->
  let f := AddressMap.encode device
             (AddressMap.mk_request AddressMap.ReadHoldingRegister
                ((0x0080 + n) mod 65536) (0x00, 0x01)) in
  Raw.build_read_input device n = Ok f /\
  Bridge.build_read_input device n = Ok f /\
  Json.build_read_input device (JInt n) = Ok f.
Proof.
  intros Hd f. subst f.
  rewrite raw_input_any, bridge_input_any, json_input_any by exact Hd. auto.
Qed.

Lemma input_builders_any_channel_witness :
  AddressMap.build_request 1 AddressMap.DigitalInput 9 = inl AddressMap.InvalidChannel /\
  0 <= 1 < 256 /\
  Raw.build_read_input 1 9
    = Ok (AddressMap.encode 1 (AddressMap.mk_request AddressMap.ReadHoldingRegister
                                 ((0x0080 + 9) mod 65536) (0x00, 0x01))).
Proof.
  split; [reflexivity|]. split; [lia|].
  exact (proj1 (input_builders_any_channel 1 9 ltac:(lia))).
Defined.

(** C9: output status. The text bridge's [builst_read_output] and the
    JSON bridge's [build_read_output] implement the spec's [OutputStatus]
    request (register = channel); the raw tester's [builst_read_output]
    reads register channel + 1 instead, so for every valid channel its
    frame differs from the spec's and from the two bridges'. *)
Theorem output_status_builders device ch f :
  0 <= device < 256 ->
  AddressMap.build_request device AddressMap.OutputStatus ch = inr f ->
  Bridge.builst_read_output device ch = Ok f /\
  Json.build_read_output device (JInt ch) = Ok f /\
  Raw.builst_read_output device ch
    = Ok (AddressMap.encode device
            (AddressMap.mk_request AddressMap.ReadHoldingRegister (ch + 1) (0x00, 0x01))) /\
  Raw.builst_read_output device ch <> Ok f.
Proof.
  intros Hd Hf. apply build_request_inv in Hf as [Hch ->].
  rewrite bridge_output_any, json_output_byte, raw_output_any by (exact Hd || lia).
  rewrite !Z.mod_small by lia.
  split; [reflexivity | split; [reflexivity | split; [reflexivity|]]].
  intros H. apply (f_equal (fun r => match r with Ok l => nth 3 l 0 | Raise _ => 0 end)) in H.
  rewrite !encode_small in H by lia. cbn in H. lia.
Qed.

Lemma output_status_builders_witness :
  0 <= 1 < 256 /\
  AddressMap.build_request 1 AddressMap.OutputStatus 1
    = inr [0x01; 0x03; 0x00; 0x01; 0x00; 0x01; 0xD5; 0xCA] /\
  (Bridge.builst_read_output 1 1 = Ok [0x01; 0x03; 0x00; 0x01; 0x00; 0x01; 0xD5; 0xCA] /\
   Json.build_read_output 1 (JInt 1) = Ok [0x01; 0x03; 0x00; 0x01; 0x00; 0x01; 0xD5; 0xCA] /\
   Raw.builst_read_output 1 1
     = Ok (AddressMap.encode 1
             (AddressMap.mk_request AddressMap.ReadHoldingRegister (1 + 1) (0x00, 0x01))) /\
   Raw.builst_read_output 1 1 <> Ok [0x01; 0x03; 0x00; 0x01; 0x00; 0x01; 0xD5; 0xCA]).
Proof.
  assert (H : AddressMap.build_request 1 AddressMap.OutputStatus 1
              = inr [0x01; 0x03; 0x00; 0x01; 0x00; 0x01; 0xD5; 0xCA]) by (vm_compute; reflexivity).
  split; [lia|]. split; [exact H|].
  apply (output_status_builders 1 1); [lia | exact H].
Defined.

(** ** Every built frame is a well-formed RTU frame *)

(** C11: whatever arguments they receive, when any of the nine builders
    of the three scripts returns a frame, it is 8 bytes long, every item
    is a byte, and its CRC register residue is 0 (the last two bytes are
    the little-endian CRC16 of the first six). *)
Theorem built_frames_well_formed :
  (forall d c s f, Raw.build_relay_command d c s = Ok f -> frame_ok f = true) /\
  (forall d n f, Raw.build_read_input d n = Ok f -> frame_ok f = true) /\
  (forall d n f, Raw.builst_read_output d n = Ok f -> frame_ok f = true) /\
  (forall d c s f, Bridge.build_relay_command d c s = Ok f -> frame_ok f = true) /\
  (forall d n f, Bridge.build_read_input d n = Ok f -> frame_ok f = true) /\
  (forall d n f, Bridge.builst_read_output d n = Ok f -> frame_ok f = true) /\
  (forall d c s f, Json.build_relay_command d c s = Ok f -> frame_ok f = true) /\
  (forall d n f, Json.build_read_input d n = Ok f -> frame_ok f = true) /\
  (forall d n f, Json.build_read_output d n = Ok f -> frame_ok f = true).
Proof.
  repeat split; intros *; eauto with frames.
Qed.

Lemma built_frames_well_formed_witness :
  Json.build_read_output 1 (JInt 1) = Ok [0x01; 0x03; 0x00; 0x01; 0x00; 0x01; 0xD5; 0xCA] /\
  frame_ok [0x01; 0x03; 0x00; 0x01; 0x00; 0x01; 0xD5; 0xCA] = true.
Proof.
  assert (H : Json.build_read_output 1 (JInt 1)
              = Ok [0x01; 0x03; 0x00; 0x01; 0x00; 0x01; 0xD5; 0xCA]) by (vm_compute; reflexivity).
  split; [exact H|].
  exact (proj2 (proj2 (proj2 (proj2 (proj2 (proj2 (proj2 (proj2 built_frames_well_formed)))))))
           1 (JInt 1) _ H).
Defined.

(**  the frames of [EXAMPLES] in [raw_modbus_test.py] parse with
    [hexstr_to_bytes] and are well-formed; [chan1_open] and [chan1_close]
    are what every relay builder produces for device 1, channel 1, and
    [read_ch1] is the output-status frame of the two bridges but not the
    one the raw tester's own [builst_read_output 1 1] sends. The text
    bridge's unused copies parse to the same frames. *)
Example examples_match_builders :
  map (fun e => hexstr_to_bytes (snd e)) Raw.EXAMPLES =
    [Raw.build_relay_command 1 1 "on"; Raw.build_relay_command 1 1 "off";
     Bridge.builst_read_output 1 1;
     Ok [0x01; 0x06; 0x00; 0xFD; 0x00; 0x00; 0x18; 0x3A]] /\
  forallb (fun e => match hexstr_to_bytes (snd e) with Ok f => frame_ok f | Raise _ => false end)
    Raw.EXAMPLES = true /\
  Json.build_read_output 1 (JInt 1) = Bridge.builst_read_output 1 1 /\
  Json.build_relay_command 1 (JInt 1) (JStr "off") = Raw.build_relay_command 1 1 "off" /\
  hexstr_to_bytes "01 03 00 01 00 01 D5 CA" <> Raw.builst_read_output 1 1 /\
  map (fun e => Bridge.hexstr_to_bytes (snd e)) Bridge.EXAMPLES =
    map (fun e => hexstr_to_bytes (snd e)) Raw.EXAMPLES.
Proof. vm_compute. repeat split; discriminate. Qed.
