(* ===== verification/Serial.v ===== *)
(** * The serial line and the frame exchange

    Every handler of the three Modbus scripts talks to the device with the
    same four statements (e.g. [modbus_mqtt_bridge_json.py] lines 114-117):
<<
    ser.reset_input_buffer()
    ser.write(frame)
    time.sleep(0.1)
    resp = ser.read(256)
>>
    The line is a state: the bytes received and not yet read ([rx]), the
    bytes of the current reply that arrive only after the read has timed
    out ([late]), the replies the device will give to the next frames
    ([replies], each split into its on-time and late part), and the log of
    written frames ([written]). [read] returns what has arrived, at most
    [size] bytes; the late part then lands in the buffer, where the next
    [reset_input_buffer] discards it. [time.sleep] has no effect on the
    data and is the identity.

    The handlers keep more state than the line (the MQTT outbox, the
    console): the class [HasSerial] is the interface through which they
    reach it, with its lens laws [HasSerialLaws]. [poll_cycle] is the body
    of every eight-channel loop of the three handlers (build the frame of
    channel [i], exchange it, make an item of the reply); [polls_ok] and
    [polls_abort] describe a whole loop, once for every handler state
    that satisfies the interface. *)

From Stdlib Require Import ZArith List Lia.
From S2P Require Import Prelude.
Import ListNotations.
Open Scope Z_scope.
Local Open Scope py_scope.

Record serial := mk_serial {
  rx : list Z;
  late : list Z;
  replies : list (list Z * list Z);
  written : list (list Z)
}.

(** [ser.reset_input_buffer()] *)
Definition reset_input_buffer (s : serial) : serial :=
  mk_serial [] (late s) (replies s) (written s).

(** [ser.write(frame)]: the frame goes out and the device answers. *)
Definition write (frame : list Z) (s : serial) : serial :=
  match replies s with
  | [] => mk_serial (rx s) (late s) [] (written s ++ [frame])
  | (now, later) :: rest => mk_serial (rx s ++ now) (late s ++ later) rest (written s ++ [frame])
  end.

(** [ser.read(size)] *)
Definition read (size : nat) (s : serial) : list Z * serial :=
  (firstn size (rx s), mk_serial (skipn size (rx s) ++ late s) [] (replies s) (written s)).

(** The handlers' state gives access to the line. *)
Class HasSerial (S : Type) := {
  ser_of : S -> serial;
  with_ser : serial -> S -> S
}.

Class HasSerialLaws (S : Type) `{HasSerial S} := {
  ser_of_with : forall x s, ser_of (with_ser x s) = x;
  with_ser_with : forall x y s, with_ser x (with_ser y s) = with_ser x s;
  with_ser_of : forall s, with_ser (ser_of s) s = s
}.

Section Ops.
Context {S : Type} `{HasSerial S}.

Definition ser_reset_input_buffer : st S unit :=
  fun s => (Ok tt, with_ser (reset_input_buffer (ser_of s)) s).

Definition ser_write (frame : list Z) : st S unit :=
  fun s => (Ok tt, with_ser (write frame (ser_of s)) s).

Definition ser_read (size : nat) : st S (list Z) :=
  fun s => let '(resp, s') := read size (ser_of s) in (Ok resp, with_ser s' s).

(** [time.sleep(t)] *)
Definition time_sleep : st S unit := st_ret tt.

(** The four statements of one exchange. *)
Definition exchange (frame : list Z) : st S (list Z) :=
  st_bind ser_reset_input_buffer (fun _ =>
  st_bind (ser_write frame) (fun _ =>
  st_bind time_sleep (fun _ =>
  ser_read 256))).

(** One iteration of the eight-channel loops of every handler: build the
    frame for channel [i], exchange it, append the item made from the
    reply to the list being built. *)
Definition poll_cycle {A} (build : Z -> result (list Z)) (item : Z -> list Z -> result A)
    (acc : list A) (i : Z) : st S (list A) :=
  frame <-- st_lift (build i) ;;
  resp <-- exchange frame ;;
  x <-- st_lift (item i resp) ;;
  st_ret (acc ++ [x]).

End Ops.

(** The bytes an exchange returns when the device answers [r]: the part
    that arrives in time, cut at 256 bytes. *)
Definition reply_seen (r : list Z * list Z) : list Z := firstn 256 (fst r).

(** ** Lemmas *)

Section Laws.
Context {S : Type} `{HasSerialLaws S}.

(** One exchange: the response is the on-time part of the device's next
    reply, cut at 256 bytes; stale bytes of the buffer do not leak in.
    The late part of the reply stays in the buffer. *)
Lemma exchange_reply frame now later rest (s : S) :
  replies (ser_of s) = (now, later) :: rest ->
  exchange frame s =
  (Ok (firstn 256 now),
   with_ser (mk_serial (skipn 256 now ++ late (ser_of s) ++ later) [] rest
                       (written (ser_of s) ++ [frame])) s).
Proof.
  intros Hr. unfold exchange, st_bind, ser_reset_input_buffer, ser_write, time_sleep,
    st_ret, ser_read, read, write.
  rewrite !ser_of_with. cbn [replies reset_input_buffer]. rewrite Hr. cbn.
  rewrite !with_ser_with. reflexivity.
Qed.

(** A silent device: the read times out with no byte. *)
Lemma exchange_silent frame (s : S) :
  replies (ser_of s) = [] ->
  exchange frame s =
  (Ok [], with_ser (mk_serial (late (ser_of s)) [] [] (written (ser_of s) ++ [frame])) s).
Proof.
  intros Hr. unfold exchange, st_bind, ser_reset_input_buffer, ser_write, time_sleep,
    st_ret, ser_read, read, write.
  rewrite !ser_of_with. cbn [replies reset_input_buffer]. rewrite Hr. cbn.
  rewrite !with_ser_with. reflexivity.
Qed.

(** The line after an exchange of [frame] answered by [(now, later)]. *)
Definition after_exchange (x : serial) (frame now later : list Z) rest : serial :=
  mk_serial (skipn 256 now ++ late x ++ later) [] rest (written x ++ [frame]).

Lemma poll_cycle_ok {A} build (item : Z -> list Z -> result A) acc i f now later rest s y :
  build i = Ok f -> replies (ser_of s) = (now, later) :: rest ->
  item i (firstn 256 now) = Ok y ->
  poll_cycle build item acc i s =
  (Ok (acc ++ [y]), with_ser (after_exchange (ser_of s) f now later rest) s).
Proof.
  intros Hb Hr Hy. unfold poll_cycle, st_bind, st_lift. rewrite Hb.
  rewrite (exchange_reply f now later rest s Hr). rewrite Hy. reflexivity.
Qed.

Lemma poll_cycle_raise {A} build (item : Z -> list Z -> result A) acc i f now later rest s e :
  build i = Ok f -> replies (ser_of s) = (now, later) :: rest ->
  item i (firstn 256 now) = Raise e ->
  poll_cycle build item acc i s =
  (Raise e, with_ser (after_exchange (ser_of s) f now later rest) s).
Proof.
  intros Hb Hr Hy. unfold poll_cycle, st_bind, st_lift. rewrite Hb.
  rewrite (exchange_reply f now later rest s Hr). rewrite Hy. reflexivity.
Qed.

Section Polls.
Context {A : Type}.
Variables (build : Z -> result (list Z)) (item : Z -> list Z -> result A).
Variables (frames : Z -> list Z) (items : Z -> list Z -> A).

(** The replies [rs] answer the channels [chs] in order and every item is
    made: the loop writes one frame per channel, in order, consumes one
    reply per channel, returns the items in channel order, and changes
    nothing but the line. *)
Lemma polls_ok chs rs rest acc s :
  (forall i, In i chs -> build i = Ok (frames i)) ->
  replies (ser_of s) = rs ++ rest -> List.length rs = List.length chs ->
  (forall i r, In (i, r) (combine chs rs) -> item i (firstn 256 (fst r)) = Ok (items i (firstn 256 (fst r)))) ->
  exists x,
    st_for_acc chs acc (poll_cycle build item) s
      = (Ok (acc ++ map (fun p => items (fst p) (firstn 256 (fst (snd p)))) (combine chs rs)),
         with_ser x s) /\
    written x = written (ser_of s) ++ map frames chs /\ replies x = rest.
Proof.
  revert rs acc s; induction chs as [|i chs IH]; intros rs acc s Hbuild Hr Hl Hy.
  - destruct rs; [|discriminate]. exists (ser_of s). cbn.
    rewrite !app_nil_r. rewrite with_ser_of. auto.
  - destruct rs as [|[now later] rs]; [discriminate|]. cbn in Hl. injection Hl as Hl.
    rewrite <- app_comm_cons in Hr. cbn [st_for_acc]. unfold st_bind at 1.
    rewrite (poll_cycle_ok build item acc i (frames i) now later (rs ++ rest) s
               (items i (firstn 256 now)) (Hbuild i (or_introl eq_refl)) Hr
               (Hy i (now, later) (or_introl eq_refl))).
    cbv beta iota.
    destruct (IH rs (acc ++ [items i (firstn 256 now)])
                (with_ser (after_exchange (ser_of s) (frames i) now later (rs ++ rest)) s)
                (fun j Hj => Hbuild j (or_intror Hj)))
      as (x & Hrun & Hw & Hrep).
    { rewrite ser_of_with. reflexivity. }
    { exact Hl. }
    { intros j r Hin. apply Hy. right. exact Hin. }
    exists x. rewrite Hrun, with_ser_with. rewrite ser_of_with in Hw. cbn in Hw.
    rewrite Hw, <- !app_assoc. auto.
Qed.

(** The first channels [pre] go through and the item of channel [k]
    raises: the loop stops there, after writing the frames of [pre] and of
    [k], and changes nothing but the line. *)
Lemma polls_abort pre k post rs now later rest acc s e :
  (forall i, In i (pre ++ [k]) -> build i = Ok (frames i)) ->
  replies (ser_of s) = rs ++ (now, later) :: rest -> List.length rs = List.length pre ->
  (forall i r, In (i, r) (combine pre rs) -> item i (firstn 256 (fst r)) = Ok (items i (firstn 256 (fst r)))) ->
  item k (firstn 256 now) = Raise e ->
  exists x,
    st_for_acc (pre ++ k :: post) acc (poll_cycle build item) s = (Raise e, with_ser x s) /\
    written x = written (ser_of s) ++ map frames pre ++ [frames k].
Proof.
  revert rs acc s; induction pre as [|i pre IH]; intros rs acc s Hbuild Hr Hl Hy He.
  - destruct rs; [|discriminate]. cbn [app] in Hr. cbn [app st_for_acc]. unfold st_bind.
    rewrite (poll_cycle_raise build item acc k (frames k) now later rest s e
               (Hbuild k (or_introl eq_refl)) Hr He).
    eexists. split; [reflexivity|]. reflexivity.
  - destruct rs as [|[now' later'] rs]; [discriminate|]. cbn in Hl. injection Hl as Hl.
    rewrite <- app_comm_cons in Hr. cbn [app st_for_acc]. unfold st_bind at 1.
    rewrite (poll_cycle_ok build item acc i (frames i) now' later' (rs ++ (now, later) :: rest) s
               (items i (firstn 256 now')) (Hbuild i (or_introl eq_refl)) Hr
               (Hy i (now', later') (or_introl eq_refl))).
    cbv beta iota.
    destruct (IH rs (acc ++ [items i (firstn 256 now')])
                (with_ser (after_exchange (ser_of s) (frames i) now' later'
                                          (rs ++ (now, later) :: rest)) s)
                (fun j Hj => Hbuild j (or_intror Hj)))
      as (x & Hrun & Hw).
    { rewrite ser_of_with. reflexivity. }
    { exact Hl. }
    { intros j r Hin. apply Hy. right. exact Hin. }
    { exact He. }
    exists x. rewrite Hrun, with_ser_with. rewrite ser_of_with in Hw. cbn in Hw.
    rewrite Hw, <- !app_assoc. auto.
Qed.
End Polls.

Lemma read_length size (s : serial) : (List.length (fst (read size s)) <= size)%nat.
Proof. unfold read. cbn [fst]. rewrite length_firstn. lia. Qed.

End Laws.
