(* ===== verification/Decode.v ===== *)
(** * Decoding a device reply

    No script has a decoding function: each handler tests the reply
    inline. The JSON bridge writes
    [ "on" if resp and resp[4] == 1 else "off" ]
    ([modbus_mqtt_bridge_json.py] lines 164 and 187); the text variants
    write [if size > 0: if resp[4] == 1: ... ON ... else: ... OFF ...
    else: ... No response (timeout)] ([raw_modbus_test.py] lines 170-178,
    187-194, 204-211; [modbus_mqtt_bridge.py] lines 208-212, 221-228,
    240-247). [json_state] and [text_state] are these two expressions.

    [Spec] holds the spec's decoder (section 4.4): [Timeout] on an empty
    reply, [Malformed] below 5 bytes, otherwise byte 4 decides. The
    refinement theorem shows where the code agrees with it and where it
    does not (an empty reply is "off" for the JSON bridge, a 1..4 byte
    reply raises [IndexError]). *)

From Stdlib Require Import ZArith List Lia String.
From S2P Require Import Prelude PyBytes.
Import ListNotations.
Open Scope Z_scope.
Local Open Scope py_scope.

Module Spec.

Inductive failure := Timeout | Malformed.

Inductive channel_state := On | Off | Unknown (why : failure).

Definition decode_response (raw : list Z) : channel_state :=
  match raw with
  | [] => Unknown Timeout
  | _ => match nth_error raw 4 with
         | None => Unknown Malformed
         | Some b => if b =? 1 then On else Off
         end
  end.

End Spec.

(** [ "on" if resp and resp[4] == 1 else "off" ] *)
Definition json_state (resp : list Z) : result string :=
  match resp with
  | [] => Ok "off"%string
  | _ => b <- py_getitem resp 4 ;; Ok (if b =? 1 then "on"%string else "off"%string)
  end.

(** What the text handlers print or publish for one reply. *)
Inductive text_reading := TextOn | TextOff | TextNoResponse.

(** [if size > 0: if resp[4] == 1: ON else: OFF else: no response] *)
Definition text_state (resp : list Z) : result text_reading :=
  let size := Z.of_nat (List.length resp) in
  if 0 <? size then
    b <- py_getitem resp 4 ;; Ok (if b =? 1 then TextOn else TextOff)
  else Ok TextNoResponse.

(** The text a text handler should show for a reply the spec decodes as
    [c]: a failure of either kind is "no response". *)
Definition text_reading_of (c : Spec.channel_state) : text_reading :=
  match c with
  | Spec.On => TextOn
  | Spec.Off => TextOff
  | Spec.Unknown _ => TextNoResponse
  end.

(** ** Lemmas *)

Lemma getitem_4 (resp : list Z) :
  py_getitem resp 4 = match nth_error resp 4 with
                      | Some b => Ok b
                      | None => Raise (IndexError "index out of range")
                      end.
Proof.
  destruct (nth_error resp 4) as [b|] eqn:E.
  - exact (py_getitem_nth resp 4 b E).
  - apply nth_error_None in E. apply py_getitem_short; lia.
Qed.

(** The reading a reply gets from the spec's decoder, as the JSON bridge
    spells it. *)
Lemma json_state_not_short resp :
  resp = [] \/ (5 <= List.length resp)%nat ->
  json_state resp = Ok (match Spec.decode_response resp with Spec.On => "on" | _ => "off" end)%string.
Proof.
  intros [-> | Hl]; [reflexivity|].
  destruct resp as [|x rest]; [cbn in Hl; lia|].
  unfold json_state, Spec.decode_response. rewrite getitem_4.
  destruct (nth_error (x :: rest) 4) as [b|] eqn:E.
  - cbn [bind]. destruct (b =? 1); reflexivity.
  - apply nth_error_None in E. lia.
Qed.

Lemma json_state_short resp :
  (1 <= List.length resp <= 4)%nat -> json_state resp = Raise (IndexError "index out of range").
Proof.
  intros Hl. destruct resp as [|x rest]; [cbn in Hl; lia|].
  unfold json_state. rewrite getitem_4.
  destruct (nth_error (x :: rest) 4) eqn:E; [|reflexivity].
  assert (Hs : (4 < List.length (x :: rest))%nat) by (apply nth_error_Some; congruence). lia.
Qed.

(** The text handlers read a complete or empty reply as the spec does. *)
Lemma text_state_not_short resp :
  resp = [] \/ (5 <= List.length resp)%nat ->
  text_state resp = Ok (text_reading_of (Spec.decode_response resp)).
Proof.
  intros [-> | Hl]; [reflexivity|].
  destruct resp as [|x rest]; [cbn in Hl; lia|].
  unfold text_state, Spec.decode_response. rewrite getitem_4. cbn [List.length].
  replace (0 <? Z.of_nat (S (List.length rest))) with true by (symmetry; apply Z.ltb_lt; lia).
  destruct (nth_error (x :: rest) 4) as [b|] eqn:E.
  - cbn [bind]. destruct (b =? 1); reflexivity.
  - apply nth_error_None in E. lia.
Qed.

Lemma text_state_short resp :
  (1 <= List.length resp <= 4)%nat -> text_state resp = Raise (IndexError "index out of range").
Proof.
  intros Hl. destruct resp as [|x rest]; [cbn in Hl; lia|].
  unfold text_state. rewrite getitem_4. cbn [List.length].
  replace (0 <? Z.of_nat (S (List.length rest))) with true by (symmetry; apply Z.ltb_lt; lia).
  destruct (nth_error (x :: rest) 4) eqn:E; [|reflexivity].
  assert (Hs : (4 < List.length (x :: rest))%nat) by (apply nth_error_Some; congruence). lia.
Qed.

(** The JSON bridge's reading of any reply, case by case of the spec's
    decoder. *)
Lemma json_state_decode resp :
  json_state resp = match Spec.decode_response resp with
                    | Spec.On => Ok "on"%string
                    | Spec.Off => Ok "off"%string
                    | Spec.Unknown Spec.Timeout => Ok "off"%string
                    | Spec.Unknown Spec.Malformed => Raise (IndexError "index out of range")
                    end.
Proof.
  unfold json_state, Spec.decode_response.
  destruct resp as [|x rest]; [reflexivity|]. rewrite getitem_4.
  destruct (nth_error (x :: rest) 4) as [b|]; cbn [bind]; [destruct (b =? 1)|]; reflexivity.
Qed.

(** C12: refinement of the spec's decoder by the inline tests of the
    handlers, on every reply. A reply of 5 bytes or more reads as the spec
    says (byte 4 = 1 is on, anything else off) in both the JSON bridge
    and the text variants; an empty reply is "no response" in the text
    variants but "off" in the JSON bridge, where the spec says [Timeout];
    a reply of 1 to 4 bytes, [Malformed] in the spec, raises [IndexError]
    in both. *)
Theorem decoders_refine_spec (resp : list Z) :
  json_state resp = match Spec.decode_response resp with
                    | Spec.On => Ok "on"%string
                    | Spec.Off => Ok "off"%string
                    | Spec.Unknown Spec.Timeout => Ok "off"%string
                    | Spec.Unknown Spec.Malformed => Raise (IndexError "index out of range")
                    end /\
  text_state resp = match Spec.decode_response resp with
                    | Spec.On => Ok TextOn
                    | Spec.Off => Ok TextOff
                    | Spec.Unknown Spec.Timeout => Ok TextNoResponse
                    | Spec.Unknown Spec.Malformed => Raise (IndexError "index out of range")
                    end.
Proof.
  split; [apply json_state_decode|].
  unfold text_state, Spec.decode_response.
  destruct resp as [|x rest]; [reflexivity|].
  rewrite getitem_4. cbn [List.length].
  replace (0 <? Z.of_nat (S (List.length rest))) with true by (symmetry; apply Z.ltb_lt; lia).
  destruct (nth_error (x :: rest) 4) as [b|]; cbn [bind]; [destruct (b =? 1)|]; reflexivity.
Qed.
