(* ===== verification/Device.v ===== *)
(** * The relay board on the other end of the line

    The scripts talk to an 8-channel relay and input module. The board is
    not code of the repository: this file is an environment model,
    written from the spec (§3 and §6: the frame layout, the register map
    of §4.2 with output status at register [ch], the state in byte 4 of a
    read reply) and from the Modbus RTU standard for what a slave does
    with a request:
    - a frame that is not 8 bytes, has a bad CRC or is addressed to
      another slave gets no reply (the read times out);
    - [0x06] (write single register) to register [ch] in 1..8 with data
      [01 00] or [02 00] switches relay [ch] on or off and echoes the
      request; another register or datum gets an exception reply;
    - [0x03] (read one holding register) of register [ch] in 1..8 or
      [0x80 + ch] answers [dev 03 02 00 v crc], [v] the state of relay or
      input [ch]; another register gets exception [02];
    - any other function code gets exception [01].
    An exception reply is [dev (fn + 0x80) code crc], 5 bytes.

    [respond] is one request/response cycle, a pure function from the
    board and the frame to the reply and the board after it; [answers]
    runs it over the frames a handler writes, which gives the replies the
    serial line ([Serial.replies]) holds when the device is this board. A
    reply arrives whole within the read window. *)

From Stdlib Require Import ZArith List Lia Bool Setoid Morphisms.
From S2P Require Import Prelude PyBytes Crc16 Frames Decode.
Import ListNotations.
Open Scope Z_scope.
Import Crc16.

Module Device.

Record board := mk_board {
  slave : Z;
  relay : Z -> bool;
  input : Z -> bool
}.

Definition set_relay (b : board) (ch : Z) (v : bool) : board :=
  mk_board (slave b) (fun j => if j =? ch then v else relay b j) (input b).

(** A reply with its CRC. *)
Definition seal (body : list Z) : list Z := body ++ le_digits 2 (crc16_register body).

Definition bit (v : bool) : Z := if v then 1 else 0.

Definition exception (a fn code : Z) : list Z := seal [a; fn + 0x80; code].

(** The request [f] checked and split into its fields. *)
Definition handle (b : board) (f : list Z) (a fn hi lo d1 d2 : Z) : option (list Z) * board :=
  let reg := hi * 256 + lo in
  if negb (a =? slave b) then (None, b)
  else if fn =? 0x06 then
    if (1 <=? reg) && (reg <=? 8) then
      if (d1 =? 1) && (d2 =? 0) then (Some f, set_relay b reg true)
      else if (d1 =? 2) && (d2 =? 0) then (Some f, set_relay b reg false)
      else (Some (exception a fn 3), b)
    else (Some (exception a fn 2), b)
  else if fn =? 0x03 then
    if negb ((d1 =? 0) && (d2 =? 1)) then (Some (exception a fn 3), b)
    else if (1 <=? reg) && (reg <=? 8) then (Some (seal [a; 3; 2; 0; bit (relay b reg)]), b)
    else if (0x81 <=? reg) && (reg <=? 0x88) then
      (Some (seal [a; 3; 2; 0; bit (input b (reg - 0x80))]), b)
    else (Some (exception a fn 2), b)
  else (Some (exception a fn 1), b).

Definition respond (b : board) (f : list Z) : option (list Z) * board :=
  if frame_ok f then
    match f with
    | a :: fn :: hi :: lo :: d1 :: d2 :: _ => handle b f a fn hi lo d1 d2
    | _ => (None, b)
    end
  else (None, b).

(** On the line: the whole reply arrives within the read window. *)
Definition on_line (r : option (list Z)) : list Z * list Z :=
  match r with
  | Some x => (x, [])
  | None => ([], [])
  end.

(** The board answering the frames [fs] in order. *)
Fixpoint answers (b : board) (fs : list (list Z)) : list (list Z * list Z) * board :=
  match fs with
  | [] => ([], b)
  | f :: fs' =>
      let '(r, b1) := respond b f in
      let '(rs, b2) := answers b1 fs' in
      (on_line r :: rs, b2)
  end.

(** What relay [ch] is set to by the action [a]. *)
Definition action_on (a : AddressMap.relay_action) : bool :=
  match a with AddressMap.On => true | AddressMap.Off => false end.

(** The value a read of holding register [r] returns. *)
Definition register_value (b : board) (r : Z) : bool :=
  if r <=? 8 then relay b r else input b (r - 0x80).

(** The frames of channels [chs] after a relay sweep: [chs] set by [a]. *)
Definition relays_after (b : board) (a : AddressMap.relay_action) (chs : list Z) : board :=
  mk_board (slave b) (fun j => if existsb (Z.eqb j) chs then action_on a else relay b j) (input b).

(** A register the board maps: relays 1..8, inputs 0x81..0x88. *)
Definition valid_register (r : Z) : bool :=
  ((1 <=? r) && (r <=? 8)) || ((0x81 <=? r) && (r <=? 0x88)).

(** The board's reply to a read of register [r]. *)
Definition read_reply (b : board) (r : Z) : list Z :=
  if valid_register r then seal [slave b; 3; 2; 0; bit (register_value b r)]
  else exception (slave b) 3 2.

(** Two boards that answer alike: same address, same relays, same inputs. *)
Definition board_equiv (b1 b2 : board) : Prop :=
  slave b1 = slave b2 /\ (forall j, relay b1 j = relay b2 j) /\ (forall j, input b1 j = input b2 j).

(** ** Lemmas *)

#[export] Instance board_equiv_Equivalence : Equivalence board_equiv.
Proof.
  split.
  - intros b. split; [reflexivity | split; reflexivity].
  - intros b1 b2 (H1 & H2 & H3). split; [|split]; intros; symmetry; auto.
  - intros b1 b2 b3 (H1 & H2 & H3) (H1' & H2' & H3'). split; [|split]; intros; congruence.
Qed.

#[export] Instance slave_Proper : Proper (board_equiv ==> eq) slave.
Proof. intros b1 b2 (H & _ & _). exact H. Qed.

#[export] Instance relay_Proper : Proper (board_equiv ==> eq ==> eq) relay.
Proof. intros b1 b2 (_ & H & _) j j' <-. apply H. Qed.

#[export] Instance register_value_Proper : Proper (board_equiv ==> eq ==> eq) register_value.
Proof. intros b1 b2 (_ & H2 & H3) r r' <-. unfold register_value. rewrite H2, H3. reflexivity. Qed.

#[export] Instance read_reply_Proper : Proper (board_equiv ==> eq ==> eq) read_reply.
Proof. intros b1 b2 Hb r r' <-. unfold read_reply. rewrite !Hb. reflexivity. Qed.

(** A sealed 6-byte body is taken apart into its fields. *)
Lemma respond_sealed b a fn hi lo d1 d2 :
  bytes_ok [a; fn; hi; lo; d1; d2] = true ->
  respond b (seal [a; fn; hi; lo; d1; d2])
  = handle b (seal [a; fn; hi; lo; d1; d2]) a fn hi lo d1 d2.
Proof.
  intros Hok. unfold respond. unfold seal at 1 2.
  rewrite (sealed_frame_ok [a; fn; hi; lo; d1; d2] eq_refl Hok). reflexivity.
Qed.

Lemma register_split r : 0 <= r < 65536 -> Z.shiftr r 8 * 256 + Z.land r 255 = r.
Proof. intros Hr. rewrite shiftr_8_div, land_255_mod. pose proof (Z.div_mod r 256). lia. Qed.

Section OneCycle.
Variable b : board.
Hypothesis Hslave : 0 <= slave b < 256.

Lemma respond_relay ch a :
  1 <= ch <= 8 ->
  respond b (AddressMap.encode (slave b)
               (AddressMap.mk_request AddressMap.WriteSingleRegister ch (AddressMap.action_data a)))
  = (Some (AddressMap.encode (slave b)
             (AddressMap.mk_request AddressMap.WriteSingleRegister ch (AddressMap.action_data a))),
     set_relay b ch (action_on a)).
Proof.
  intros Hch. rewrite encode_small by lia.
  change (AddressMap.function_code_byte AddressMap.WriteSingleRegister) with 6. fold (seal [slave b; 6; 0; ch; fst (AddressMap.action_data a);
                                                       snd (AddressMap.action_data a)]).
  rewrite respond_sealed by (destruct a; solve_bytes).
  set (f := seal _). unfold handle. rewrite Z.eqb_refl.
  replace (0 * 256 + ch) with ch by lia.
  rewrite (proj2 (Z.leb_le 1 ch)), (proj2 (Z.leb_le ch 8)) by lia.
  destruct a; reflexivity.
Qed.

Lemma respond_read r :
  (1 <= r <= 8 \/ 0x81 <= r <= 0x88) ->
  respond b (read_holding_frame (slave b) r)
  = (Some (seal [slave b; 3; 2; 0; bit (register_value b r)]), b).
Proof.
  intros Hr. unfold read_holding_frame. rewrite encode_small by lia.
  change (AddressMap.function_code_byte AddressMap.ReadHoldingRegister) with 3.
  change (fst (0x00, 0x01)) with 0. change (snd (0x00, 0x01)) with 1. fold (seal [slave b; 3; 0; r; 0; 1]).
  rewrite respond_sealed by solve_bytes.
  unfold handle, register_value. rewrite Z.eqb_refl. replace (0 * 256 + r) with r by lia.
  cbv beta iota. cbn [negb andb Z.eqb Pos.eqb].
  destruct Hr as [Hr | Hr].
  - rewrite (proj2 (Z.leb_le 1 r)), (proj2 (Z.leb_le r 8)) by lia. reflexivity.
  - rewrite (proj2 (Z.leb_gt r 8)) by lia. rewrite andb_false_r.
    rewrite (proj2 (Z.leb_le 0x81 r)), (proj2 (Z.leb_le r 0x88)) by lia. reflexivity.
Qed.

(** Any other register: exception [02], illegal data address. *)
Lemma respond_read_illegal r :
  0 <= r < 256 -> ~ (1 <= r <= 8) -> ~ (0x81 <= r <= 0x88) ->
  respond b (read_holding_frame (slave b) r) = (Some (exception (slave b) 3 2), b).
Proof.
  intros Hr H1 H2. unfold read_holding_frame. rewrite encode_small by lia.
  change (AddressMap.function_code_byte AddressMap.ReadHoldingRegister) with 3.
  change (fst (0x00, 0x01)) with 0. change (snd (0x00, 0x01)) with 1. fold (seal [slave b; 3; 0; r; 0; 1]).
  rewrite respond_sealed by solve_bytes.
  unfold handle. rewrite Z.eqb_refl. replace (0 * 256 + r) with r by lia.
  cbv beta iota. cbn [negb andb Z.eqb Pos.eqb].
  destruct (1 <=? r) eqn:E1, (r <=? 8) eqn:E2; cbn [andb];
    [apply Z.leb_le in E1, E2; lia | | |];
  destruct (0x81 <=? r) eqn:E3, (r <=? 0x88) eqn:E4; cbn [andb];
    solve [reflexivity | apply Z.leb_le in E3, E4; lia].
Qed.

Lemma respond_read_any r :
  0 <= r < 256 -> respond b (read_holding_frame (slave b) r) = (Some (read_reply b r), b).
Proof.
  intros Hr. unfold read_reply, valid_register.
  destruct (1 <=? r) eqn:E1, (r <=? 8) eqn:E2, (0x81 <=? r) eqn:E3, (r <=? 0x88) eqn:E4;
    cbn [andb orb]; rewrite ?Z.leb_le, ?Z.leb_gt in *;
    first [ apply respond_read; lia | apply respond_read_illegal; lia ].
Qed.

End OneCycle.

Lemma relays_after_cons b a i chs :
  board_equiv (relays_after (set_relay b i (action_on a)) a chs) (relays_after b a (i :: chs)).
Proof.
  split; [reflexivity | split; [|reflexivity]]. intros j. cbn [relays_after relay set_relay existsb].
  destruct (existsb (Z.eqb j) chs), (j =? i); reflexivity.
Qed.

(** A relay sweep over channels [chs]: every frame is echoed, and the
    board ends with the channels of [chs] set by [a], the others as
    they were. *)
Lemma answers_relay_sweep b a chs :
  0 <= slave b < 256 -> Forall (fun i => 1 <= i <= 8) chs ->
  fst (answers b (map (fun i => AddressMap.encode (slave b)
                        (AddressMap.mk_request AddressMap.WriteSingleRegister i (AddressMap.action_data a))) chs))
  = map (fun i => (AddressMap.encode (slave b)
                     (AddressMap.mk_request AddressMap.WriteSingleRegister i (AddressMap.action_data a)), []))
        chs /\
  board_equiv
    (snd (answers b (map (fun i => AddressMap.encode (slave b)
                           (AddressMap.mk_request AddressMap.WriteSingleRegister i (AddressMap.action_data a))) chs)))
    (relays_after b a chs).
Proof.
  intros Hs Hall. revert b Hs. induction Hall as [|i chs Hi _ IH]; intros b Hs.
  - split; [reflexivity|]. split; [reflexivity | split; reflexivity].
  - cbn [map answers]. rewrite (respond_relay b Hs i a Hi).
    destruct (IH (set_relay b i (action_on a)) Hs) as [H1 H2]. cbn [slave set_relay] in H1, H2.
    destruct (answers _ _) as [rs b2]. cbn [fst snd] in *. rewrite H1.
    split; [reflexivity|]. rewrite H2. apply relays_after_cons.
Qed.

(** A read sweep: the board answers each register and does not change. *)
Lemma answers_reads b regs :
  0 <= slave b < 256 -> Forall (fun r => 0 <= r < 256) regs ->
  answers b (map (read_holding_frame (slave b)) regs) = (map (fun r => (read_reply b r, [])) regs, b).
Proof.
  intros Hs Hall. induction Hall as [|r regs Hr _ IH]; [reflexivity|].
  cbn [map answers]. rewrite (respond_read_any b Hs r Hr), IH. reflexivity.
Qed.

(** A read reply, as the spec's decoder reads it. *)
Lemma decode_read_reply a v :
  Spec.decode_response (seal [a; 3; 2; 0; v]) = if v =? 1 then Spec.On else Spec.Off.
Proof. reflexivity. Qed.

Lemma reply_seen_seal body : (List.length body <= 254)%nat -> firstn 256 (seal body) = seal body.
Proof.
  intros H. apply firstn_all2. unfold seal. rewrite length_app, length_le_digits. lia.
Qed.

End Device.
