(* ===== verification/JsonBridge.v ===== *)
(** * The JSON bridge: [process_command] and [on_message]

    [modbus_mqtt_bridge_json.py] receives a JSON command on the MQTT topic
    [george/test/board/cmd] ([on_message], lines 216-224), runs it against
    the device ([process_command], lines 104-206) and publishes one JSON
    object on [george/test/board/response] ([publish_json], lines 94-99).

    The state is the serial line, the list of published objects (the
    topic and QoS are constant; [json.dumps] layout is not modelled) and
    the lines printed on the console, which only [on_connect] and [main]
    write ([Sessions.JsonProgram]). The
    global [device_selected] set by [main] is the Section variable of the
    same name. [process_command] is written in the state-plus-exception
    monad of the Prelude, statement by statement; the [try/except] of
    lines 107/202 is [st_try]; [cmd = data.get("cmd")] stands before the
    [try] as in the code. The body of the eight-channel loops (lines
    133-142 and 174-188) is [poll_cycle] of [Serial]. *)

From Stdlib Require Import ZArith List Lia String.
From S2P Require Import Prelude PyBytes Crc16 Frames Serial Decode.
Import ListNotations.
Open Scope Z_scope.
Local Open Scope py_scope.

Record bridge := mk_bridge {
  line : serial;
  outbox : list json;
  printed : list string
}.

#[export] Instance bridge_has_serial : HasSerial bridge :=
  {| ser_of := line; with_ser := fun x b => mk_bridge x (outbox b) (printed b) |}.

#[export] Instance bridge_has_serial_laws : HasSerialLaws bridge.
Proof. split; [reflexivity | reflexivity | intros []; reflexivity]. Qed.

(** [publish_json(obj)] *)
Definition publish_json (obj : json) : st bridge unit :=
  fun b => (Ok tt, mk_bridge (line b) (outbox b ++ [obj]) (printed b)).

(** The JSON object of one loop iteration. *)
Definition jfield (k : string) (v : json) : string * json := (k, v).

Section JsonBridge.
Variable device_selected : Z.

Definition output_all_item (i : Z) (resp : list Z) : result json :=
  Ok (JObj [jfield "channel" (JInt i);
            jfield "response" (match resp with [] => JNull | _ => JStr (Json.hexdump resp) end)]).

Definition status_item (i : Z) (resp : list Z) : result json :=
  s <- json_state resp ;; Ok (JObj [jfield "channel" (JInt i); jfield "state" (JStr s)]).

Definition status_build (target : json) (i : Z) : result (list Z) :=
  if py_eq_str target "inputs" then Json.build_read_input device_selected (JInt i)
  else Json.build_read_output device_selected (JInt i).

(** The [if/elif] chain inside the [try] (lines 108-200). *)
Definition dispatch (data cmd : json) : st bridge unit :=
  if py_eq_str cmd "output" then
    ch <-- st_lift (dict_getitem data "channel") ;;
    state <-- st_lift (dict_getitem data "state") ;;
    frame <-- st_lift (Json.build_relay_command device_selected ch state) ;;
    resp <-- exchange frame ;;
    publish_json (JObj [jfield "result" (JStr "ok"); jfield "cmd" cmd;
                        jfield "channel" ch; jfield "state" state;
                        jfield "response" (JStr (Json.hexdump resp))])
  else if py_eq_str cmd "output_all" then
    state <-- st_lift (dict_getitem data "state") ;;
    results <-- st_for_acc (py_range 1 9) []
                  (poll_cycle (fun i => Json.build_relay_command device_selected (JInt i) state)
                                 output_all_item) ;;
    publish_json (JObj [jfield "result" (JStr "ok"); jfield "cmd" cmd;
                        jfield "state" state; jfield "outputs" (JArr results)])
  else if py_eq_str cmd "input" then
    ch <-- st_lift (dict_getitem data "channel") ;;
    frame <-- st_lift (Json.build_read_input device_selected ch) ;;
    resp <-- exchange frame ;;
    s <-- st_lift (json_state resp) ;;
    publish_json (JObj [jfield "cmd" cmd; jfield "input" ch; jfield "state" (JStr s);
                        jfield "raw" (JStr (Json.hexdump resp))])
  else if py_eq_str cmd "status" then
    target <-- st_lift (dict_getitem data "target") ;;
    states <-- st_for_acc (py_range 1 9) [] (poll_cycle (status_build target) status_item) ;;
    publish_json (JObj [jfield "cmd" cmd; jfield "target" target;
                        jfield "states" (JArr states)])
  else
    publish_json (JObj [jfield "result" (JStr "error");
                        jfield "message" (JStr "Unknown command")]).

(** [except Exception as e:] (lines 202-206) *)
Definition report_error (e : exn) : st bridge unit :=
  publish_json (JObj [jfield "result" (JStr "error"); jfield "message" (JStr (py_str_exn e))]).

Definition process_command (data : json) : st bridge unit :=
  cmd <-- st_lift (dict_get data "cmd") ;;
  st_try (dispatch data cmd) report_error.

(** What [msg.payload.decode()] and [json.loads] make of a payload. *)
Inductive payload :=
| NotUtf8
| NotJson
| JsonPayload (data : json).

(** [on_message]: a [JSONDecodeError] is answered; a payload that is not
    UTF-8 raises [UnicodeDecodeError] (a [ValueError]), which nothing
    catches. *)
Definition on_message (p : payload) : st bridge unit :=
  match p with
  | NotUtf8 => st_raise (ValueError "'utf-8' codec can't decode bytes")
  | NotJson => publish_json (JObj [jfield "error" (JStr "Invalid JSON")])
  | JsonPayload data => process_command data
  end.

End JsonBridge.

(** ** What the eight-channel commands should report

    The responses and frames a run over replies [rs] (one per channel,
    channel 1 first) is expected to give, written from the device's point
    of view: the reply that arrives in time, cut at 256 bytes. *)

Definition output_all_report (a : AddressMap.relay_action) (rs : list (list Z * list Z)) : json :=
  JObj [jfield "result" (JStr "ok"); jfield "cmd" (JStr "output_all");
        jfield "state" (JStr (AddressMap.action_token a));
        jfield "outputs"
          (JArr (map (fun p => JObj [jfield "channel" (JInt (fst p));
                                     jfield "response" (match reply_seen (snd p) with
                                                        | [] => JNull
                                                        | _ => JStr (Json.hexdump (reply_seen (snd p)))
                                                        end)])
                     (combine (py_range 1 9) rs)))].

Definition status_frames (device : Z) (target : json) : list (list Z) :=
  map (fun i => AddressMap.encode device
                  (AddressMap.mk_request AddressMap.ReadHoldingRegister
                     (if py_eq_str target "inputs" then 0x0080 + i else i) (0x00, 0x01)))
      (py_range 1 9).

(** The states reported, as the spec's decoder reads each reply: "on"
    exactly when it decodes to [On]. *)
Definition status_report (target : json) (rs : list (list Z * list Z)) : json :=
  JObj [jfield "cmd" (JStr "status"); jfield "target" target;
        jfield "states"
          (JArr (map (fun p => JObj [jfield "channel" (JInt (fst p));
                                     jfield "state"
                                       (JStr (match Spec.decode_response (reply_seen (snd p)) with
                                              | Spec.On => "on"
                                              | _ => "off"
                                              end))])
                     (combine (py_range 1 9) rs)))].

(** ** Publication discipline *)

Definition status_entry (i : Z) (resp : list Z) : json :=
  JObj [jfield "channel" (JInt i);
        jfield "state" (JStr (match Spec.decode_response resp with Spec.On => "on" | _ => "off" end))].

(** Evaluate the comparisons of closed strings (dictionary keys, command
    names) and the dictionary lookups they decide. *)
Ltac json_simpl :=
  cbn [dict_get dict_getitem fields_lookup jfield py_eq_str]; str_simpl; cbv beta iota.

(** A computation that publishes nothing. *)
Definition pub_free {A} (c : st bridge A) : Prop :=
  forall b, outbox (snd (c b)) = outbox b.

(** A statement that either publishes exactly one object and returns, or
    raises having published nothing. *)
Definition once (c : st bridge unit) : Prop :=
  forall b, match c b with
            | (Ok _, b') => exists m, outbox b' = outbox b ++ [m]
            | (Raise _, b') => outbox b' = outbox b
            end.

Create HintDb bridge discriminated.

Lemma pub_free_lift {A} (r : result A) : pub_free (st_lift r).
Proof. intros b. reflexivity. Qed.

Lemma pub_free_ret {A} (a : A) : pub_free (st_ret a).
Proof. intros b. reflexivity. Qed.

Lemma pub_free_exchange frame : pub_free (exchange frame).
Proof. intros b. reflexivity. Qed.

Lemma pub_free_bind {A B} (c : st bridge A) (k : A -> st bridge B) :
  pub_free c -> (forall a, pub_free (k a)) -> pub_free (st_bind c k).
Proof.
  intros Hc Hk b. unfold st_bind. specialize (Hc b).
  destruct (c b) as [[a|e] b']; cbn in *; [rewrite Hk|]; exact Hc.
Qed.

Lemma pub_free_for_acc {A} xs (acc : A) body :
  (forall acc i, pub_free (body acc i)) -> pub_free (st_for_acc xs acc body).
Proof.
  intros Hb. revert acc; induction xs as [|x xs IH]; intros acc; cbn.
  - apply pub_free_ret.
  - apply pub_free_bind; auto.
Qed.

Lemma pub_free_poll_cycle {A} build (item : Z -> list Z -> result A) acc i :
  pub_free (poll_cycle build item acc i).
Proof.
  unfold poll_cycle.
  repeat (apply pub_free_bind; intros; [apply pub_free_lift || apply pub_free_exchange|]).
  apply pub_free_ret.
Qed.

Lemma once_publish m : once (publish_json m).
Proof. intros b. cbn. eexists. reflexivity. Qed.

Lemma once_bind {A} (c : st bridge A) (k : A -> st bridge unit) :
  pub_free c -> (forall a, once (k a)) -> once (st_bind c k).
Proof.
  intros Hc Hk b. unfold st_bind. specialize (Hc b).
  destruct (c b) as [[a|e] b'] eqn:E; cbn in Hc.
  - specialize (Hk a b'). destruct (k a b') as [[u|e'] b'']; rewrite Hc in Hk; exact Hk.
  - exact Hc.
Qed.

Lemma once_if (t : bool) (c1 c2 : st bridge unit) : once c1 -> once c2 -> once (if t then c1 else c2).
Proof. destruct t; auto. Qed.

#[export] Hint Resolve pub_free_lift pub_free_ret pub_free_exchange pub_free_poll_cycle
  once_publish once_if : bridge.
#[export] Hint Extern 1 (pub_free (st_for_acc _ _ _)) => apply pub_free_for_acc; intros : bridge.
#[export] Hint Extern 1 (once (st_bind _ _)) => apply once_bind; [|intros] : bridge.
#[export] Hint Extern 1 (pub_free (st_bind _ _)) => apply pub_free_bind; [|intros] : bridge.

(** A [try] whose handler always publishes one object. *)
Lemma try_once_total (c : st bridge unit) (h : exn -> st bridge unit) b :
  once c -> (forall e, once (h e)) -> (forall e b, fst (h e b) = Ok tt) ->
  exists m b', st_try c h b = (Ok tt, b') /\ outbox b' = outbox b ++ [m].
Proof.
  intros Hc Hh Hok. unfold st_try. specialize (Hc b).
  destruct (c b) as [[u|e] b'].
  - destruct u. destruct Hc as [m Hm]. exists m, b'. auto.
  - specialize (Hh e b'). specialize (Hok e b').
    destruct (h e b') as [r b'']. cbn in Hok. subst r.
    destruct Hh as [m Hm]. exists m, b''. rewrite Hm, Hc. auto.
Qed.

Lemma dispatch_once device_selected data cmd : once (dispatch device_selected data cmd).
Proof. unfold dispatch. repeat (apply once_if); eauto 10 with bridge. Qed.

(** ** Console discipline: the handlers print nothing *)

(** A computation that leaves the console as it is. *)
Definition mute {A} (c : st bridge A) : Prop := forall b, printed (snd (c b)) = printed b.

Lemma mute_lift {A} (r : result A) : mute (st_lift r).
Proof. intros b. reflexivity. Qed.

Lemma mute_ret {A} (a : A) : mute (st_ret a).
Proof. intros b. reflexivity. Qed.

Lemma mute_raise {A} e : mute (@st_raise bridge A e).
Proof. intros b. reflexivity. Qed.

Lemma mute_exchange frame : mute (exchange frame).
Proof. intros b. reflexivity. Qed.

Lemma mute_publish m : mute (publish_json m).
Proof. intros b. reflexivity. Qed.

Lemma mute_bind {A B} (c : st bridge A) (k : A -> st bridge B) :
  mute c -> (forall a, mute (k a)) -> mute (st_bind c k).
Proof.
  intros Hc Hk b. unfold st_bind. specialize (Hc b).
  destruct (c b) as [[a|e] b']; cbn in *; [rewrite Hk|]; exact Hc.
Qed.

Lemma mute_try (c : st bridge unit) h : mute c -> (forall e, mute (h e)) -> mute (st_try c h).
Proof.
  intros Hc Hh b. unfold st_try. specialize (Hc b).
  destruct (c b) as [[a|e] b']; cbn in *; [|rewrite Hh]; exact Hc.
Qed.

Lemma mute_for_acc {A} xs (acc : A) body :
  (forall acc i, mute (body acc i)) -> mute (st_for_acc xs acc body).
Proof.
  intros Hb. revert acc; induction xs as [|x xs IH]; intros acc; cbn [st_for_acc].
  - apply mute_ret.
  - apply mute_bind; auto.
Qed.

(** One step of a [mute] proof, chosen by the form of the statement. *)
Ltac mute_step :=
  match goal with
  | |- mute (st_bind _ _) => apply mute_bind; [|intros]
  | |- mute (st_try _ _) => apply mute_try; [|intros]
  | |- mute (if _ then _ else _) => destruct (_ : bool)
  | |- mute (st_for_acc _ _ _) => apply mute_for_acc; intros
  | |- mute (poll_cycle _ _ _ _) => unfold poll_cycle
  | |- mute (publish_json _) => apply mute_publish
  | |- mute (exchange _) => apply mute_exchange
  | |- mute (st_lift _) => apply mute_lift
  | |- mute (st_ret _) => apply mute_ret
  | |- mute (st_raise _) => apply mute_raise
  end.

Lemma on_message_mute device_selected p : mute (on_message device_selected p).
Proof.
  destruct p; cbn [on_message]; [intros b; reflexivity | apply mute_publish|].
  unfold process_command, dispatch, report_error. repeat mute_step.
Qed.

(** [process_command] on an object returns and adds one object to the
    outbox. *)
Lemma process_command_answers device_selected fields b :
  fst (process_command device_selected (JObj fields) b) = Ok tt /\
  exists m, outbox (snd (process_command device_selected (JObj fields) b)) = outbox b ++ [m].
Proof.
  unfold process_command, st_bind, st_lift.
  assert (Hc : exists v, dict_get (JObj fields) "cmd" = Ok v)
    by (cbn; destruct (fields_lookup fields "cmd"); eauto).
  destruct Hc as [v ->].
  destruct (try_once_total (dispatch device_selected (JObj fields) v) report_error b
              (dispatch_once _ _ _) (fun e => once_publish _) (fun e b' => eq_refl))
    as (m & b' & -> & Ho).
  split; [reflexivity|]. exists m. exact Ho.
Qed.

(** C13: on a JSON object, [process_command] never lets an exception out
    and publishes exactly one object, whatever the command, its fields,
    the device's replies and the errors raised on the way. *)
Theorem json_process_publishes_once device_selected fields b :
  exists m b', process_command device_selected (JObj fields) b = (Ok tt, b') /\
               outbox b' = outbox b ++ [m].
Proof.
  destruct (process_command_answers device_selected fields b) as [Hok [m Hm]].
  exists m, (snd (process_command device_selected (JObj fields) b)).
  split; [|exact Hm]. rewrite <- Hok. apply surjective_pairing.
Qed.

(** C14: the error paths of [on_message]. A payload that is not JSON is
    answered with [{"error": "Invalid JSON"}]; a JSON value that is not
    an object (a list, a number, a string, [null]) makes [data.get] raise
    [AttributeError] before the [try], so the exception leaves the
    callback with nothing written to the device and nothing published; a
    payload that is not UTF-8 raises out of the callback as well. *)
Theorem json_on_message_errors device_selected v b :
  on_message device_selected NotJson b
    = (Ok tt, mk_bridge (line b) (outbox b ++ [JObj [jfield "error" (JStr "Invalid JSON")]]) (printed b)) /\
  fst (on_message device_selected NotUtf8 b) <> Ok tt /\ snd (on_message device_selected NotUtf8 b) = b /\
  ((forall fields, v <> JObj fields) ->
   on_message device_selected (JsonPayload v) b
     = (Raise (AttributeError ("'" ++ py_type_name v ++ "' object has no attribute 'get'")), b)).
Proof.
  split; [reflexivity|]. split; [discriminate|]. split; [reflexivity|].
  intros Hv. destruct v; try reflexivity. exfalso. eapply Hv. reflexivity.
Qed.

Lemma json_on_message_errors_witness :
  (forall fields, JArr [] <> JObj fields) /\
  on_message 1 (JsonPayload (JArr [])) (mk_bridge (mk_serial [] [] [] []) [] [])
    = (Raise (AttributeError "'list' object has no attribute 'get'"),
       mk_bridge (mk_serial [] [] [] []) [] []).
Proof.
  assert (Hv : forall fields, JArr [] <> JObj fields) by discriminate.
  split; [exact Hv|].
  exact (proj2 (proj2 (proj2 (json_on_message_errors 1 (JArr []) (mk_bridge (mk_serial [] [] [] []) [] [])))) Hv).
Defined.

(** ** The eight-channel loops *)


(** The run of [output_all] over eight replies. *)
Lemma output_all_run device a rs rest b :
  0 <= device < 256 -> replies (line b) = rs ++ rest -> List.length rs = 8%nat ->
  exists b',
    process_command device (JObj [jfield "cmd" (JStr "output_all");
                                  jfield "state" (JStr (AddressMap.action_token a))]) b
      = (Ok tt, b') /\
    written (line b') = written (line b) ++ relay_frames device a /\
    replies (line b') = rest /\
    outbox b' = outbox b ++ [output_all_report a rs].
Proof.
  intros Hd Hr Hl.
  destruct (polls_ok (fun i => Json.build_relay_command device (JInt i) (JStr (AddressMap.action_token a)))
              output_all_item
              (fun i => AddressMap.encode device
                          (AddressMap.mk_request AddressMap.WriteSingleRegister i (AddressMap.action_data a)))
              (fun i resp => JObj [jfield "channel" (JInt i);
                                   jfield "response" (match resp with [] => JNull | _ => JStr (Json.hexdump resp) end)])
              (py_range 1 9) rs rest [] b)
    as (x & Hrun & Hw & Hrep).
  { intros i Hi. apply in_py_range in Hi. apply json_relay_valid; lia. }
  { exact Hr. }
  { rewrite Hl. reflexivity. }
  { intros i r _. reflexivity. }
  exists (mk_bridge x (outbox b ++ [output_all_report a rs]) (printed b)).
  unfold process_command, st_bind at 1, st_lift. json_simpl.
  unfold st_try, dispatch. json_simpl.
  unfold st_bind at 1 2, st_lift. json_simpl.
  rewrite Hrun. cbn [app]. unfold publish_json. cbv beta iota.
  split; [reflexivity|]. cbn [line written replies outbox].
  split; [exact Hw|]. split; [exact Hrep | reflexivity].
Qed.

(** C15: [output_all] with state "on" or "off" on a byte device runs eight
    exchanges strictly in channel order 1..8: it writes exactly the spec's
    relay frames for channels 1..8 in that order, consumes one reply per
    channel, keeps going after a silent channel (reported [null]) and
    publishes one "ok" object listing every channel's reply. *)
Theorem json_output_all_sequence device a rs rest b :
  0 <= device < 256 -> replies (line b) = rs ++ rest -> List.length rs = 8%nat ->
  exists b',
    process_command device (JObj [jfield "cmd" (JStr "output_all");
                                  jfield "state" (JStr (AddressMap.action_token a))]) b
      = (Ok tt, b') /\
    written (line b') = written (line b) ++ relay_frames device a /\
    replies (line b') = rest /\
    outbox b' = outbox b ++ [output_all_report a rs].
Proof. exact (output_all_run device a rs rest b). Qed.

Lemma json_output_all_sequence_witness :
  let rs := [([1; 6; 0; 1; 1; 0; 0xD9; 0x9A], []); ([1; 6; 0; 2; 1; 0], []); ([], []);
             ([1; 6; 0; 4; 1; 0], [7]); ([1], []); ([], []); ([1; 6], []); ([1; 6; 0; 8], [])] in
  let b := mk_bridge (mk_serial [5; 5] [] rs []) [] [] in
  0 <= 1 < 256 /\ replies (line b) = rs ++ [] /\ List.length rs = 8%nat /\
  exists b',
    process_command 1 (JObj [jfield "cmd" (JStr "output_all");
                             jfield "state" (JStr (AddressMap.action_token AddressMap.On))]) b
      = (Ok tt, b') /\
    written (line b') = written (line b) ++ relay_frames 1 AddressMap.On /\
    replies (line b') = [] /\
    outbox b' = outbox b ++ [output_all_report AddressMap.On rs].
Proof.
  intros rs b.
  assert (H1 : 0 <= 1 < 256) by lia.
  assert (H2 : replies (line b) = rs ++ []) by reflexivity.
  assert (H3 : List.length rs = 8%nat) by reflexivity.
  split; [exact H1|]. split; [exact H2|]. split; [exact H3|].
  exact (json_output_all_sequence 1 AddressMap.On rs [] b H1 H2 H3).
Defined.

(**  [output_all] with a state other than "on"/"off": the relay
    builder raises on channel 1 before anything is sent, so the serial
    line is left exactly as it was and the only effect is the published
    error object. *)
Theorem json_output_all_invalid_state device (s : string) b :
  s <> "on"%string -> s <> "off"%string ->
  process_command device (JObj [jfield "cmd" (JStr "output_all"); jfield "state" (JStr s)]) b
    = (Ok tt, mk_bridge (line b)
                (outbox b ++ [JObj [jfield "result" (JStr "error");
                                    jfield "message" (JStr "action must be 'on' or 'off'")]]) (printed b)).
Proof.
  intros Hon Hoff.
  unfold process_command, st_bind at 1, st_lift. json_simpl.
  unfold st_try, dispatch. json_simpl.
  unfold st_bind at 1 2, st_lift. json_simpl.
  change (py_range 1 9) with [1; 2; 3; 4; 5; 6; 7; 8]. cbn [st_for_acc].
  unfold st_bind at 1, poll_cycle, st_bind at 1, st_lift.
  rewrite json_relay_bad_action by (lia || assumption). reflexivity.
Qed.

Lemma json_output_all_invalid_state_witness :
  "toggle"%string <> "on"%string /\ "toggle"%string <> "off"%string /\
  process_command 1 (JObj [jfield "cmd" (JStr "output_all"); jfield "state" (JStr "toggle")])
    (mk_bridge (mk_serial [] [] [] []) [] [])
    = (Ok tt, mk_bridge (mk_serial [] [] [] [])
                [JObj [jfield "result" (JStr "error");
                       jfield "message" (JStr "action must be 'on' or 'off'")]] []).
Proof.
  assert (H1 : "toggle"%string <> "on"%string) by discriminate.
  assert (H2 : "toggle"%string <> "off"%string) by discriminate.
  split; [exact H1|]. split; [exact H2|].
  exact (json_output_all_invalid_state 1 "toggle" (mk_bridge (mk_serial [] [] [] []) [] []) H1 H2).
Defined.

Lemma status_build_ok device target i :
  0 <= device < 256 -> 1 <= i <= 8 ->
  status_build device target i =
  Ok (AddressMap.encode device
        (AddressMap.mk_request AddressMap.ReadHoldingRegister
           (if py_eq_str target "inputs" then 0x0080 + i else i) (0x00, 0x01))).
Proof.
  intros Hd Hi. unfold status_build. destruct (py_eq_str target "inputs").
  - rewrite json_input_any by exact Hd. rewrite Z.mod_small by lia. reflexivity.
  - rewrite json_output_byte by lia. rewrite Z.mod_small by lia. reflexivity.
Qed.

Lemma status_item_ok i resp :
  resp = [] \/ (5 <= List.length resp)%nat -> status_item i resp = Ok (status_entry i resp).
Proof. intros H. unfold status_item. rewrite json_state_not_short by exact H. reflexivity. Qed.

(** The run of [status] over eight replies that are empty or complete. *)
Lemma status_run device target rs rest b :
  0 <= device < 256 -> replies (line b) = rs ++ rest -> List.length rs = 8%nat ->
  Forall (fun r => reply_seen r = [] \/ (5 <= List.length (reply_seen r))%nat) rs ->
  exists b',
    process_command device (JObj [jfield "cmd" (JStr "status"); jfield "target" target]) b
      = (Ok tt, b') /\
    written (line b') = written (line b) ++ status_frames device target /\
    replies (line b') = rest /\
    outbox b' = outbox b ++ [status_report target rs].
Proof.
  intros Hd Hr Hl Hok.
  destruct (polls_ok (status_build device target) status_item
              (fun i => AddressMap.encode device
                          (AddressMap.mk_request AddressMap.ReadHoldingRegister
                             (if py_eq_str target "inputs" then 0x0080 + i else i) (0x00, 0x01)))
              status_entry (py_range 1 9) rs rest [] b)
    as (x & Hrun & Hw & Hrep).
  { intros i Hi. apply in_py_range in Hi. apply status_build_ok; lia. }
  { exact Hr. }
  { rewrite Hl. reflexivity. }
  { intros i r Hin. apply status_item_ok.
    apply in_combine_r in Hin. rewrite Forall_forall in Hok. exact (Hok r Hin). }
  exists (mk_bridge x (outbox b ++ [status_report target rs]) (printed b)).
  unfold process_command, st_bind at 1, st_lift. json_simpl.
  unfold st_try, dispatch. json_simpl.
  unfold st_bind at 1 2, st_lift. json_simpl.
  rewrite Hrun. cbn [app]. unfold publish_json. cbv beta iota.
  split; [reflexivity|]. cbn [line written replies outbox].
  split; [exact Hw|]. split; [exact Hrep | reflexivity].
Qed.

(** C16: [status] polls the eight channels strictly in order 1..8: it
    writes the eight read frames (inputs at 0x0080 + i when the target is
    "inputs", outputs at i for any other target), consumes one reply per
    channel and, when no reply is 1 to 4 bytes long, publishes the eight
    states in channel order, each "on" exactly when the spec's decoder
    reads [On]; a silent channel does not stop the poll and is reported
    "off". *)
Theorem json_status_sequence device target rs rest b :
  0 <= device < 256 -> replies (line b) = rs ++ rest -> List.length rs = 8%nat ->
  Forall (fun r => reply_seen r = [] \/ (5 <= List.length (reply_seen r))%nat) rs ->
  exists b',
    process_command device (JObj [jfield "cmd" (JStr "status"); jfield "target" target]) b
      = (Ok tt, b') /\
    written (line b') = written (line b) ++ status_frames device target /\
    replies (line b') = rest /\
    outbox b' = outbox b ++ [status_report target rs].
Proof. exact (status_run device target rs rest b). Qed.

(** C17: a reply of 1 to 4 bytes aborts the [status] poll. When the
    replies before channel [k + 1] are complete or empty and the reply of
    channel [k + 1] is 1 to 4 bytes, [resp[4]] raises [IndexError]: the
    frames of channels 1..k+1 have gone out, the remaining channels are
    never polled, and instead of the states the only message published is
    the error object "index out of range". *)
Theorem json_status_short_reply_aborts device target pre now later rest b :
  0 <= device < 256 -> replies (line b) = pre ++ (now, later) :: rest ->
  (List.length pre < 8)%nat ->
  Forall (fun r => reply_seen r = [] \/ (5 <= List.length (reply_seen r))%nat) pre ->
  (1 <= List.length now <= 4)%nat ->
  exists b',
    process_command device (JObj [jfield "cmd" (JStr "status"); jfield "target" target]) b
      = (Ok tt, b') /\
    written (line b') = written (line b) ++ firstn (S (List.length pre)) (status_frames device target) /\
    outbox b' = outbox b ++ [JObj [jfield "result" (JStr "error");
                                   jfield "message" (JStr "index out of range")]].
Proof.
  intros Hd Hr Hk Hok Hn.
  set (R := py_range 1 9). set (k := List.length pre).
  assert (HR : List.length R = 8%nat) by reflexivity.
  set (frames := fun i => AddressMap.encode device
                   (AddressMap.mk_request AddressMap.ReadHoldingRegister
                      (if py_eq_str target "inputs" then 0x0080 + i else i) (0x00, 0x01))).
  destruct (polls_abort (status_build device target) status_item frames status_entry
              (firstn k R) (nth k R 0) (skipn (S k) R) pre now later rest [] b
              (IndexError "index out of range"))
    as (x & Hrun & Hw).
  { intros i Hi. apply status_build_ok; [exact Hd|].
    assert (Hi' : In i R).
    { apply in_app_or in Hi as [Hi | [<- | []]]; [eapply in_firstn_in; exact Hi | apply nth_In; lia]. }
    apply in_py_range in Hi'. lia. }
  { exact Hr. }
  { rewrite length_firstn. lia. }
  { intros i r Hin. apply status_item_ok.
    apply in_combine_r in Hin. rewrite Forall_forall in Hok. exact (Hok r Hin). }
  { unfold status_item. rewrite firstn_all2 by lia. rewrite json_state_short by lia. reflexivity. }
  exists (mk_bridge x (outbox b ++ [JObj [jfield "result" (JStr "error");
                                                   jfield "message" (JStr "index out of range")]]) (printed b)).
  unfold process_command, st_bind at 1, st_lift. json_simpl.
  unfold st_try, dispatch. json_simpl.
  unfold st_bind at 1 2, st_lift. json_simpl.
  fold R. rewrite (list_split_at R k 0) by lia. rewrite Hrun. cbv beta iota.
  unfold report_error, publish_json.
  split; [reflexivity|]. cbn [line written outbox]. split; [|reflexivity].
  rewrite Hw. unfold status_frames. fold R. rewrite firstn_map.
  rewrite (firstn_S_nth R k 0) by lia. rewrite map_app. reflexivity.
Qed.

Lemma json_status_sequence_witness :
  let rs := [([1; 3; 2; 0; 1; 0; 0], []); ([1; 3; 2; 0; 0], []); ([], []);
             ([1; 3; 2; 0; 1], [9]); ([1; 3; 2; 0; 0; 5; 5], []); ([], []);
             ([1; 3; 2; 0; 1; 0; 0], []); ([1; 3; 2; 0; 0; 0; 0], [])] in
  let b := mk_bridge (mk_serial [] [] rs []) [] [] in
  0 <= 1 < 256 /\ replies (line b) = rs ++ [] /\ List.length rs = 8%nat /\
  Forall (fun r => reply_seen r = [] \/ (5 <= List.length (reply_seen r))%nat) rs /\
  exists b',
    process_command 1 (JObj [jfield "cmd" (JStr "status"); jfield "target" (JStr "inputs")]) b
      = (Ok tt, b') /\
    written (line b') = written (line b) ++ status_frames 1 (JStr "inputs") /\
    replies (line b') = [] /\
    outbox b' = outbox b ++ [status_report (JStr "inputs") rs].
Proof.
  intros rs b.
  assert (H1 : 0 <= 1 < 256) by lia.
  assert (H2 : replies (line b) = rs ++ []) by reflexivity.
  assert (H3 : List.length rs = 8%nat) by reflexivity.
  assert (H4 : Forall (fun r => reply_seen r = [] \/ (5 <= List.length (reply_seen r))%nat) rs).
  { repeat (apply Forall_cons; [cbn; first [left; reflexivity | right; lia] |]). apply Forall_nil. }
  split; [exact H1|]. split; [exact H2|]. split; [exact H3|]. split; [exact H4|].
  exact (json_status_sequence 1 (JStr "inputs") rs [] b H1 H2 H3 H4).
Defined.

Lemma json_status_short_reply_aborts_witness :
  let pre := [([1; 3; 2; 0; 1; 0; 0], []); ([], [])] in
  let b := mk_bridge (mk_serial [] [] (pre ++ [([1; 3], [])]) []) [] [] in
  0 <= 1 < 256 /\ replies (line b) = pre ++ ([1; 3], []) :: [] /\
  (List.length pre < 8)%nat /\
  Forall (fun r => reply_seen r = [] \/ (5 <= List.length (reply_seen r))%nat) pre /\
  (1 <= List.length [1; 3] <= 4)%nat /\
  exists b',
    process_command 1 (JObj [jfield "cmd" (JStr "status"); jfield "target" (JStr "outputs")]) b
      = (Ok tt, b') /\
    written (line b') = written (line b) ++ firstn (S (List.length pre)) (status_frames 1 (JStr "outputs")) /\
    outbox b' = outbox b ++ [JObj [jfield "result" (JStr "error");
                                   jfield "message" (JStr "index out of range")]].
Proof.
  intros pre b.
  assert (H1 : 0 <= 1 < 256) by lia.
  assert (H2 : replies (line b) = pre ++ ([1; 3], []) :: []) by reflexivity.
  assert (H3 : (List.length pre < 8)%nat) by (cbn; lia).
  assert (H4 : Forall (fun r => reply_seen r = [] \/ (5 <= List.length (reply_seen r))%nat) pre).
  { repeat (apply Forall_cons; [cbn; first [left; reflexivity | right; lia] |]). apply Forall_nil. }
  assert (H5 : (1 <= List.length [1; 3] <= 4)%nat) by (cbn; lia).
  split; [exact H1|]. split; [exact H2|]. split; [exact H3|]. split; [exact H4|]. split; [exact H5|].
  exact (json_status_short_reply_aborts 1 (JStr "outputs") pre [1; 3] [] [] b H1 H2 H3 H4 H5).
Defined.

(** ** Single-channel and unknown commands *)

(** C28: [{"cmd": "output", "channel": ch, "state": "on"|"off"}] on a byte
    device: on a channel in 1..8 the bridge sends exactly the spec's relay
    frame, reads one reply and publishes an "ok" object echoing the
    command with the reply in hex; on any other channel it sends nothing
    and publishes the error "channel must be 1-8". *)
Theorem json_output_single device ch a now later rest b :
  0 <= device < 256 -> replies (line b) = (now, later) :: rest ->
  process_command device (JObj [jfield "cmd" (JStr "output"); jfield "channel" (JInt ch);
                                jfield "state" (JStr (AddressMap.action_token a))]) b
  = if AddressMap.valid_channel ch then
      (Ok tt, mk_bridge (after_exchange (line b)
                           (AddressMap.encode device (AddressMap.mk_request
                              AddressMap.WriteSingleRegister ch (AddressMap.action_data a)))
                           now later rest)
                (outbox b ++ [JObj [jfield "result" (JStr "ok"); jfield "cmd" (JStr "output");
                                    jfield "channel" (JInt ch);
                                    jfield "state" (JStr (AddressMap.action_token a));
                                    jfield "response" (JStr (Json.hexdump (firstn 256 now)))]]) (printed b))
    else
      (Ok tt, mk_bridge (line b) (outbox b ++ [JObj [jfield "result" (JStr "error");
                                                     jfield "message" (JStr "channel must be 1-8")]]) (printed b)).
Proof.
  intros Hd Hr.
  unfold process_command, st_bind at 1, st_lift. json_simpl.
  unfold st_try, dispatch. json_simpl.
  unfold st_bind at 1 2 3, st_lift. json_simpl.
  destruct (AddressMap.valid_channel ch) eqn:Hv.
  - apply valid_channel_spec in Hv.
    rewrite (json_relay_valid device ch a Hd Hv). unfold st_bind.
    rewrite (exchange_reply _ now later rest b) by exact Hr. reflexivity.
  - rewrite (proj2 (proj2 (relay_bad_channel device ch a Hv))). reflexivity.
Qed.

Lemma json_output_single_witness :
  let b := mk_bridge (mk_serial [9] [] [([1; 6; 0; 3; 1; 0], [0x78])] []) [] [] in
  0 <= 1 < 256 /\ replies (line b) = ([1; 6; 0; 3; 1; 0], [0x78]) :: [] /\
  process_command 1 (JObj [jfield "cmd" (JStr "output"); jfield "channel" (JInt 3);
                           jfield "state" (JStr (AddressMap.action_token AddressMap.On))]) b
  = if AddressMap.valid_channel 3 then
      (Ok tt, mk_bridge (after_exchange (line b)
                           (AddressMap.encode 1 (AddressMap.mk_request
                              AddressMap.WriteSingleRegister 3 (AddressMap.action_data AddressMap.On)))
                           [1; 6; 0; 3; 1; 0] [0x78] [])
                (outbox b ++ [JObj [jfield "result" (JStr "ok"); jfield "cmd" (JStr "output");
                                    jfield "channel" (JInt 3);
                                    jfield "state" (JStr (AddressMap.action_token AddressMap.On));
                                    jfield "response" (JStr (Json.hexdump (firstn 256 [1; 6; 0; 3; 1; 0])))]]) (printed b))
    else
      (Ok tt, mk_bridge (line b) (outbox b ++ [JObj [jfield "result" (JStr "error");
                                                     jfield "message" (JStr "channel must be 1-8")]]) (printed b)).
Proof.
  intros b.
  assert (H1 : 0 <= 1 < 256) by lia.
  assert (H2 : replies (line b) = ([1; 6; 0; 3; 1; 0], [0x78]) :: []) by reflexivity.
  split; [exact H1|]. split; [exact H2|].
  exact (json_output_single 1 3 AddressMap.On _ _ _ b H1 H2).
Defined.

(** C29: [{"cmd": "input", "channel": n}] on a byte device reads the
    input register [(0x0080 + n) mod 2^16] for any integer [n] (there is
    no channel check) and publishes the state as the spec's decoder reads
    the reply, "on" exactly for [On] and "off" for [Off] and for an empty
    reply; a reply of 1 to 4 bytes ([Malformed]) makes it publish the
    error "index out of range" instead. *)
Theorem json_input_single device n now later rest b :
  0 <= device < 256 -> replies (line b) = (now, later) :: rest ->
  process_command device (JObj [jfield "cmd" (JStr "input"); jfield "channel" (JInt n)]) b
  = (Ok tt, mk_bridge (after_exchange (line b) (read_holding_frame device ((0x0080 + n) mod 65536))
                                      now later rest)
              (outbox b ++
                 [match Spec.decode_response (firstn 256 now) with
                  | Spec.Unknown Spec.Malformed =>
                      JObj [jfield "result" (JStr "error"); jfield "message" (JStr "index out of range")]
                  | d => JObj [jfield "cmd" (JStr "input"); jfield "input" (JInt n);
                               jfield "state" (JStr (match d with Spec.On => "on" | _ => "off" end));
                               jfield "raw" (JStr (Json.hexdump (firstn 256 now)))]
                  end]) (printed b)).
Proof.
  intros Hd Hr.
  unfold process_command, st_bind at 1, st_lift. json_simpl.
  unfold st_try, dispatch. json_simpl.
  unfold st_bind at 1 2, st_lift. json_simpl.
  rewrite (json_input_any device n Hd). unfold st_bind.
  rewrite (exchange_reply _ now later rest b) by exact Hr. unfold st_lift.
  rewrite json_state_decode.
  destruct (Spec.decode_response (firstn 256 now)) as [| |[|]]; reflexivity.
Qed.

Lemma json_input_single_witness :
  let b := mk_bridge (mk_serial [] [] [([1; 3; 2; 0; 1; 0x79; 0x84], [])] []) [] [] in
  0 <= 1 < 256 /\ replies (line b) = ([1; 3; 2; 0; 1; 0x79; 0x84], []) :: [] /\
  process_command 1 (JObj [jfield "cmd" (JStr "input"); jfield "channel" (JInt 9)]) b
  = (Ok tt, mk_bridge (after_exchange (line b) (read_holding_frame 1 ((0x0080 + 9) mod 65536))
                                      [1; 3; 2; 0; 1; 0x79; 0x84] [] [])
              (outbox b ++
                 [match Spec.decode_response (firstn 256 [1; 3; 2; 0; 1; 0x79; 0x84]) with
                  | Spec.Unknown Spec.Malformed =>
                      JObj [jfield "result" (JStr "error"); jfield "message" (JStr "index out of range")]
                  | d => JObj [jfield "cmd" (JStr "input"); jfield "input" (JInt 9);
                               jfield "state" (JStr (match d with Spec.On => "on" | _ => "off" end));
                               jfield "raw" (JStr (Json.hexdump (firstn 256 [1; 3; 2; 0; 1; 0x79; 0x84])))]
                  end]) (printed b)).
Proof.
  intros b.
  assert (H1 : 0 <= 1 < 256) by lia.
  assert (H2 : replies (line b) = ([1; 3; 2; 0; 1; 0x79; 0x84], []) :: []) by reflexivity.
  split; [exact H1|]. split; [exact H2|].
  exact (json_input_single 1 9 _ _ _ b H1 H2).
Defined.

(** C30: a JSON object whose "cmd" is none of "output", "output_all",
    "input", "status" (another string, a number, or no "cmd" at all,
    which [data.get] reads as [None]) is answered with the error
    "Unknown command" and nothing is sent to the device. *)
Theorem json_unknown_command device fields v b :
  dict_get (JObj fields) "cmd" = Ok v ->
  py_eq_str v "output" = false -> py_eq_str v "output_all" = false ->
  py_eq_str v "input" = false -> py_eq_str v "status" = false ->
  process_command device (JObj fields) b
  = (Ok tt, mk_bridge (line b) (outbox b ++ [JObj [jfield "result" (JStr "error");
                                                   jfield "message" (JStr "Unknown command")]]) (printed b)).
Proof.
  intros Hv H1 H2 H3 H4.
  unfold process_command, st_bind at 1, st_lift. rewrite Hv.
  unfold st_try, dispatch. rewrite H1, H2, H3, H4. reflexivity.
Qed.

Lemma json_unknown_command_witness :
  dict_get (JObj [jfield "channel" (JInt 2)]) "cmd" = Ok JNull /\
  py_eq_str JNull "output" = false /\ py_eq_str JNull "output_all" = false /\
  py_eq_str JNull "input" = false /\ py_eq_str JNull "status" = false /\
  process_command 1 (JObj [jfield "channel" (JInt 2)]) (mk_bridge (mk_serial [] [] [] []) [] [])
  = (Ok tt, mk_bridge (mk_serial [] [] [] []) [JObj [jfield "result" (JStr "error");
                                                     jfield "message" (JStr "Unknown command")]] []).
Proof.
  assert (H0 : dict_get (JObj [jfield "channel" (JInt 2)]) "cmd" = Ok JNull) by reflexivity.
  assert (H1 : py_eq_str JNull "output" = false) by reflexivity.
  assert (H2 : py_eq_str JNull "output_all" = false) by reflexivity.
  assert (H3 : py_eq_str JNull "input" = false) by reflexivity.
  assert (H4 : py_eq_str JNull "status" = false) by reflexivity.
  split; [exact H0|]. split; [exact H1|]. split; [exact H2|]. split; [exact H3|]. split; [exact H4|].
  exact (json_unknown_command 1 _ _ (mk_bridge (mk_serial [] [] [] []) [] []) H0 H1 H2 H3 H4).
Defined.
