(* ===== verification/TextBridge.v ===== *)
(** * The text command language: the raw tester and the text bridge

    [raw_modbus_test.py] reads commands from the console in [main]
    (lines 129-213) and prints the results; [modbus_mqtt_bridge.py] gets
    the same commands as MQTT messages ([on_message], lines 37-57), runs
    them in [process_command] (lines 150-252) and publishes the results
    with [print_pubish] (lines 142-147). Commands: [out <n> on|off],
    [on all], [off all], [in <n>], [status out], [status inp], [exit].

    The state is the serial line, the texts published on
    [george/test/board/response] and the lines printed on the console.
    Neither script catches exceptions around a command: an exception is
    the [Raise] outcome, which ends the program ([main]'s loop, or the
    MQTT loop through the callback). [sys.exit(0)] is [SystemExit 0]. The
    prompt printed by [input()] is not modelled; the global
    [device_selected] is the Section variable of each Module.

    Both scripts' [build_relay_command] prints the frame before its CRC:
    a handler calls it as the statement [relay_command_io], which returns
    the frame of [Frames] and adds that console line; the relay sweeps
    have their own loop bodies ([relay_cycle]) for that reason, the status
    sweeps use [print_cycle] and [Serial.poll_cycle]. *)

From Stdlib Require Import ZArith List Lia String.
From S2P Require Import Prelude PyBytes PyStr Crc16 Frames Serial Decode.
Import ListNotations.
Open Scope Z_scope.
Local Open Scope py_scope.
Local Open Scope string_scope.

Record tstate := mk_tstate {
  tline : serial;
  published : list string;
  console : list string
}.

#[export] Instance tstate_has_serial : HasSerial tstate :=
  {| ser_of := tline; with_ser := fun x t => mk_tstate x (published t) (console t) |}.

#[export] Instance tstate_has_serial_laws : HasSerialLaws tstate.
Proof. split; [reflexivity | reflexivity | intros []; reflexivity]. Qed.

(** [print( *args)] *)
Definition print (args : list string) : st tstate unit :=
  fun t => (Ok tt, mk_tstate (tline t) (published t) (app (console t) [py_join " " args])).

(** [for i in range(1, 9): body(i)] *)
Definition for_channels (body : Z -> st tstate unit) : st tstate unit := st_for (py_range 1 9) body.

(** The body of the raw tester's status loops: build the frame of
    channel [i], exchange it, print the arguments made from the reply. *)
Definition print_cycle (build : Z -> result (list Z))
    (args_of : Z -> list Z -> result (list string)) (i : Z) : st tstate unit :=
  frame <-- st_lift (build i) ;;
  resp <-- exchange frame ;;
  args <-- st_lift (args_of i resp) ;;
  print args.

(** [build_relay_command] of the two text scripts as a handler runs it
    (raw tester lines 64-68, text bridge lines 106-110): the checks and
    the six bytes ([checked], [Frames.Raw.relay_frame_wo_crc]), then
    [print("Frame without CRC:", hexdump(frame_wo_crc))], then
    [frame_wo_crc + crc16(frame_wo_crc)]. *)
Definition relay_command_io (checked : result (list Z)) (crc16 : list Z -> result (list Z))
    (hexdump : list Z -> string) : st tstate (list Z) :=
  frame_wo_crc <-- st_lift checked ;;
  _ <-- print ["Frame without CRC:"; hexdump frame_wo_crc] ;;
  crc <-- st_lift (crc16 frame_wo_crc) ;;
  st_ret (app frame_wo_crc crc).

(** ** [raw_modbus_test.py] *)
Module RawMain.

Definition build_relay_command (device channel : Z) (action : string) : st tstate (list Z) :=
  relay_command_io (Raw.relay_frame_wo_crc device channel action) Raw.crc16 hexdump.

Section RawMain.
Variable device_selected : Z.

(** One channel of [on all] / [off all] (lines 145-160). *)
Definition relay_cycle (action word : string) (i : Z) : st tstate unit :=
  frame <-- build_relay_command device_selected i action ;;
  resp <-- exchange frame ;;
  print ["Channel " ++ py_str_int i ++ " " ++ word ++ " response:"; hexdump resp].

(** The status loops print one line per channel from [text_state]. *)
Definition status_line (label : string) (i : Z) (r : text_reading) : string :=
  match r with
  | TextOn => label ++ " " ++ py_str_int i ++ " is ON"
  | TextOff => label ++ " " ++ py_str_int i ++ " is OFF"
  | TextNoResponse => label ++ " " ++ py_str_int i ++ ": No response (timeout)."
  end.

(** [if size > 0: if resp[4] == 1: print(f"{label} {i} is ON") ...] *)
Definition status_args (label : string) (i : Z) (resp : list Z) : result (list string) :=
  r <- text_state resp ;; Ok [status_line label i r].

(** The body of [while True:] once [cmd] is read and is not ["exit"]
    (lines 135-213). *)
Definition run_command (cmd : string) : st tstate unit :=
  _ <-- print ["You typed: "; cmd] ;;
  let parts := py_split cmd in
  if (Nat.eqb (List.length parts) 3 && String.eqb (nth 0 parts "") "out")%bool then
    ch <-- st_lift (py_int (nth 1 parts "")) ;;
    let state := nth 2 parts "" in
    frame <-- build_relay_command device_selected ch state ;;
    resp <-- exchange frame ;;
    print ["<- Response:"; hexdump resp]
  else if String.eqb cmd "on all" then for_channels (relay_cycle "on" "ON")
  else if String.eqb cmd "off all" then for_channels (relay_cycle "off" "OFF")
  else if (Nat.eqb (List.length parts) 2 && String.eqb (nth 0 parts "") "in")%bool then
    inp <-- st_lift (py_int (nth 1 parts "")) ;;
    frame <-- st_lift (Raw.build_read_input device_selected inp) ;;
    resp <-- exchange frame ;;
    if (0 <? Z.of_nat (List.length resp))%Z then
      _ <-- print ["<- Response:"; hexdump resp] ;;
      b <-- st_lift (py_getitem resp 4) ;;
      if (b =? 1)%Z then print ["Input " ++ py_str_int inp ++ " is ON"]
      else print ["Input " ++ py_str_int inp ++ " is OFF"]
    else print ["<- No response (timeout)."]
  else if String.eqb cmd "status out" then
    for_channels (print_cycle (Raw.builst_read_output device_selected) (status_args "Output"))
  else if String.eqb cmd "status inp" then
    for_channels (print_cycle (Raw.build_read_input device_selected) (status_args "Input"))
  else print ["Invalid command format."].

(** [while True: cmd = input("Command> ").strip().lower(); ...] over the
    lines typed; [input()] raises [EOFError] when they run out. *)
Fixpoint command_loop (lines : list string) : st tstate unit :=
  match lines with
  | [] => st_raise (EOFError "EOF when reading a line")
  | l :: rest =>
      let cmd := py_lower (py_strip l) in
      if String.eqb cmd "exit" then st_ret tt
      else st_bind (run_command cmd) (fun _ => command_loop rest)
  end.

(** The loop over [EXAMPLES] after [exit] (lines 216-228). *)
Fixpoint send_examples (examples : list (string * string)) : st tstate unit :=
  match examples with
  | [] => st_ret tt
  | (name, hexframe) :: rest =>
      data <-- st_lift (hexstr_to_bytes hexframe) ;;
      _ <-- print [nl ++ "-> Sending example:"; name; hexdump data] ;;
      resp <-- exchange data ;;
      _ <-- (match resp with
             | [] => print ["<- No response (timeout)."]
             | _ => print ["<- Raw response:"; hexdump resp]
             end) ;;
      send_examples rest
  end.

Definition main_session (lines : list string) : st tstate unit :=
  _ <-- command_loop lines ;;
  send_examples Raw.EXAMPLES.

End RawMain.
End RawMain.

(** ** [modbus_mqtt_bridge.py] *)
Module TextMqtt.

Definition build_relay_command (device channel : Z) (action : string) : st tstate (list Z) :=
  relay_command_io (Bridge.relay_frame_wo_crc device channel action) Bridge.crc16 Bridge.hexdump.

Section TextMqtt.
Variable device_selected : Z.

(** [print_pubish( *args)]: publish the arguments joined by spaces, then
    print the published text. *)
Definition print_pubish (args : list string) : st tstate unit :=
  fun t => let text := py_join " " args in
           (Ok tt, mk_tstate (tline t) (app (published t) [text])
                             (app (console t) [py_join " " ["Publishing message:"; text]])).

(** [if len(resp) > 0: messages.append(f"Channel {i} ON response: ...")
    else: messages.append(f"Channel {i} No response (timeout)")]; the
    "off all" loop writes [f"Channel {i}: No response (timeout)"]. *)
Definition relay_all_line (word sep : string) (i : Z) (resp : list Z) : string :=
  match resp with
  | [] => "Channel " ++ py_str_int i ++ sep ++ " No response (timeout)"
  | _ => "Channel " ++ py_str_int i ++ " " ++ word ++ " response: " ++ Bridge.hexdump resp
  end.

(** One channel of [on all] / [off all] (lines 175-198). *)
Definition relay_cycle (action word sep : string) (msgs : list string) (i : Z) : st tstate (list string) :=
  frame <-- build_relay_command device_selected i action ;;
  resp <-- exchange frame ;;
  st_ret (app msgs [relay_all_line word sep i resp]).

(** The status loops' lines; both loops label every line "Input". *)
Definition input_line (i : Z) (r : text_reading) : string :=
  match r with
  | TextOn => "Input " ++ py_str_int i ++ " is ON"
  | TextOff => "Input " ++ py_str_int i ++ " is OFF"
  | TextNoResponse => "Input " ++ py_str_int i ++ ": No response (timeout)"
  end.

Definition status_msg (i : Z) (resp : list Z) : result string :=
  r <- text_state resp ;; Ok (input_line i r).

(** The first line of [messages] for the commands that have one. *)
Definition initial_messages (cmd : string) : list string :=
  if (String.eqb cmd "on all" || String.eqb cmd "off all" || py_startswith cmd "out "
      || py_startswith cmd "in " || py_startswith cmd "status ")%bool
  then ["Processing command: " ++ cmd] else [].

Definition process_command (cmd : string) : st tstate unit :=
  let messages := initial_messages cmd in
  if String.eqb cmd "exit" then
    _ <-- print_pubish ["Exiting program as requested."] ;;
    st_raise (SystemExit 0)
  else
  _ <-- print_pubish ["You typed: "; cmd] ;;
  let parts := py_split cmd in
  if (Nat.eqb (List.length parts) 3 && String.eqb (nth 0 parts "") "out")%bool then
    ch <-- st_lift (py_int (nth 1 parts "")) ;;
    let state := nth 2 parts "" in
    _ <-- print [py_str_int device_selected; py_str_int ch; state] ;;
    frame <-- build_relay_command device_selected ch state ;;
    resp <-- exchange frame ;;
    print_pubish ["<- Response:"; Bridge.hexdump resp]
  else if String.eqb cmd "on all" then
    msgs <-- st_for_acc (py_range 1 9) messages (relay_cycle "on" "ON" "") ;;
    print_pubish [py_join nl msgs]
  else if String.eqb cmd "off all" then
    msgs <-- st_for_acc (py_range 1 9) messages (relay_cycle "off" "OFF" ":") ;;
    print_pubish [py_join nl msgs]
  else if (Nat.eqb (List.length parts) 2 && String.eqb (nth 0 parts "") "in")%bool then
    inp <-- st_lift (py_int (nth 1 parts "")) ;;
    frame <-- st_lift (Bridge.build_read_input device_selected inp) ;;
    resp <-- exchange frame ;;
    if (0 <? Z.of_nat (List.length resp))%Z then
      b <-- st_lift (py_getitem resp 4) ;;
      print_pubish ["Input " ++ py_str_int inp ++ " is " ++ (if (b =? 1)%Z then "ON" else "OFF")]
    else print_pubish ["<- No response (timeout)."]
  else if String.eqb cmd "status out" then
    msgs <-- st_for_acc (py_range 1 9) messages
              (poll_cycle (Bridge.builst_read_output device_selected) status_msg) ;;
    print_pubish [py_join nl msgs]
  else if String.eqb cmd "status inp" then
    msgs <-- st_for_acc (py_range 1 9) messages
              (poll_cycle (Bridge.build_read_input device_selected) status_msg) ;;
    print_pubish [py_join nl msgs]
  else print_pubish ["Invalid command format."].

(** [on_publish(client, userdata, mid)] (lines 34-35); [main] never
    registers it as a callback. *)
Definition on_publish (mid : Z) : st tstate unit :=
  print ["Message published! MID:"; py_str_int mid].

(** [on_message]: own messages are ignored, ["ping"] and ["bye"] compute
    a reply that is never sent, anything else is a command. *)
Definition on_message (payload : string) : st tstate unit :=
  let text := py_strip payload in
  let incoming := py_lower text in
  _ <-- print ["Received: " ++ text] ;;
  if py_startswith incoming "from-subscriber:" then st_ret tt
  else if String.eqb incoming "ping" then st_ret tt
  else if String.eqb incoming "bye" then st_ret tt
  else process_command incoming.

End TextMqtt.
End TextMqtt.

(** ** What the eight-channel commands should print and publish

    Written from the device's side: [rs] are the replies to channels
    1..8, each read as [reply_seen] and decoded by the spec's decoder. *)

(** The text bridge's line for channel [i], from the spec's decoding. *)
Definition status_text (i : Z) (resp : list Z) : string :=
  TextMqtt.input_line i (text_reading_of (Spec.decode_response resp)).

(** The text bridge's status message: the header line, then one line per
    channel. *)
Definition status_message (cmd : string) (rs : list (list Z * list Z)) : string :=
  py_join nl (("Processing command: " ++ cmd)
                :: map (fun p => status_text (fst p) (reply_seen (snd p))) (combine (py_range 1 9) rs)).

(** The command that switches every relay: ["on all"] or ["off all"]. *)
Definition all_command (a : AddressMap.relay_action) : string :=
  AddressMap.action_token a ++ " all".

(** The text bridge's message after switching every relay: the "off all"
    loop puts a colon after the channel number of a silent channel, the
    "on all" loop does not. *)
Definition relay_all_message (a : AddressMap.relay_action) (rs : list (list Z * list Z)) : string :=
  let '(word, sep) := match a with AddressMap.On => ("ON", "") | AddressMap.Off => ("OFF", ":") end in
  py_join nl (("Processing command: " ++ all_command a)
                :: map (fun p => TextMqtt.relay_all_line word sep (fst p) (reply_seen (snd p)))
                       (combine (py_range 1 9) rs)).

(** The lines the raw tester prints for a status sweep. *)
Definition status_lines (label : string) (rs : list (list Z * list Z)) : list string :=
  map (fun p => RawMain.status_line label (fst p)
                  (text_reading_of (Spec.decode_response (reply_seen (snd p)))))
      (combine (py_range 1 9) rs).

(** The typed lines run as commands, one after the other, then [k]. *)
Definition run_lines (device : Z) (lines : list string) (k : st tstate unit) : st tstate unit :=
  fold_right (fun x k => st_bind (RawMain.run_command device (py_lower (py_strip x))) (fun _ => k))
             k lines.

(** A reply the decoder reads without raising: empty or complete. *)
Definition reply_complete (r : list Z * list Z) : Prop :=
  reply_seen r = [] \/ (5 <= List.length (reply_seen r))%nat.

(** ** Lemmas *)

Lemma split_neq x y : py_split x <> py_split y -> String.eqb x y = false.
Proof. intros H. destruct (String.eqb_spec x y) as [->|]; [contradiction | reflexivity]. Qed.

(** Evaluate the string built-ins on a closed command line. *)
Ltac text_simpl :=
  repeat match goal with
         | |- context [py_strip ?x] =>
             let v := eval compute in (py_strip x) in change (py_strip x) with v
         | |- context [py_lower ?x] =>
             let v := eval compute in (py_lower x) in change (py_lower x) with v
         | |- context [py_startswith ?x ?y] =>
             let v := eval compute in (py_startswith x y) in change (py_startswith x y) with v
         | |- context [py_split ?x] =>
             let v := eval compute in (py_split x) in change (py_split x) with v
         end; str_simpl.

(** Name [t1] the state the statements before a loop leave. *)
Ltac name_state :=
  try match goal with
      | |- context [{| tline := ?l; published := ?p; console := ?c |}] =>
          set (t1 := {| tline := l; published := p; console := c |})
      end.

(** Run [on_message] on a closed command line up to the branch it takes. *)
Ltac text_dispatch :=
  unfold TextMqtt.on_message; text_simpl; cbv zeta;
  unfold TextMqtt.process_command, TextMqtt.initial_messages; text_simpl;
  cbn [List.length Nat.eqb andb orb nth]; cbv beta iota zeta;
  cbn [st_bind print TextMqtt.print_pubish tline published console]; name_state.

(** The last step of the sweep theorems: the sweep ran on the state left
    by the echo, whose publication comes first. *)
Ltac finish_sweep :=
  match goal with
  | Hrun : _ = (Ok tt, ?t'), Hw : written (tline ?t') = _, Hrep : replies (tline ?t') = _,
    Hp : published ?t' = _ |- _ =>
      exists t'; rewrite Hrun; split; [reflexivity|];
      rewrite Hw, Hrep, Hp; repeat match goal with x := _ |- _ => subst x end;
      cbn [tline published]; rewrite <- app_assoc;
      split; [reflexivity|]; split; reflexivity
  end.

Lemma print_cycle_ok build args_of i f now later rest t a :
  build i = Ok f -> replies (tline t) = (now, later) :: rest ->
  args_of i (firstn 256 now) = Ok a ->
  print_cycle build args_of i t =
  (Ok tt, mk_tstate (after_exchange (tline t) f now later rest) (published t)
                    (app (console t) [py_join " " a])).
Proof.
  intros Hb Hr Ha. unfold print_cycle, st_bind, st_lift. rewrite Hb.
  rewrite (exchange_reply f now later rest t) by exact Hr. rewrite Ha. reflexivity.
Qed.

(** The text scripts' relay builder returns what [Frames] builds and
    only prints: the line and the publications are left alone. *)
Lemma relay_command_io_step checked crc hd t :
  exists con, relay_command_io checked crc hd t
    = (bind checked (fun f => bind (crc f) (fun c => Ok (app f c))),
       mk_tstate (tline t) (published t) con).
Proof.
  unfold relay_command_io, st_bind, st_lift, print, st_ret.
  destruct checked as [f|e]; cbn [bind].
  - destruct (crc f); eexists; reflexivity.
  - exists (console t). destruct t; reflexivity.
Qed.

Lemma relay_command_io_ok w crc hd t :
  relay_command_io (Ok w) crc hd t
  = (bind (crc w) (fun c => Ok (app w c)),
     mk_tstate (tline t) (published t) (app (console t) [py_join " " ["Frame without CRC:"; hd w]])).
Proof. unfold relay_command_io, st_bind, st_lift, print, st_ret. destruct (crc w); reflexivity. Qed.

Lemma raw_relay_io d c a t :
  exists con, RawMain.build_relay_command d c a t
    = (Raw.build_relay_command d c a, mk_tstate (tline t) (published t) con).
Proof. exact (relay_command_io_step _ _ _ t). Qed.

Lemma text_relay_io d c a t :
  exists con, TextMqtt.build_relay_command d c a t
    = (Bridge.build_relay_command d c a, mk_tstate (tline t) (published t) con).
Proof. exact (relay_command_io_step _ _ _ t). Qed.

(** On a valid channel and action the text bridge's builder prints the
    six bytes before the CRC and returns the spec's frame. *)
Lemma text_relay_valid_io device ch a t :
  0 <= device < 256 -> 1 <= ch <= 8 ->
  TextMqtt.build_relay_command device ch (AddressMap.action_token a) t
  = (Ok (AddressMap.encode device (AddressMap.mk_request
           AddressMap.WriteSingleRegister ch (AddressMap.action_data a))),
     mk_tstate (tline t) (published t)
       (app (console t) [py_join " " ["Frame without CRC:";
          Bridge.hexdump [device; WRITE_REG; 0; ch; fst (AddressMap.action_data a);
                          snd (AddressMap.action_data a)]]])).
Proof.
  intros Hd Hch. pose proof (bridge_relay_valid device ch a Hd Hch) as Hv.
  unfold TextMqtt.build_relay_command. unfold Bridge.build_relay_command in Hv.
  rewrite (proj2 (text_relay_wo_crc_valid device ch a Hd Hch)) in Hv |- *.
  rewrite bind_ok in Hv. rewrite relay_command_io_ok, Hv. reflexivity.
Qed.

(** Run the relay builder a handler calls at the head of the goal. *)
Ltac relay_io :=
  unfold st_bind at 1;
  match goal with
  | |- context [TextMqtt.build_relay_command ?d ?c ?x ?s] =>
      let con := fresh "con" in let Hio := fresh "Hio" in
      destruct (text_relay_io d c x s) as [con Hio]; rewrite Hio
  | |- context [RawMain.build_relay_command ?d ?c ?x ?s] =>
      let con := fresh "con" in let Hio := fresh "Hio" in
      destruct (raw_relay_io d c x s) as [con Hio]; rewrite Hio
  end.

Lemma text_relay_cycle_ok device act word sep acc i f now later rest t :
  Bridge.build_relay_command device i act = Ok f -> replies (tline t) = (now, later) :: rest ->
  exists con, TextMqtt.relay_cycle device act word sep acc i t
    = (Ok (app acc [TextMqtt.relay_all_line word sep i (firstn 256 now)]),
       mk_tstate (after_exchange (tline t) f now later rest) (published t) con).
Proof.
  intros Hb Hr. unfold TextMqtt.relay_cycle. relay_io. rewrite Hb.
  unfold st_bind. rewrite (exchange_reply f now later rest) by exact Hr.
  exists con. reflexivity.
Qed.

(** The text bridge's relay sweeps: one frame per channel in order, one
    message per channel, nothing published. *)
Lemma text_relay_sweep device act word sep frames chs rs rest acc t :
  (forall i, In i chs -> Bridge.build_relay_command device i act = Ok (frames i)) ->
  replies (tline t) = app rs rest -> List.length rs = List.length chs ->
  exists t',
    st_for_acc chs acc (TextMqtt.relay_cycle device act word sep) t
    = (Ok (app acc (map (fun p => TextMqtt.relay_all_line word sep (fst p) (reply_seen (snd p)))
                        (combine chs rs))), t') /\
    written (tline t') = app (written (tline t)) (map frames chs) /\
    replies (tline t') = rest /\ published t' = published t.
Proof.
  revert rs acc t; induction chs as [|i chs IH]; intros rs acc t Hb Hr Hl.
  - destruct rs; [|discriminate]. exists t. cbn. rewrite !app_nil_r. auto.
  - destruct rs as [|[now later] rs]; [discriminate|]. cbn in Hl. injection Hl as Hl.
    rewrite <- app_comm_cons in Hr. cbn [st_for_acc].
    destruct (text_relay_cycle_ok device act word sep acc i (frames i) now later (app rs rest) t
                (Hb i (or_introl eq_refl)) Hr) as [con Hc].
    unfold st_bind at 1. rewrite Hc.
    destruct (IH rs (app acc [TextMqtt.relay_all_line word sep i (firstn 256 now)])
                (mk_tstate (after_exchange (tline t) (frames i) now later (app rs rest)) (published t) con)
                (fun j Hj => Hb j (or_intror Hj)) eq_refl Hl)
      as (t' & Hrun & Hw & Hrep & Hp).
    exists t'. rewrite Hrun. cbn in Hw, Hp. rewrite Hw, Hp, <- !app_assoc. auto.
Qed.

Section Prints.
Variables (build : Z -> result (list Z)) (args_of : Z -> list Z -> result (list string)).
Variables (frames : Z -> list Z) (args : Z -> list Z -> list string).

(** The raw tester's sweeps: one frame per channel in order, one printed
    line per channel in order, nothing published. *)
Lemma prints_ok chs rs rest t :
  (forall i, In i chs -> build i = Ok (frames i)) ->
  replies (tline t) = app rs rest -> List.length rs = List.length chs ->
  (forall i r, In (i, r) (combine chs rs) -> args_of i (reply_seen r) = Ok (args i (reply_seen r))) ->
  exists x,
    st_for chs (print_cycle build args_of) t
      = (Ok tt, mk_tstate x (published t)
                  (app (console t) (map (fun p => py_join " " (args (fst p) (reply_seen (snd p))))
                                        (combine chs rs)))) /\
    written x = app (written (tline t)) (map frames chs) /\ replies x = rest.
Proof.
  revert rs t; induction chs as [|i chs IH]; intros rs t Hbuild Hr Hl Ha.
  - destruct rs; [|discriminate]. exists (tline t). cbn. rewrite !app_nil_r.
    destruct t; auto.
  - destruct rs as [|[now later] rs]; [discriminate|]. cbn in Hl. injection Hl as Hl.
    rewrite <- app_comm_cons in Hr. cbn [st_for]. unfold st_bind at 1.
    rewrite (print_cycle_ok build args_of i (frames i) now later (app rs rest) t
               (args i (firstn 256 now)) (Hbuild i (or_introl eq_refl)) Hr
               (Ha i (now, later) (or_introl eq_refl))).
    cbv beta iota.
    destruct (IH rs (mk_tstate (after_exchange (tline t) (frames i) now later (app rs rest))
                               (published t) (app (console t) [py_join " " (args i (firstn 256 now))]))
                (fun j Hj => Hbuild j (or_intror Hj)) eq_refl Hl)
      as (x & Hrun & Hw & Hrep).
    { intros j r Hin. apply Ha. right. exact Hin. }
    exists x. cbn [published console] in Hrun. rewrite Hrun. cbn in Hw.
    rewrite Hw, <- !app_assoc. auto.
Qed.
End Prints.

(** An eight-channel sweep of the text bridge followed by the publication
    of its messages. *)
Lemma publish_sweep build item frames items rs rest acc t :
  (forall i, 1 <= i <= 8 -> build i = Ok (frames i)) ->
  replies (tline t) = app rs rest -> List.length rs = 8%nat ->
  (forall i r, In (i, r) (combine (py_range 1 9) rs) -> item i (reply_seen r) = Ok (items i (reply_seen r))) ->
  exists t',
    (msgs <-- st_for_acc (py_range 1 9) acc (poll_cycle build item) ;;
     TextMqtt.print_pubish [py_join nl msgs]) t = (Ok tt, t') /\
    written (tline t') = app (written (tline t)) (map frames (py_range 1 9)) /\
    replies (tline t') = rest /\
    published t' = app (published t)
      [py_join nl (app acc (map (fun p => items (fst p) (reply_seen (snd p))) (combine (py_range 1 9) rs)))].
Proof.
  intros Hb Hr Hl Hi.
  destruct (polls_ok build item frames items (py_range 1 9) rs rest acc t) as (x & Hrun & Hw & Hrep).
  { intros i Hin. apply Hb. apply in_py_range in Hin. lia. }
  { exact Hr. }
  { rewrite Hl. reflexivity. }
  { exact Hi. }
  unfold st_bind. rewrite Hrun. eexists. split; [reflexivity|]. auto.
Qed.

(** A relay sweep of the text bridge followed by the publication of its
    messages. *)
Lemma publish_relay_sweep device act word sep frames rs rest acc t :
  (forall i, 1 <= i <= 8 -> Bridge.build_relay_command device i act = Ok (frames i)) ->
  replies (tline t) = app rs rest -> List.length rs = 8%nat ->
  exists t',
    (msgs <-- st_for_acc (py_range 1 9) acc (TextMqtt.relay_cycle device act word sep) ;;
     TextMqtt.print_pubish [py_join nl msgs]) t = (Ok tt, t') /\
    written (tline t') = app (written (tline t)) (map frames (py_range 1 9)) /\
    replies (tline t') = rest /\
    published t' = app (published t)
      [py_join nl (app acc (map (fun p => TextMqtt.relay_all_line word sep (fst p) (reply_seen (snd p)))
                                (combine (py_range 1 9) rs)))].
Proof.
  intros Hb Hr Hl.
  destruct (text_relay_sweep device act word sep frames (py_range 1 9) rs rest acc t)
    as (x & Hrun & Hw & Hrep & Hp).
  { intros i Hin. apply Hb. apply in_py_range in Hin. lia. }
  { exact Hr. }
  { rewrite Hl. reflexivity. }
  unfold st_bind. rewrite Hrun. eexists. split; [reflexivity|]. cbn. rewrite Hp. auto.
Qed.

(** A text bridge sweep whose item for the channel after [pre] raises:
    the loop stops after that channel's frame and nothing is published. *)
Lemma abort_sweep build item frames items pre now later rest acc t e :
  (forall i, 1 <= i <= 8 -> build i = Ok (frames i)) ->
  replies (tline t) = app pre ((now, later) :: rest) -> (List.length pre < 8)%nat ->
  (forall i r, In r pre -> item i (reply_seen r) = Ok (items i (reply_seen r))) ->
  (forall i, item i (firstn 256 now) = Raise e) ->
  exists t',
    (msgs <-- st_for_acc (py_range 1 9) acc (poll_cycle build item) ;;
     TextMqtt.print_pubish [py_join nl msgs]) t = (Raise e, t') /\
    written (tline t') = app (written (tline t)) (firstn (S (List.length pre)) (map frames (py_range 1 9))) /\
    published t' = published t.
Proof.
  intros Hb Hr Hk Hi He.
  set (R := py_range 1 9). set (k := List.length pre).
  assert (HR : List.length R = 8%nat) by reflexivity.
  destruct (polls_abort build item frames items (firstn k R) (nth k R 0) (skipn (S k) R)
              pre now later rest acc t e) as (x & Hrun & Hw).
  { intros i Hin. apply Hb.
    assert (Hi' : In i R).
    { apply in_app_or in Hin as [Hin | [<- | []]]; [eapply in_firstn_in; exact Hin | apply nth_In; lia]. }
    apply in_py_range in Hi'. lia. }
  { exact Hr. }
  { rewrite length_firstn. lia. }
  { intros i r Hin. apply Hi. eapply in_combine_r. exact Hin. }
  { apply He. }
  assert (Hrun' : st_for_acc R acc (poll_cycle build item) t = (Raise e, with_ser x t))
    by (rewrite (list_split_at R k 0) by lia; exact Hrun).
  exists (with_ser x t). unfold st_bind. rewrite Hrun'.
  split; [reflexivity|]. split; [|reflexivity].
  cbn [with_ser tstate_has_serial tline]. rewrite Hw. rewrite firstn_map.
  rewrite (firstn_S_nth R k 0) by lia. rewrite map_app. reflexivity.
Qed.

Lemma run_lines_bind device lines k (f : unit -> st tstate unit) t :
  st_bind (run_lines device lines k) f t = run_lines device lines (st_bind k f) t.
Proof.
  revert t; induction lines as [|x lines IH]; intros t; cbn [run_lines fold_right]; [reflexivity|].
  rewrite st_bind_assoc. apply st_bind_ext. intros _ t'. apply IH.
Qed.

Lemma command_loop_exit device pre l post :
  Forall (fun x => py_lower (py_strip x) <> "exit") pre -> py_lower (py_strip l) = "exit" ->
  RawMain.command_loop device (app pre (l :: post)) = run_lines device pre (st_ret tt).
Proof.
  intros Hpre Hl. induction Hpre as [|x pre Hx Hpre IH]; cbn [app RawMain.command_loop run_lines fold_right].
  - rewrite Hl. reflexivity.
  - rewrite (proj2 (String.eqb_neq _ _) Hx), IH. reflexivity.
Qed.

Lemma command_loop_eof device pre :
  Forall (fun x => py_lower (py_strip x) <> "exit") pre ->
  RawMain.command_loop device pre = run_lines device pre (st_raise (EOFError "EOF when reading a line")).
Proof.
  intros Hpre. induction Hpre as [|x pre Hx Hpre IH]; cbn [RawMain.command_loop run_lines fold_right].
  - reflexivity.
  - rewrite (proj2 (String.eqb_neq _ _) Hx), IH. reflexivity.
Qed.

Lemma status_msg_ok i r :
  reply_complete r -> TextMqtt.status_msg i (reply_seen r) = Ok (status_text i (reply_seen r)).
Proof. intros H. unfold TextMqtt.status_msg. rewrite text_state_not_short by exact H. reflexivity. Qed.

Lemma status_args_ok label i r :
  reply_complete r ->
  RawMain.status_args label i (reply_seen r)
  = Ok [RawMain.status_line label i (text_reading_of (Spec.decode_response (reply_seen r)))].
Proof. intros H. unfold RawMain.status_args. rewrite text_state_not_short by exact H. reflexivity. Qed.

(** ** The text bridge *)

(** C19: [status inp] and [status out] sent to the text bridge poll the
    eight channels strictly in order 1..8 and publish two texts: the echo
    "You typed: " and one message holding the header line and one line per
    channel, read as the spec's decoder reads that channel's reply (an
    empty reply is "No response (timeout)"). Both commands label every
    line "Input"; [status out] reads the output registers at address [i],
    [status inp] the input registers at [0x0080 + i]. *)
Theorem text_status_sequence device cmd rs rest t :
  0 <= device < 256 -> cmd = "status inp" \/ cmd = "status out" ->
  replies (tline t) = app rs rest -> List.length rs = 8%nat -> Forall reply_complete rs ->
  exists t',
    TextMqtt.on_message device cmd t = (Ok tt, t') /\
    written (tline t') = app (written (tline t))
      (read_frames device (if String.eqb cmd "status inp" then fun i => 0x0080 + i else fun i => i)) /\
    replies (tline t') = rest /\
    published t' = app (published t) [py_join " " ["You typed: "; cmd]; status_message cmd rs].
Proof.
  intros Hd Hcmd Hr Hl Hok.
  assert (Hitem : forall i r, In (i, r) (combine (py_range 1 9) rs) ->
            TextMqtt.status_msg i (reply_seen r) = Ok (status_text i (reply_seen r))).
  { intros i r Hin. apply status_msg_ok. apply in_combine_r in Hin.
    rewrite Forall_forall in Hok. exact (Hok r Hin). }
  destruct Hcmd as [-> | ->]; text_dispatch.
  - edestruct (publish_sweep (Bridge.build_read_input device) TextMqtt.status_msg
                 (fun i => read_holding_frame device (0x0080 + i)) status_text rs rest
                 ["Processing command: " ++ "status inp"] t1)
      as (t' & Hrun & Hw & Hrep & Hp);
      [read_ok bridge_input_any | exact Hr | exact Hl | exact Hitem |].
    finish_sweep.
  - edestruct (publish_sweep (Bridge.builst_read_output device) TextMqtt.status_msg
                 (fun i => read_holding_frame device i) status_text rs rest
                 ["Processing command: " ++ "status out"] t1)
      as (t' & Hrun & Hw & Hrep & Hp);
      [read_ok bridge_output_any | exact Hr | exact Hl | exact Hitem |].
    finish_sweep.
Qed.

Lemma text_status_sequence_witness :
  let rs := [([1; 3; 2; 0; 1; 0; 0], []); ([1; 3; 2; 0; 0], []); ([], []);
             ([1; 3; 2; 0; 1], [9]); ([1; 3; 2; 0; 0; 5; 5], []); ([], []);
             ([1; 3; 2; 0; 1; 0; 0], []); ([1; 3; 2; 0; 0; 0; 0], [])] in
  let t := mk_tstate (mk_serial [] [] rs []) [] [] in
  0 <= 1 < 256 /\ ("status out" = "status inp" \/ "status out" = "status out") /\
  replies (tline t) = app rs [] /\ List.length rs = 8%nat /\ Forall reply_complete rs /\
  exists t',
    TextMqtt.on_message 1 "status out" t = (Ok tt, t') /\
    written (tline t') = app (written (tline t))
      (read_frames 1 (if String.eqb "status out" "status inp" then fun i => 0x0080 + i else fun i => i)) /\
    replies (tline t') = [] /\
    published t' = app (published t) [py_join " " ["You typed: "; "status out"];
                                      status_message "status out" rs].
Proof.
  intros rs t.
  assert (H1 : 0 <= 1 < 256) by lia.
  assert (H2 : "status out" = "status inp" \/ "status out" = "status out") by (right; reflexivity).
  assert (H3 : replies (tline t) = app rs []) by reflexivity.
  assert (H4 : List.length rs = 8%nat) by reflexivity.
  assert (H5 : Forall reply_complete rs).
  { repeat (apply Forall_cons; [unfold reply_complete; cbn; first [left; reflexivity | right; lia] |]).
    apply Forall_nil. }
  split; [exact H1|]. split; [exact H2|]. split; [exact H3|]. split; [exact H4|]. split; [exact H5|].
  exact (text_status_sequence 1 "status out" rs [] t H1 H2 H3 H4 H5).
Defined.

(** C20: [on all] and [off all] sent to the text bridge switch the eight
    relays strictly in order 1..8 with the spec's relay frames, go on
    after a channel that does not answer, and publish two texts: the echo
    and one message with a line per channel (the reply in hex, or "No
    response (timeout)"). *)
Theorem text_relay_all_sequence device a rs rest t :
  0 <= device < 256 -> replies (tline t) = app rs rest -> List.length rs = 8%nat ->
  exists t',
    TextMqtt.on_message device (all_command a) t = (Ok tt, t') /\
    written (tline t') = app (written (tline t)) (relay_frames device a) /\
    replies (tline t') = rest /\
    published t' = app (published t) [py_join " " ["You typed: "; all_command a];
                                      relay_all_message a rs].
Proof.
  intros Hd Hr Hl. destruct a; unfold all_command, relay_all_message; cbn [AddressMap.action_token];
    text_dispatch.
  - edestruct (publish_relay_sweep device "on" "ON" ""
                 (fun i => AddressMap.encode device (AddressMap.mk_request
                            AddressMap.WriteSingleRegister i (AddressMap.action_data AddressMap.On)))
                 rs rest ["Processing command: " ++ "on all"] t1)
      as (t' & Hrun & Hw & Hrep & Hp);
      [intros i Hi; exact (bridge_relay_valid device i AddressMap.On Hd Hi) | exact Hr | exact Hl |].
    finish_sweep.
  - edestruct (publish_relay_sweep device "off" "OFF" ":"
                 (fun i => AddressMap.encode device (AddressMap.mk_request
                            AddressMap.WriteSingleRegister i (AddressMap.action_data AddressMap.Off)))
                 rs rest ["Processing command: " ++ "off all"] t1)
      as (t' & Hrun & Hw & Hrep & Hp);
      [intros i Hi; exact (bridge_relay_valid device i AddressMap.Off Hd Hi) | exact Hr | exact Hl |].
    finish_sweep.
Qed.

Lemma text_relay_all_sequence_witness :
  let rs := [([1; 6; 0; 1; 1; 0; 0xD9; 0x9A], []); ([], []); ([1; 6; 0; 3; 1; 0], [4]);
             ([], []); ([1], []); ([1; 6], []); ([], []); ([1; 6; 0; 8], [])] in
  let t := mk_tstate (mk_serial [7] [] rs []) [] [] in
  0 <= 1 < 256 /\ replies (tline t) = app rs [] /\ List.length rs = 8%nat /\
  exists t',
    TextMqtt.on_message 1 (all_command AddressMap.Off) t = (Ok tt, t') /\
    written (tline t') = app (written (tline t)) (relay_frames 1 AddressMap.Off) /\
    replies (tline t') = [] /\
    published t' = app (published t) [py_join " " ["You typed: "; all_command AddressMap.Off];
                                      relay_all_message AddressMap.Off rs].
Proof.
  intros rs t.
  assert (H1 : 0 <= 1 < 256) by lia.
  assert (H2 : replies (tline t) = app rs []) by reflexivity.
  assert (H3 : List.length rs = 8%nat) by reflexivity.
  split; [exact H1|]. split; [exact H2|]. split; [exact H3|].
  exact (text_relay_all_sequence 1 AddressMap.Off rs [] t H1 H2 H3).
Defined.

(** C21: a relay command on a channel outside 1..8 escapes the text
    bridge's callback. When the message reads [out <n> on] or
    [out <n> off] with [n] not in 1..8, [on_message] publishes the echo
    "You typed: " and then raises [ValueError("channel must be 1-8")]:
    nothing is written to the device, no error message is published, and
    the exception leaves the MQTT callback (nothing in the script catches
    it). The builder raises before its print: the console ends with the
    line of device, channel and action, and no frame is logged. *)
Theorem text_bad_channel_escapes device p w a n t :
  py_startswith (py_lower (py_strip p)) "from-subscriber:" = false ->
  py_split (py_lower (py_strip p)) = ["out"; w; AddressMap.action_token a] ->
  py_int w = Ok n -> AddressMap.valid_channel n = false ->
  TextMqtt.on_message device p t
  = (Raise (ValueError "channel must be 1-8"),
     mk_tstate (tline t) (app (published t) [py_join " " ["You typed: "; py_lower (py_strip p)]])
       (app (console t)
          [py_join " " ["Received: " ++ py_strip p];
           py_join " " ["Publishing message:"; py_join " " ["You typed: "; py_lower (py_strip p)]];
           py_join " " [py_str_int device; py_str_int n; AddressMap.action_token a]])).
Proof.
  intros Hown Hs Hw Hv.
  set (cmd := py_lower (py_strip p)) in *.
  unfold TextMqtt.on_message. cbv zeta. fold cmd. rewrite Hown.
  rewrite !(split_neq cmd) by (rewrite Hs; intros E; vm_compute in E; discriminate).
  unfold TextMqtt.process_command. cbv zeta.
  rewrite (split_neq cmd "exit") by (rewrite Hs; intros E; vm_compute in E; discriminate).
  cbn [st_bind print TextMqtt.print_pubish tline published console].
  rewrite Hs. cbn [List.length Nat.eqb nth andb]. str_simpl. cbv beta iota.
  unfold st_bind at 1, st_lift. rewrite Hw.
  cbn [st_bind print tline published console].
  unfold st_bind at 1, TextMqtt.build_relay_command.
  rewrite (proj2 (text_relay_wo_crc_bad device n a Hv)).
  cbn. rewrite <- !app_assoc. reflexivity.
Qed.

Lemma text_bad_channel_escapes_witness :
  py_startswith (py_lower (py_strip " Out 9 ON ")) "from-subscriber:" = false /\
  py_split (py_lower (py_strip " Out 9 ON ")) = ["out"; "9"; AddressMap.action_token AddressMap.On] /\
  py_int "9" = Ok 9 /\ AddressMap.valid_channel 9 = false /\
  TextMqtt.on_message 1 " Out 9 ON " (mk_tstate (mk_serial [] [] [([1; 6], [])] []) [] [])
  = (Raise (ValueError "channel must be 1-8"),
     mk_tstate (mk_serial [] [] [([1; 6], [])] [])
       (app [] [py_join " " ["You typed: "; py_lower (py_strip " Out 9 ON ")]])
       (app []
          [py_join " " ["Received: " ++ py_strip " Out 9 ON "];
           py_join " " ["Publishing message:"; py_join " " ["You typed: "; py_lower (py_strip " Out 9 ON ")]];
           py_join " " [py_str_int 1; py_str_int 9; AddressMap.action_token AddressMap.On]])).
Proof.
  assert (H1 : py_startswith (py_lower (py_strip " Out 9 ON ")) "from-subscriber:" = false)
    by reflexivity.
  assert (H2 : py_split (py_lower (py_strip " Out 9 ON ")) = ["out"; "9"; AddressMap.action_token AddressMap.On])
    by reflexivity.
  assert (H3 : py_int "9" = Ok 9) by reflexivity.
  assert (H4 : AddressMap.valid_channel 9 = false) by reflexivity.
  split; [exact H1|]. split; [exact H2|]. split; [exact H3|]. split; [exact H4|].
  exact (text_bad_channel_escapes 1 " Out 9 ON " "9" AddressMap.On 9
           (mk_tstate (mk_serial [] [] [([1; 6], [])] []) [] []) H1 H2 H3 H4).
Defined.

(** C22: the text bridge does not answer its own messages, nor "ping" or
    "bye": a message whose stripped, lower-cased text starts with
    "from-subscriber:" or is "ping" or "bye" is only logged on the
    console; nothing is published and nothing is sent to the device. *)
Theorem text_ignores_own_messages device p t :
  py_startswith (py_lower (py_strip p)) "from-subscriber:" = true \/
  py_lower (py_strip p) = "ping" \/ py_lower (py_strip p) = "bye" ->
  TextMqtt.on_message device p t
  = (Ok tt, mk_tstate (tline t) (published t) (app (console t) [py_join " " ["Received: " ++ py_strip p]])).
Proof.
  intros H. unfold TextMqtt.on_message. cbv zeta.
  destruct H as [H | [H | H]]; rewrite H; reflexivity.
Qed.

Lemma text_ignores_own_messages_witness :
  (py_startswith (py_lower (py_strip "From-Subscriber: out 1 on")) "from-subscriber:" = true \/
   py_lower (py_strip "From-Subscriber: out 1 on") = "ping" \/
   py_lower (py_strip "From-Subscriber: out 1 on") = "bye") /\
  TextMqtt.on_message 1 "From-Subscriber: out 1 on" (mk_tstate (mk_serial [] [] [] []) [] [])
  = (Ok tt, mk_tstate (mk_serial [] [] [] []) []
                      [py_join " " ["Received: " ++ py_strip "From-Subscriber: out 1 on"]]).
Proof.
  assert (H : py_startswith (py_lower (py_strip "From-Subscriber: out 1 on")) "from-subscriber:" = true \/
              py_lower (py_strip "From-Subscriber: out 1 on") = "ping" \/
              py_lower (py_strip "From-Subscriber: out 1 on") = "bye") by (left; reflexivity).
  split; [exact H|].
  exact (text_ignores_own_messages 1 "From-Subscriber: out 1 on" (mk_tstate (mk_serial [] [] [] []) [] []) H).
Defined.

(**  "exit" stops the text bridge: [on_message] publishes "Exiting
    program as requested." and raises [SystemExit(0)] without touching
    the device. *)
Theorem text_exit_command device p t :
  py_lower (py_strip p) = "exit" ->
  TextMqtt.on_message device p t
  = (Raise (SystemExit 0),
     mk_tstate (tline t) (app (published t) ["Exiting program as requested."])
               (app (console t) [py_join " " ["Received: " ++ py_strip p];
                                 py_join " " ["Publishing message:"; "Exiting program as requested."]])).
Proof.
  intros H. unfold TextMqtt.on_message. cbv zeta. rewrite H. cbn.
  rewrite <- app_assoc. reflexivity.
Qed.

Lemma text_exit_command_witness :
  py_lower (py_strip " Exit") = "exit" /\
  TextMqtt.on_message 1 " Exit" (mk_tstate (mk_serial [] [] [] []) [] [])
  = (Raise (SystemExit 0),
     mk_tstate (mk_serial [] [] [] []) ["Exiting program as requested."]
               [py_join " " ["Received: " ++ py_strip " Exit"];
                py_join " " ["Publishing message:"; "Exiting program as requested."]]).
Proof.
  assert (H : py_lower (py_strip " Exit") = "exit") by reflexivity.
  split; [exact H|].
  exact (text_exit_command 1 " Exit" (mk_tstate (mk_serial [] [] [] []) [] []) H).
Defined.

(** ** The raw tester *)

(** The run of the raw tester's status sweeps. *)
Lemma raw_status_run device cmd rs rest t :
  0 <= device < 256 -> cmd = "status inp" \/ cmd = "status out" ->
  replies (tline t) = app rs rest -> List.length rs = 8%nat -> Forall reply_complete rs ->
  exists x,
    RawMain.run_command device cmd t
    = (Ok tt, mk_tstate x (published t)
                (app (console t) (py_join " " ["You typed: "; cmd]
                                  :: status_lines (if String.eqb cmd "status inp" then "Input" else "Output") rs))) /\
    written x = app (written (tline t))
      (read_frames device (if String.eqb cmd "status inp" then fun i => 0x0080 + i else fun i => i + 1)) /\
    replies x = rest.
Proof.
  intros Hd Hcmd Hr Hl Hok.
  assert (Hitem : forall label i r, In (i, r) (combine (py_range 1 9) rs) ->
            RawMain.status_args label i (reply_seen r)
            = Ok [RawMain.status_line label i (text_reading_of (Spec.decode_response (reply_seen r)))]).
  { intros label i r Hin. apply status_args_ok. apply in_combine_r in Hin.
    rewrite Forall_forall in Hok. exact (Hok r Hin). }
  destruct Hcmd as [-> | ->]; unfold RawMain.run_command; text_simpl;
    cbn [List.length Nat.eqb andb nth]; cbv beta iota zeta;
    cbn [st_bind print tline published console]; unfold for_channels; name_state.
  - edestruct (prints_ok (Raw.build_read_input device) (RawMain.status_args "Input")
                 (fun i => read_holding_frame device (0x0080 + i))
                 (fun i resp => [RawMain.status_line "Input" i (text_reading_of (Spec.decode_response resp))])
                 (py_range 1 9) rs rest t1)
      as (x & Hrun & Hw & Hrep);
      [intros i Hi%in_py_range; revert i Hi; read_ok raw_input_any | exact Hr | rewrite Hl; reflexivity | exact (Hitem "Input") |].
    rewrite Hrun. exists x. subst t1. cbn [published console tline] in *. rewrite <- app_assoc. auto.
  - edestruct (prints_ok (Raw.builst_read_output device) (RawMain.status_args "Output")
                 (fun i => read_holding_frame device (i + 1))
                 (fun i resp => [RawMain.status_line "Output" i (text_reading_of (Spec.decode_response resp))])
                 (py_range 1 9) rs rest t1)
      as (x & Hrun & Hw & Hrep);
      [intros i Hi%in_py_range; revert i Hi; read_ok raw_output_any | exact Hr | rewrite Hl; reflexivity | exact (Hitem "Output") |].
    rewrite Hrun. exists x. subst t1. cbn [published console tline] in *. rewrite <- app_assoc. auto.
Qed.

(** C23: the raw tester's [status inp] and [status out] poll the eight
    channels in order 1..8 and print one line per channel, read as the
    spec's decoder reads the reply. [status inp] reads the input
    registers at [0x0080 + i]; [status out] prints "Output i" but reads
    the register at [i + 1], the output of the next channel, and for
    channel 8 the register 9 the spec does not map. *)
Theorem raw_status_sweeps device cmd rs rest t :
  0 <= device < 256 -> cmd = "status inp" \/ cmd = "status out" ->
  replies (tline t) = app rs rest -> List.length rs = 8%nat -> Forall reply_complete rs ->
  exists x,
    RawMain.run_command device cmd t
    = (Ok tt, mk_tstate x (published t)
                (app (console t) (py_join " " ["You typed: "; cmd]
                                  :: status_lines (if String.eqb cmd "status inp" then "Input" else "Output") rs))) /\
    written x = app (written (tline t))
      (read_frames device (if String.eqb cmd "status inp" then fun i => 0x0080 + i else fun i => i + 1)) /\
    replies x = rest.
Proof. exact (raw_status_run device cmd rs rest t). Qed.

Lemma raw_status_sweeps_witness :
  let rs := [([1; 3; 2; 0; 1; 0; 0], []); ([1; 3; 2; 0; 0], []); ([], []);
             ([1; 3; 2; 0; 1], [9]); ([1; 3; 2; 0; 0; 5; 5], []); ([], []);
             ([1; 3; 2; 0; 1; 0; 0], []); ([1; 3; 2; 0; 0; 0; 0], [])] in
  let t := mk_tstate (mk_serial [] [] rs []) [] [] in
  0 <= 1 < 256 /\ ("status out" = "status inp" \/ "status out" = "status out") /\
  replies (tline t) = app rs [] /\ List.length rs = 8%nat /\ Forall reply_complete rs /\
  exists x,
    RawMain.run_command 1 "status out" t
    = (Ok tt, mk_tstate x (published t)
                (app (console t) (py_join " " ["You typed: "; "status out"]
                                  :: status_lines (if String.eqb "status out" "status inp" then "Input" else "Output") rs))) /\
    written x = app (written (tline t))
      (read_frames 1 (if String.eqb "status out" "status inp" then fun i => 0x0080 + i else fun i => i + 1)) /\
    replies x = [].
Proof.
  intros rs t.
  assert (H1 : 0 <= 1 < 256) by lia.
  assert (H2 : "status out" = "status inp" \/ "status out" = "status out") by (right; reflexivity).
  assert (H3 : replies (tline t) = app rs []) by reflexivity.
  assert (H4 : List.length rs = 8%nat) by reflexivity.
  assert (H5 : Forall reply_complete rs).
  { repeat (apply Forall_cons; [unfold reply_complete; cbn; first [left; reflexivity | right; lia] |]).
    apply Forall_nil. }
  split; [exact H1|]. split; [exact H2|]. split; [exact H3|]. split; [exact H4|]. split; [exact H5|].
  exact (raw_status_sweeps 1 "status out" rs [] t H1 H2 H3 H4 H5).
Defined.

(** C24: a reply of 1 to 4 bytes during a status sweep escapes the text
    bridge's callback. When the replies before channel [k + 1] are
    complete or empty and the reply of channel [k + 1] is 1 to 4 bytes,
    [resp[4]] raises [IndexError]: the frames of channels 1..k+1 have gone
    out, the remaining channels are never polled, the status message is
    never published (only the echo is), and the exception leaves
    [on_message]. *)
Theorem text_status_short_reply_escapes device cmd pre now later rest t :
  0 <= device < 256 -> cmd = "status inp" \/ cmd = "status out" ->
  replies (tline t) = app pre ((now, later) :: rest) -> (List.length pre < 8)%nat ->
  Forall reply_complete pre -> (1 <= List.length now <= 4)%nat ->
  exists t',
    TextMqtt.on_message device cmd t = (Raise (IndexError "index out of range"), t') /\
    written (tline t') = app (written (tline t))
      (firstn (S (List.length pre))
        (read_frames device (if String.eqb cmd "status inp" then fun i => 0x0080 + i else fun i => i))) /\
    published t' = app (published t) [py_join " " ["You typed: "; cmd]].
Proof.
  intros Hd Hcmd Hr Hk Hok Hn.
  assert (Hitem : forall i r, In r pre ->
            TextMqtt.status_msg i (reply_seen r) = Ok (status_text i (reply_seen r))).
  { intros i r Hin. apply status_msg_ok. rewrite Forall_forall in Hok. exact (Hok r Hin). }
  assert (Hshort : forall i, TextMqtt.status_msg i (firstn 256 now) = Raise (IndexError "index out of range")).
  { intros i. unfold TextMqtt.status_msg. rewrite firstn_all2 by lia. rewrite text_state_short by lia.
    reflexivity. }
  destruct Hcmd as [-> | ->]; text_dispatch.
  - edestruct (abort_sweep (Bridge.build_read_input device) TextMqtt.status_msg
                 (fun i => read_holding_frame device (0x0080 + i)) status_text pre now later rest
                 ["Processing command: " ++ "status inp"] t1)
      as (t' & Hrun & Hw & Hp);
      [read_ok bridge_input_any | exact Hr | exact Hk | exact Hitem | exact Hshort |].
    exists t'. rewrite Hrun. split; [reflexivity|]. rewrite Hw, Hp. subst t1. split; reflexivity.
  - edestruct (abort_sweep (Bridge.builst_read_output device) TextMqtt.status_msg
                 (fun i => read_holding_frame device i) status_text pre now later rest
                 ["Processing command: " ++ "status out"] t1)
      as (t' & Hrun & Hw & Hp);
      [read_ok bridge_output_any | exact Hr | exact Hk | exact Hitem | exact Hshort |].
    exists t'. rewrite Hrun. split; [reflexivity|]. rewrite Hw, Hp. subst t1. split; reflexivity.
Qed.

Lemma text_status_short_reply_escapes_witness :
  let pre := [([1; 3; 2; 0; 1; 0; 0], []); ([], [])] in
  let t := mk_tstate (mk_serial [] [] (app pre [([1; 3], [])]) []) [] [] in
  0 <= 1 < 256 /\ ("status inp" = "status inp" \/ "status inp" = "status out") /\
  replies (tline t) = app pre (([1; 3], []) :: []) /\ (List.length pre < 8)%nat /\
  Forall reply_complete pre /\ (1 <= List.length [1; 3] <= 4)%nat /\
  exists t',
    TextMqtt.on_message 1 "status inp" t = (Raise (IndexError "index out of range"), t') /\
    written (tline t') = app (written (tline t))
      (firstn (S (List.length pre))
        (read_frames 1 (if String.eqb "status inp" "status inp" then fun i => 0x0080 + i else fun i => i))) /\
    published t' = app (published t) [py_join " " ["You typed: "; "status inp"]].
Proof.
  intros pre t.
  assert (H1 : 0 <= 1 < 256) by lia.
  assert (H2 : "status inp" = "status inp" \/ "status inp" = "status out") by (left; reflexivity).
  assert (H3 : replies (tline t) = app pre (([1; 3], []) :: [])) by reflexivity.
  assert (H4 : (List.length pre < 8)%nat) by (cbn; lia).
  assert (H5 : Forall reply_complete pre).
  { repeat (apply Forall_cons; [unfold reply_complete; cbn; first [left; reflexivity | right; lia] |]).
    apply Forall_nil. }
  assert (H6 : (1 <= List.length [1; 3] <= 4)%nat) by (cbn; lia).
  split; [exact H1|]. split; [exact H2|]. split; [exact H3|]. split; [exact H4|].
  split; [exact H5|]. split; [exact H6|].
  exact (text_status_short_reply_escapes 1 "status inp" pre [1; 3] [] [] t H1 H2 H3 H4 H5 H6).
Defined.

(** ** The raw tester's session *)

(** C31: the raw tester runs the typed lines as commands, in order, up to
    the first line that reads "exit" once stripped and lower-cased; the
    lines after it are never read, and the manual's example frames are
    sent next. When the input ends without "exit", [input()] raises
    [EOFError] after the last command and no example is sent. *)
Theorem raw_session_until_exit device pre l post t :
  Forall (fun x => py_lower (py_strip x) <> "exit") pre ->
  (py_lower (py_strip l) = "exit" ->
   RawMain.main_session device (app pre (l :: post)) t
   = run_lines device pre (RawMain.send_examples Raw.EXAMPLES) t) /\
  RawMain.main_session device pre t
  = run_lines device pre (st_raise (EOFError "EOF when reading a line")) t.
Proof.
  intros Hpre. unfold RawMain.main_session. split.
  - intros Hl. rewrite (command_loop_exit device pre l post Hpre Hl). apply run_lines_bind.
  - rewrite (command_loop_eof device pre Hpre). apply run_lines_bind.
Qed.

Lemma raw_session_until_exit_witness :
  let t := mk_tstate (mk_serial [] [] [] []) [] [] in
  Forall (fun x => py_lower (py_strip x) <> "exit") [" In 2 "] /\
  (py_lower (py_strip " EXIT") = "exit" ->
   RawMain.main_session 1 (app [" In 2 "] (" EXIT" :: ["out 1 on"])) t
   = run_lines 1 [" In 2 "] (RawMain.send_examples Raw.EXAMPLES) t) /\
  RawMain.main_session 1 [" In 2 "] t
  = run_lines 1 [" In 2 "] (st_raise (EOFError "EOF when reading a line")) t.
Proof.
  intros t.
  assert (H : Forall (fun x => py_lower (py_strip x) <> "exit") [" In 2 "]).
  { apply Forall_cons; [discriminate | apply Forall_nil]. }
  split; [exact H|].
  exact (raw_session_until_exit 1 [" In 2 "] " EXIT" ["out 1 on"] t H).
Defined.

(** C32: [out <n> on|off] with [n] in 1..8 sent to the text bridge: after
    the echo it sends exactly the spec's relay frame for channel [n],
    reads one reply and publishes it in hex as "<- Response: ...". On the
    console it logs, in order, the message, the published echo, the
    device, channel and action, the six bytes of the frame before its
    CRC ([build_relay_command]'s own print) and the published response. *)
Theorem text_out_command device p w a n now later rest t :
  0 <= device < 256 ->
  py_startswith (py_lower (py_strip p)) "from-subscriber:" = false ->
  py_split (py_lower (py_strip p)) = ["out"; w; AddressMap.action_token a] ->
  py_int w = Ok n -> AddressMap.valid_channel n = true ->
  replies (tline t) = (now, later) :: rest ->
  TextMqtt.on_message device p t
  = (Ok tt, mk_tstate (after_exchange (tline t)
                         (AddressMap.encode device (AddressMap.mk_request
                            AddressMap.WriteSingleRegister n (AddressMap.action_data a)))
                         now later rest)
              (app (published t) [py_join " " ["You typed: "; py_lower (py_strip p)];
                                  py_join " " ["<- Response:"; Bridge.hexdump (firstn 256 now)]])
              (app (console t)
                 [py_join " " ["Received: " ++ py_strip p];
                  py_join " " ["Publishing message:"; py_join " " ["You typed: "; py_lower (py_strip p)]];
                  py_join " " [py_str_int device; py_str_int n; AddressMap.action_token a];
                  py_join " " ["Frame without CRC:";
                    Bridge.hexdump [device; WRITE_REG; 0; n; fst (AddressMap.action_data a);
                                    snd (AddressMap.action_data a)]];
                  py_join " " ["Publishing message:";
                    py_join " " ["<- Response:"; Bridge.hexdump (firstn 256 now)]]])).
Proof.
  intros Hd Hown Hs Hw Hv Hr.
  set (cmd := py_lower (py_strip p)) in *.
  unfold TextMqtt.on_message. cbv zeta. fold cmd. rewrite Hown.
  rewrite !(split_neq cmd) by (rewrite Hs; intros E; vm_compute in E; discriminate).
  unfold TextMqtt.process_command. cbv zeta.
  rewrite (split_neq cmd "exit") by (rewrite Hs; intros E; vm_compute in E; discriminate).
  cbn [st_bind print TextMqtt.print_pubish tline published console].
  rewrite Hs. cbn [List.length Nat.eqb nth andb]. str_simpl. cbv beta iota.
  unfold st_bind at 1, st_lift. rewrite Hw.
  cbn [st_bind print tline published console].
  unfold st_bind at 1.
  rewrite (text_relay_valid_io device n a _ Hd (proj1 (valid_channel_spec n) Hv)).
  unfold st_bind. rewrite (exchange_reply _ now later rest) by exact Hr.
  unfold TextMqtt.print_pubish. cbv beta zeta.
  cbn [with_ser tstate_has_serial tline published console].
  rewrite <- (app_assoc (published t)), <- !app_assoc. reflexivity.
Qed.

Lemma text_out_command_witness :
  let t := mk_tstate (mk_serial [] [] [([1; 6; 0; 2; 2; 0; 0x29; 0xCA], [])] []) [] [] in
  0 <= 1 < 256 /\
  py_startswith (py_lower (py_strip "OUT 2 off")) "from-subscriber:" = false /\
  py_split (py_lower (py_strip "OUT 2 off")) = ["out"; "2"; AddressMap.action_token AddressMap.Off] /\
  py_int "2" = Ok 2 /\ AddressMap.valid_channel 2 = true /\
  replies (tline t) = ([1; 6; 0; 2; 2; 0; 0x29; 0xCA], []) :: [] /\
  TextMqtt.on_message 1 "OUT 2 off" t
  = (Ok tt, mk_tstate (after_exchange (tline t)
                         (AddressMap.encode 1 (AddressMap.mk_request
                            AddressMap.WriteSingleRegister 2 (AddressMap.action_data AddressMap.Off)))
                         [1; 6; 0; 2; 2; 0; 0x29; 0xCA] [] [])
              (app (published t) [py_join " " ["You typed: "; py_lower (py_strip "OUT 2 off")];
                                  py_join " " ["<- Response:"; Bridge.hexdump (firstn 256 [1; 6; 0; 2; 2; 0; 0x29; 0xCA])]])
              (app (console t)
                 [py_join " " ["Received: " ++ py_strip "OUT 2 off"];
                  py_join " " ["Publishing message:"; py_join " " ["You typed: "; py_lower (py_strip "OUT 2 off")]];
                  py_join " " [py_str_int 1; py_str_int 2; AddressMap.action_token AddressMap.Off];
                  py_join " " ["Frame without CRC:";
                    Bridge.hexdump [1; WRITE_REG; 0; 2; fst (AddressMap.action_data AddressMap.Off);
                                    snd (AddressMap.action_data AddressMap.Off)]];
                  py_join " " ["Publishing message:";
                    py_join " " ["<- Response:"; Bridge.hexdump (firstn 256 [1; 6; 0; 2; 2; 0; 0x29; 0xCA])]]])).
Proof.
  intros t.
  assert (H1 : 0 <= 1 < 256) by lia.
  assert (H2 : py_startswith (py_lower (py_strip "OUT 2 off")) "from-subscriber:" = false) by reflexivity.
  assert (H3 : py_split (py_lower (py_strip "OUT 2 off")) = ["out"; "2"; AddressMap.action_token AddressMap.Off])
    by reflexivity.
  assert (H4 : py_int "2" = Ok 2) by reflexivity.
  assert (H5 : AddressMap.valid_channel 2 = true) by reflexivity.
  assert (H6 : replies (tline t) = ([1; 6; 0; 2; 2; 0; 0x29; 0xCA], []) :: []) by reflexivity.
  split; [exact H1|]. split; [exact H2|]. split; [exact H3|]. split; [exact H4|].
  split; [exact H5|]. split; [exact H6|].
  exact (text_out_command 1 "OUT 2 off" "2" AddressMap.Off 2 _ _ _ t H1 H2 H3 H4 H5 H6).
Defined.

(** C33: [in <n>] sent to the text bridge reads the input register
    [(0x0080 + n) mod 2^16] for any integer [n] and, after the echo,
    publishes what the spec's decoder reads: "Input n is ON" or "... is
    OFF", "<- No response (timeout)." for an empty reply; a reply of 1 to
    4 bytes publishes nothing more and raises [IndexError] out of the
    callback. *)
Theorem text_in_command device p w n now later rest t :
  0 <= device < 256 ->
  py_startswith (py_lower (py_strip p)) "from-subscriber:" = false ->
  py_split (py_lower (py_strip p)) = ["in"; w] -> py_int w = Ok n ->
  replies (tline t) = (now, later) :: rest ->
  exists con,
    TextMqtt.on_message device p t
    = (match Spec.decode_response (firstn 256 now) with
       | Spec.Unknown Spec.Malformed => Raise (IndexError "index out of range")
       | _ => Ok tt
       end,
       mk_tstate (after_exchange (tline t) (read_holding_frame device ((0x0080 + n) mod 65536))
                                 now later rest)
         (app (published t)
            (py_join " " ["You typed: "; py_lower (py_strip p)]
             :: match Spec.decode_response (firstn 256 now) with
                | Spec.On => ["Input " ++ py_str_int n ++ " is ON"]
                | Spec.Off => ["Input " ++ py_str_int n ++ " is OFF"]
                | Spec.Unknown Spec.Timeout => ["<- No response (timeout)."]
                | Spec.Unknown Spec.Malformed => []
                end)) con).
Proof.
  intros Hd Hown Hs Hw Hr.
  set (cmd := py_lower (py_strip p)) in *.
  unfold TextMqtt.on_message. cbv zeta. fold cmd. rewrite Hown.
  rewrite !(split_neq cmd) by (rewrite Hs; intros E; vm_compute in E; discriminate).
  unfold TextMqtt.process_command. cbv zeta.
  rewrite !(split_neq cmd) by (rewrite Hs; intros E; vm_compute in E; discriminate).
  cbn [st_bind print TextMqtt.print_pubish tline published console].
  rewrite Hs. cbn [List.length Nat.eqb nth andb]. str_simpl. cbv beta iota.
  unfold st_bind at 1, st_lift. rewrite Hw.
  unfold st_bind at 1, st_lift. rewrite (bridge_input_any device n Hd).
  unfold st_bind at 1. rewrite (exchange_reply _ now later rest) by exact Hr.
  generalize (firstn 256 now) as resp. intros resp.
  unfold Spec.decode_response. destruct resp as [|x r'].
  - cbn [List.length Z.of_nat]. change (0 <? 0)%Z with false. cbv beta iota.
    unfold TextMqtt.print_pubish. cbv beta zeta.
    cbn [with_ser tstate_has_serial tline published console].
    rewrite <- (app_assoc (published t)). eexists. reflexivity.
  - cbn [List.length]. replace ((0 <? Z.of_nat (S (List.length r')))%Z) with true
      by (symmetry; apply Z.ltb_lt; lia).
    unfold st_bind, st_lift. rewrite getitem_4.
    destruct (nth_error (x :: r') 4) as [b|]; [destruct (b =? 1)%Z|];
      unfold TextMqtt.print_pubish; cbv beta zeta;
      cbn [with_ser tstate_has_serial tline published console];
      rewrite <- ?(app_assoc (published t)); eexists; reflexivity.
Qed.

Lemma text_in_command_witness :
  let t := mk_tstate (mk_serial [] [] [([1; 3; 2; 0; 1; 0x79; 0x84], [])] []) [] [] in
  0 <= 1 < 256 /\
  py_startswith (py_lower (py_strip "in 3")) "from-subscriber:" = false /\
  py_split (py_lower (py_strip "in 3")) = ["in"; "3"] /\ py_int "3" = Ok 3 /\
  replies (tline t) = ([1; 3; 2; 0; 1; 0x79; 0x84], []) :: [] /\
  exists con,
    TextMqtt.on_message 1 "in 3" t
    = (match Spec.decode_response (firstn 256 [1; 3; 2; 0; 1; 0x79; 0x84]) with
       | Spec.Unknown Spec.Malformed => Raise (IndexError "index out of range")
       | _ => Ok tt
       end,
       mk_tstate (after_exchange (tline t) (read_holding_frame 1 ((0x0080 + 3) mod 65536))
                                 [1; 3; 2; 0; 1; 0x79; 0x84] [] [])
         (app (published t)
            (py_join " " ["You typed: "; py_lower (py_strip "in 3")]
             :: match Spec.decode_response (firstn 256 [1; 3; 2; 0; 1; 0x79; 0x84]) with
                | Spec.On => ["Input " ++ py_str_int 3 ++ " is ON"]
                | Spec.Off => ["Input " ++ py_str_int 3 ++ " is OFF"]
                | Spec.Unknown Spec.Timeout => ["<- No response (timeout)."]
                | Spec.Unknown Spec.Malformed => []
                end)) con).
Proof.
  intros t.
  assert (H1 : 0 <= 1 < 256) by lia.
  assert (H2 : py_startswith (py_lower (py_strip "in 3")) "from-subscriber:" = false) by reflexivity.
  assert (H3 : py_split (py_lower (py_strip "in 3")) = ["in"; "3"]) by reflexivity.
  assert (H4 : py_int "3" = Ok 3) by reflexivity.
  assert (H5 : replies (tline t) = ([1; 3; 2; 0; 1; 0x79; 0x84], []) :: []) by reflexivity.
  split; [exact H1|]. split; [exact H2|]. split; [exact H3|]. split; [exact H4|]. split; [exact H5|].
  exact (text_in_command 1 "in 3" "3" 3 _ _ _ t H1 H2 H3 H4 H5).
Defined.
