(* ===== verification/TestSub.v ===== *)
(** * The MQTT test subscriber ([mqtt_test_sub.py])

    A chat bot on the topic [george/test/board]: it answers "ping",
    "tell a joke" and "bye" with a reply tagged "from-subscriber: " and
    ignores every other message, its own tagged replies included
    ([on_message], lines 35-62). [get_random_joke] (lines 18-25) draws one
    of four jokes with [random.choice].

    The state is the list of messages published and the console. The
    random generator is the Section variable [randbelow]: the index it
    returns at its [k]-th call, taken modulo the number of jokes as
    [random.choice] does ([seq[_randbelow(len(seq))]]); the state counts
    the calls. The strings are the UTF-8 bytes of the source. [on_connect]
    (lines 31-33) prints and subscribes; [main] is the module-level
    client set-up (lines 68-77): connect, then [loop_forever] handing the
    delivered payloads to [on_message] in order. [print_message_info]
    (lines 8-12) is modelled though nothing calls it. *)

From Stdlib Require Import ZArith List Lia String.
From S2P Require Import Prelude PyBytes PyStr.
Import ListNotations.
Local Open Scope string_scope.

Module TestSub.

(** [client.publish(topic, payload)] *)
Record message := mk_message { topic : string; payload : string }.

Record bot := mk_bot {
  outbox : list message;
  console : list string;
  draws : nat
}.

Definition jokes : list string :=
  ["Why do not skeletons fight each other? They do not have the guts.";
   "I tried to catch fog yesterday… Mist!";
   "Why was the math book sad? Because it had too many problems.";
   "Parallel lines have so much in common. It's a shame they'll never meet."].

(** The tag of the bot's replies (line 61). *)
Definition TAG : string := "from-subscriber: ".

Section Bot.
Variable randbelow : nat -> nat -> nat.

Definition print (args : list string) (b : bot) : bot :=
  mk_bot (outbox b) (app (console b) [py_join " " args]) (draws b).

(** [print_message_info(message)] (lines 8-12), for a message whose
    payload has been decoded, with its [qos] and [retain] flag; nothing
    in the script calls it. *)
Definition print_message_info (payload topic : string) (qos : Z) (retain : bool) (b : bot) : bot :=
  let b := print ["Message received:"; payload] b in
  let b := print ["Message topic:"; topic] b in
  let b := print ["Message qos:"; py_str_int qos] b in
  print ["Message retain flag:"; if retain then "True" else "False"] b.

(** [get_random_joke()]: [random.choice(jokes)]. *)
Definition get_random_joke (b : bot) : string * bot :=
  (nth (randbelow (draws b) (List.length jokes) mod List.length jokes) jokes "",
   mk_bot (outbox b) (console b) (S (draws b))).

(** [on_message]: [None] is the bare [return] of lines 45 and 58. *)
Definition choose_reply (incoming : string) (b : bot) : option string * bot :=
  if String.eqb incoming "ping" then (Some "pong", b)
  else if String.eqb incoming "tell a joke" then
    let '(j, b') := get_random_joke b in (Some j, b')
  else if String.eqb incoming "bye" then (Some "Goodbye!", b)
  else (None, b).

Definition on_message (p : string) (b : bot) : bot :=
  let text := py_strip p in
  let incoming := py_lower text in
  let b := print ["Received: " ++ text] b in
  if py_startswith incoming "from-subscriber:" then b
  else match choose_reply incoming b with
       | (None, b') => b'
       | (Some reply, b') =>
           let b'' := mk_bot (app (outbox b') [mk_message "george/test/board" (TAG ++ reply)])
                             (console b') (draws b') in
           print ["Replied:"; reply] b''
       end.

End Bot.

(** The texts published by one call of [on_message]. *)
Definition published_by (randbelow : nat -> nat -> nat) (p : string) (b : bot) : list message :=
  skipn (List.length (outbox b)) (outbox (on_message randbelow p b)).

(** A message the bot ignores: its normalised text carries the tag. *)
Definition ignored (p : string) : bool :=
  py_startswith (py_lower (py_strip p)) "from-subscriber:".

(** The replies the bot can make. *)
Definition replies : list string := "pong" :: "Goodbye!" :: jokes.

(** [on_connect] (lines 31-33): print the reason code and subscribe to
    the board topic; the subscriptions are returned with the bot. *)
Definition on_connect (rc : string) (b : bot) : bot * list string :=
  (print ["Connected:"; rc] b, ["george/test/board"]).

(** [client.loop_forever()]: the payloads delivered on the board topic,
    handed to [on_message] in order. *)
Fixpoint loop (randbelow : nat -> nat -> nat) (msgs : list string) (b : bot) : bot :=
  match msgs with
  | [] => b
  | m :: rest => loop randbelow rest (on_message randbelow m b)
  end.

(** The module-level client set-up (lines 68-77): connect, then the loop. *)
Definition main (randbelow : nat -> nat -> nat) (rc : string) (msgs : list string) (b : bot)
    : bot * list string :=
  let '(b1, subs) := on_connect rc b in (loop randbelow msgs b1, subs).

(** ** Lemmas *)

Lemma joke_in randbelow b : In (fst (get_random_joke randbelow b)) jokes.
Proof. apply nth_In. apply Nat.mod_upper_bound. discriminate. Qed.

Lemma choose_reply_in randbelow incoming b r b' :
  choose_reply randbelow incoming b = (Some r, b') -> In r replies /\ outbox b' = outbox b.
Proof.
  unfold choose_reply.
  destruct (String.eqb incoming "ping"); [intros [=<- <-]; split; [left|]; reflexivity|].
  destruct (String.eqb incoming "tell a joke").
  - pose proof (joke_in randbelow b) as Hj. destruct (get_random_joke randbelow b) as [j b1] eqn:E.
    intros [=<- <-]. split; [right; right; exact Hj|]. injection E as _ <-. reflexivity.
  - destruct (String.eqb incoming "bye"); [intros [=<- <-]; split; [right; left|]; reflexivity|].
    discriminate.
Qed.

Lemma choose_reply_none randbelow incoming b b' :
  choose_reply randbelow incoming b = (None, b') -> b' = b.
Proof.
  unfold choose_reply.
  destruct (String.eqb incoming "ping"); [discriminate|].
  destruct (String.eqb incoming "tell a joke"); [destruct (get_random_joke randbelow b); discriminate|].
  destruct (String.eqb incoming "bye"); [discriminate | congruence].
Qed.

(** What one call adds to the outbox: at most the tagged reply. *)
Lemma on_message_outbox randbelow p b :
  exists new, outbox (on_message randbelow p b) = app (outbox b) new /\
    (new = [] \/ exists r, In r replies /\ new = [mk_message "george/test/board" (TAG ++ r)]).
Proof.
  unfold on_message. cbv zeta.
  destruct (py_startswith _ _); [exists []; rewrite app_nil_r; auto|].
  destruct (choose_reply randbelow _ _) as [[r|] b'] eqn:E.
  - apply choose_reply_in in E as [Hr Ho]. eexists. split; [cbn; rewrite Ho; reflexivity|].
    right. eauto.
  - apply choose_reply_none in E. subst b'. exists []. rewrite app_nil_r. auto.
Qed.

Lemma published_by_spec randbelow p b new :
  outbox (on_message randbelow p b) = app (outbox b) new -> published_by randbelow p b = new.
Proof. unfold published_by. intros ->. rewrite skipn_app, skipn_all, Nat.sub_diag. reflexivity. Qed.

(** An ignored message changes nothing but the console. *)
Lemma ignored_silent randbelow p b :
  ignored p = true -> outbox (on_message randbelow p b) = outbox b.
Proof. unfold ignored, on_message. cbv zeta. intros ->. reflexivity. Qed.

Lemma replies_tagged : forallb (fun r => ignored (TAG ++ r)) replies = true.
Proof. vm_compute. reflexivity. Qed.

(** A whole run of the subscriber: one reply at most per delivered
    message, every reply tagged and on the board topic. *)
Lemma loop_replies randbelow msgs b :
  exists ms, outbox (loop randbelow msgs b) = app (outbox b) ms /\
    (List.length ms <= List.length msgs)%nat /\
    Forall (fun m => topic m = "george/test/board" /\ ignored (payload m) = true) ms.
Proof.
  revert b; induction msgs as [|p msgs IH]; intros b; cbn [loop].
  - exists []. rewrite app_nil_r. auto.
  - destruct (on_message_outbox randbelow p b) as (new & Ho & Hnew).
    destruct (IH (on_message randbelow p b)) as (ms & Hms & Hl & Hall).
    exists (app new ms). rewrite Hms, Ho, app_assoc. split; [reflexivity|].
    destruct Hnew as [-> | (r & Hr & ->)]; cbn [app List.length]; split; [lia | exact Hall | lia |].
    constructor; [|exact Hall]. split; [reflexivity|].
    pose proof replies_tagged as H. rewrite forallb_forall in H. exact (H r Hr).
Qed.

(** C25: the bot never answers itself. Every message one call of
    [on_message] publishes carries the "from-subscriber: " tag, whatever
    the incoming text and the random draw, and that message, delivered
    back to the bot in any state, is ignored: it publishes nothing. Two
    such bots on the same topic cannot ping-pong forever. Over a whole
    run of the script ([on_connect], then [loop_forever] on any
    messages) the bot publishes at most one message per message
    received, each tagged and on the board topic. *)
Theorem testsub_no_reply_loop randbelow p b :
  Forall (fun m => ignored (payload m) = true /\
                   forall b', outbox (on_message randbelow (payload m) b') = outbox b')
         (published_by randbelow p b) /\
  (forall rc msgs, exists ms,
     outbox (fst (main randbelow rc msgs b)) = app (outbox b) ms /\
     (List.length ms <= List.length msgs)%nat /\
     Forall (fun m => topic m = "george/test/board" /\ ignored (payload m) = true) ms).
Proof.
  split.
  - destruct (on_message_outbox randbelow p b) as (new & Ho & [-> | (r & Hr & ->)]);
      rewrite (published_by_spec randbelow p b _ Ho); [constructor|].
    assert (Hi : ignored (TAG ++ r) = true).
    { pose proof replies_tagged as H. rewrite forallb_forall in H. exact (H r Hr). }
    constructor; [|constructor]. cbn [payload]. split; [exact Hi|].
    intros b'. apply ignored_silent. exact Hi.
  - intros rc msgs. apply (loop_replies randbelow msgs (print ["Connected:"; rc] b)).
Qed.

(** C26: what the bot answers. After stripping and lower-casing, "ping"
    is answered "from-subscriber: pong", "bye" "from-subscriber: Goodbye!",
    "tell a joke" the tagged joke that [random.choice] draws, and any
    other message that is not its own is not answered. *)
Theorem testsub_replies randbelow p b :
  (py_lower (py_strip p) = "ping" ->
   published_by randbelow p b = [mk_message "george/test/board" "from-subscriber: pong"]) /\
  (py_lower (py_strip p) = "bye" ->
   published_by randbelow p b = [mk_message "george/test/board" "from-subscriber: Goodbye!"]) /\
  (py_lower (py_strip p) = "tell a joke" ->
   published_by randbelow p b
   = [mk_message "george/test/board" (TAG ++ nth (randbelow (draws b) 4%nat mod 4)%nat jokes "")]) /\
  (ignored p = false -> py_lower (py_strip p) <> "ping" -> py_lower (py_strip p) <> "tell a joke" ->
   py_lower (py_strip p) <> "bye" -> published_by randbelow p b = []).
Proof.
  split; [|split; [|split]].
  - intros H. apply published_by_spec. unfold on_message. cbv zeta. rewrite H. reflexivity.
  - intros H. apply published_by_spec. unfold on_message. cbv zeta. rewrite H. reflexivity.
  - intros H. apply published_by_spec. unfold on_message. cbv zeta. rewrite H. reflexivity.
  - intros Hi H1 H2 H3. apply published_by_spec. rewrite app_nil_r.
    unfold ignored in Hi. unfold on_message, choose_reply. cbv zeta. rewrite Hi.
    rewrite (proj2 (String.eqb_neq _ _) H1), (proj2 (String.eqb_neq _ _) H2),
      (proj2 (String.eqb_neq _ _) H3).
    reflexivity.
Qed.

Lemma testsub_replies_witness :
  py_lower (py_strip " Tell A Joke ") = "tell a joke" /\
  published_by (fun k _ => k + 1)%nat " Tell A Joke " (mk_bot [] [] 2)
  = [mk_message "george/test/board" (TAG ++ "Parallel lines have so much in common. It's a shame they'll never meet.")].
Proof.
  assert (H : py_lower (py_strip " Tell A Joke ") = "tell a joke") by reflexivity.
  split; [exact H|].
  exact (proj1 (proj2 (proj2 (testsub_replies (fun k _ => k + 1)%nat " Tell A Joke " (mk_bot [] [] 2)))) H).
Defined.

End TestSub.
