(* ===== verification/Broker.v ===== *)
(** * The MQTT broker around the chat bot

    [mqtt_test_sub.py] subscribes to [george/test/board] (line 33) and
    publishes its replies on the same topic (line 61). An MQTT 3.1.1
    broker delivers a message to every client subscribed to its topic,
    the publisher included, so each reply of the bot comes back to it and
    to every other copy of the bot on the topic: the tag
    "from-subscriber:" is what keeps this from running forever.

    The network state is the queue of messages the broker still has to
    deliver and the states of the bots subscribed to the topic, in
    subscription order. One [step] takes the oldest message: on the
    bots' topic it is handed to every bot ([fan_out], which runs
    [TestSub.on_message]) and what they publish joins the queue; on any
    other topic nobody is subscribed and it is dropped. The broker is an
    environment model written from the MQTT protocol, not code of the
    repository. *)

From Stdlib Require Import ZArith List Lia String Relations Wellfounded Wf_nat.
From S2P Require Import Prelude PyBytes PyStr TestSub.
Import ListNotations.
Local Open Scope string_scope.
Local Open Scope nat_scope.

Module Broker.
Import TestSub.

(** The topic the bot subscribes to and publishes on. *)
Definition BOARD : string := "george/test/board".

Record net := mk_net {
  pending : list message;
  bots : list bot
}.

Section Net.
Variable randbelow : nat -> nat -> nat.

(** The broker hands payload [p] to every subscribed bot, in order, and
    collects what each publishes. *)
Fixpoint fan_out (p : string) (bs : list bot) : list message * list bot :=
  match bs with
  | [] => ([], [])
  | b :: bs' =>
      let '(ms, bs'') := fan_out p bs' in
      (app (published_by randbelow p b) ms, on_message randbelow p b :: bs'')
  end.

Inductive step : net -> net -> Prop :=
| step_deliver m q bs :
    topic m = BOARD ->
    step (mk_net (m :: q) bs)
         (mk_net (app q (fst (fan_out (payload m) bs))) (snd (fan_out (payload m) bs)))
| step_drop m q bs :
    topic m <> BOARD ->
    step (mk_net (m :: q) bs) (mk_net q bs).

(** The weight of a pending message: an untagged message on the topic
    can make each of the [k] bots publish once, anything else is only
    consumed. *)
Definition weight (k : nat) (m : message) : nat :=
  if String.eqb (topic m) BOARD then (if ignored (payload m) then 1 else S k) else 1.

Definition measure (n : net) : nat :=
  fold_right (fun m acc => weight (List.length (bots n)) m + acc) 0 (pending n).

End Net.

(** ** Lemmas *)

Section Lemmas.
Variable randbelow : nat -> nat -> nat.

Lemma fan_out_length p bs : List.length (snd (fan_out randbelow p bs)) = List.length bs.
Proof.
  induction bs as [|b bs IH]; cbn; [reflexivity|].
  destruct (fan_out randbelow p bs) as [ms bs'']. cbn in *. lia.
Qed.

(** What one bot publishes for [p]: nothing when [p] is tagged, otherwise
    at most one tagged message on the topic. *)
Lemma published_by_tagged p b :
  (ignored p = true -> published_by randbelow p b = []) /\
  (List.length (published_by randbelow p b) <= 1)%nat /\
  Forall (fun m => topic m = BOARD /\ ignored (payload m) = true) (published_by randbelow p b).
Proof.
  destruct (on_message_outbox randbelow p b) as (new & Ho & Hnew).
  rewrite (published_by_spec randbelow p b new Ho).
  split; [|split].
  - intros Hi. pose proof (ignored_silent randbelow p b Hi) as Hs. rewrite Ho in Hs.
    destruct new; [reflexivity|]. apply (f_equal (@List.length _)) in Hs.
    rewrite length_app in Hs. cbn in Hs. lia.
  - destruct Hnew as [-> | (r & _ & ->)]; cbn; lia.
  - destruct Hnew as [-> | (r & Hr & ->)]; [constructor|].
    constructor; [|constructor]. split; [reflexivity|].
    pose proof replies_tagged as H. rewrite forallb_forall in H. exact (H r Hr).
Qed.

Lemma fan_out_tagged p bs :
  (ignored p = true -> fst (fan_out randbelow p bs) = []) /\
  (List.length (fst (fan_out randbelow p bs)) <= List.length bs)%nat /\
  Forall (fun m => topic m = BOARD /\ ignored (payload m) = true) (fst (fan_out randbelow p bs)).
Proof.
  induction bs as [|b bs IH]; cbn; [split; [reflexivity | split; [lia | constructor]]|].
  destruct (fan_out randbelow p bs) as [ms bs''] eqn:E. cbn in *.
  destruct (published_by_tagged p b) as (H1 & H2 & H3). destruct IH as (I1 & I2 & I3).
  split; [|split].
  - intros Hi. rewrite H1, I1 by exact Hi. reflexivity.
  - rewrite length_app. lia.
  - apply Forall_app. auto.
Qed.

Lemma measure_app k q r :
  fold_right (fun m acc => weight k m + acc) 0 (app q r)
  = (fold_right (fun m acc => weight k m + acc) 0 q + fold_right (fun m acc => weight k m + acc) 0 r)%nat.
Proof. induction q as [|m q IH]; cbn; lia. Qed.

(** Tagged messages on the topic weigh 1 each. *)
Lemma measure_tagged k ms :
  Forall (fun m => topic m = BOARD /\ ignored (payload m) = true) ms ->
  fold_right (fun m acc => weight k m + acc) 0 ms = List.length ms.
Proof.
  induction 1 as [|m ms [Ht Hi] _ IH]; cbn [fold_right]; [reflexivity|].
  rewrite IH. unfold weight. rewrite Ht, Hi, String.eqb_refl. reflexivity.
Qed.

Lemma weight_pos k m : 1 <= weight k m.
Proof. unfold weight. destruct (String.eqb (topic m) BOARD), (ignored (payload m)); lia. Qed.

(** Every step lowers the measure. *)
Lemma step_measure n n' : step randbelow n n' -> (measure n' < measure n)%nat.
Proof.
  intros Hs. destruct Hs as [m q bs Ht | m q bs Ht]; unfold measure; cbn [pending bots fold_right].
  - rewrite fan_out_length, measure_app.
    destruct (fan_out_tagged (payload m) bs) as (H1 & H2 & H3).
    rewrite (measure_tagged _ _ H3).
    assert (Hw : weight (List.length bs) m = if ignored (payload m) then 1 else S (List.length bs))
      by (unfold weight; rewrite Ht, String.eqb_refl; reflexivity).
    rewrite Hw. destruct (ignored (payload m)) eqn:Hi; [rewrite H1 by reflexivity; cbn|]; lia.
  - pose proof (weight_pos (List.length bs) m). lia.
Qed.

End Lemmas.

(** C34: delivery through the broker always terminates. Whatever the
    number of bots subscribed to the board, their states, their random
    draws and the messages already queued, there is no infinite sequence
    of deliveries: each untagged message makes every bot publish at most
    one tagged reply, and tagged replies make nobody publish. *)
Theorem broker_terminates randbelow : well_founded (fun n' n => step randbelow n n').
Proof.
  apply (wf_incl _ _ (ltof net measure)); [|apply well_founded_ltof].
  intros n' n Hs. apply (step_measure randbelow), Hs.
Qed.

End Broker.
