(* ===== verification/Sessions.v ===== *)
(** * The programs: [main], [on_connect] and the MQTT loop

    What each script does when it is run, composed from the handlers of
    [TextBridge] and [JsonBridge]:
    - [raw_modbus_test.py] [main] (lines 100-230): the banner, opening the
      serial port, the help text, then the console session
      ([RawMain.main_session]);
    - [modbus_mqtt_bridge.py] [main] (lines 257-299) with [on_connect]
      (lines 29-32): the same banner and help text, then the MQTT client
      whose [loop_forever] hands each received message to [on_message];
    - [modbus_mqtt_bridge_json.py] [main] (lines 229-264) with
      [on_connect] (lines 211-214), which print the serial error and the
      reason code on the console.

    [argparse] is not modelled: its result is the record [args], with the
    defaults the scripts declare; the float [--timeout] is kept as the
    text [str()] prints. Opening the port is the input [open_err]: [None]
    when [serial.Serial(...)] succeeds, [Some e] when it raises with
    message [e]. The MQTT loop is the list of payloads the broker
    delivers, handed to [on_message] in order; paho re-raises an exception
    of a callback out of [loop_forever], so the first exception that
    escapes [on_message] ends the program ([st_bind] stops there). The
    reason code printed by [on_connect] is the input [rc]. *)

From Stdlib Require Import ZArith List Lia String.
From S2P Require Import Prelude PyBytes PyStr Crc16 Frames Serial Decode JsonBridge TextBridge.
Import ListNotations.
Open Scope Z_scope.
Local Open Scope py_scope.
Local Open Scope string_scope.

(** [args = p.parse_args()] *)
Record args := mk_args {
  port : string;
  device : Z;
  baud : Z;
  timeout : string
}.

(** The defaults of [--device], [--baud] and [--timeout]. *)
Definition default_args (p : string) : args := mk_args p 1 9600 "0.1".

(** The help text of the two text programs. *)
Definition HELP : list string :=
  [nl ++ "--- Interactive Mode ---";
   "Type: out <number> on/off   (example: out 3 on)";
   "Type: in <number>           (example: in 2)";
   "Type: status inp               (reads all inputs)";
   "Type: status out               (reads all outputs)";
   "Type: on all                 (turns ON all outputs)";
   "Type: off all                (turns OFF all outputs)";
   "Type: exit                   (to quit)" ++ nl].

(** [print(line)] for each line. *)
Fixpoint print_lines (ls : list string) : st tstate unit :=
  match ls with
  | [] => st_ret tt
  | l :: rest => st_bind (print [l]) (fun _ => print_lines rest)
  end.

(** The banner and the serial port of both text programs, then [k] with
    the device chosen. *)
Definition text_start (a : args) (open_err : option string) (k : st tstate unit) : st tstate unit :=
  _ <-- print ["Raw Modbus RTU test"] ;;
  _ <-- print ["Port:"; port a; "Baud:"; py_str_int (baud a); "Timeout:"; timeout a] ;;
  match open_err with
  | Some e => print ["Failed to open serial port:"; e]
  | None =>
      _ <-- print ["Using slave device ID:"; py_str_int (device a)] ;;
      _ <-- print_lines HELP ;;
      k
  end.

(** ** [raw_modbus_test.py] *)
Module RawProgram.

Definition main (a : args) (open_err : option string) (lines : list string) : st tstate unit :=
  text_start a open_err (RawMain.main_session (device a) lines).

End RawProgram.

(** ** [modbus_mqtt_bridge.py] *)
Module TextProgram.

(** [on_connect]: subscribe, then announce on the response topic. *)
Definition on_connect (rc : string) : st tstate unit :=
  fun t => (Ok tt, mk_tstate (tline t) (app (published t) ["Modbus RTU tester connected."])
                             (app (console t) [py_join " " ["Connected:"; rc]])).

(** [client.loop_forever()] over the messages delivered. *)
Fixpoint loop (device : Z) (msgs : list string) : st tstate unit :=
  match msgs with
  | [] => st_ret tt
  | m :: rest => st_bind (TextMqtt.on_message device m) (fun _ => loop device rest)
  end.

Definition main (a : args) (open_err : option string) (rc : string) (msgs : list string)
    : st tstate unit :=
  text_start a open_err (_ <-- on_connect rc ;; loop (device a) msgs).

End TextProgram.

(** ** [modbus_mqtt_bridge_json.py] *)
Module JsonProgram.

(** [print( *args)] of the JSON bridge. *)
Definition print (args : list string) : st bridge unit :=
  fun b => (Ok tt, mk_bridge (line b) (outbox b) (app (printed b) [py_join " " args])).

(** [on_connect]: print the reason code, subscribe, then
    [publish_json({"status": "online"})]. *)
Definition on_connect (rc : string) : st bridge unit :=
  _ <-- print ["MQTT connected:"; rc] ;;
  publish_json (JObj [jfield "status" (JStr "online")]).

Fixpoint loop (device : Z) (msgs : list payload) : st bridge unit :=
  match msgs with
  | [] => st_ret tt
  | m :: rest => st_bind (on_message device m) (fun _ => loop device rest)
  end.

(** [device_selected] is set before the port is opened; a failure to open
    it prints the error and is [sys.exit(1)]. *)
Definition main (a : args) (open_err : option string) (rc : string) (msgs : list payload)
    : st bridge unit :=
  match open_err with
  | Some e => _ <-- print ["Serial error:"; e] ;; st_raise (SystemExit 1)
  | None => _ <-- on_connect rc ;; loop (device a) msgs
  end.

End JsonProgram.

(** A payload the JSON bridge can answer: text that is not JSON, or a
    JSON object. *)
Definition answerable (p : payload) : Prop :=
  p = NotJson \/ exists fields, p = JsonPayload (JObj fields).

(** ** Lemmas *)

Lemma json_loop_answers device msgs b :
  Forall answerable msgs ->
  exists ms b', JsonProgram.loop device msgs b = (Ok tt, b') /\
                outbox b' = app (outbox b) ms /\ List.length ms = List.length msgs /\
                printed b' = printed b.
Proof.
  intros Hall. revert b. induction Hall as [|p msgs Hp _ IH]; intros b.
  - exists [], b. rewrite app_nil_r. auto.
  - cbn [JsonProgram.loop]. unfold st_bind at 1.
    assert (Hone : exists m b1, on_message device p b = (Ok tt, b1) /\ outbox b1 = app (outbox b) [m]).
    { destruct Hp as [-> | [fields ->]].
      - eexists _, _. split; reflexivity.
      - cbn [on_message]. destruct (process_command_answers device fields b) as [Hok [m Hm]].
        exists m, (snd (process_command device (JObj fields) b)). split; [|exact Hm].
        rewrite <- Hok. apply surjective_pairing. }
    destruct Hone as (m & b1 & Hb1 & Hm).
    pose proof (on_message_mute device p b) as Hq. rewrite Hb1 in Hq.
    rewrite Hb1. destruct (IH b1) as (ms & b' & Hrun & Ho & Hl & Hp').
    exists (m :: ms), b'. rewrite Hrun, Ho, Hm, <- app_assoc, Hp'. cbn. auto.
Qed.

Lemma text_loop_stops device pre m post t e t' :
  TextProgram.loop device (app pre [m]) t = (Raise e, t') ->
  TextProgram.loop device (app pre (m :: post)) t = (Raise e, t').
Proof.
  revert t; induction pre as [|x pre IH]; intros t; cbn [app TextProgram.loop]; unfold st_bind.
  - destruct (TextMqtt.on_message device m t) as [[u|e'] t1]; [cbn; discriminate | exact (fun H => H)].
  - destruct (TextMqtt.on_message device x t) as [[u|e'] t1]; [apply IH | exact (fun H => H)].
Qed.

(** C35: liveness of the two MQTT bridges. Once connected, the JSON
    bridge answers every message that is a JSON object or not JSON at
    all, one published object per message after its "online" notice, and
    is still running after the last one; on the console it has printed
    only the reason code of [on_connect]. The text bridge is not live: the
    first message whose handling raises (a bad channel, a short reply, a
    non-numeric channel, "exit") ends [loop_forever], and no later
    message is ever handled. *)
Theorem bridges_liveness a rc msgs b dev pre m post t e t' :
  (Forall answerable msgs ->
   exists ms b', JsonProgram.main a None rc msgs b = (Ok tt, b') /\
     outbox b' = app (outbox b) (JObj [jfield "status" (JStr "online")] :: ms) /\
     List.length ms = List.length msgs /\
     printed b' = app (printed b) [py_join " " ["MQTT connected:"; rc]]) /\
  (TextProgram.loop dev (app pre [m]) t = (Raise e, t') ->
   TextProgram.loop dev (app pre (m :: post)) t = (Raise e, t')).
Proof.
  split.
  - intros Hall. destruct (json_loop_answers (device a) msgs
                            (mk_bridge (line b) (app (outbox b) [JObj [jfield "status" (JStr "online")]])
                                       (app (printed b) [py_join " " ["MQTT connected:"; rc]])) Hall)
      as (ms & b' & Hrun & Ho & Hl & Hp).
    exists ms, b'. cbn [JsonProgram.main]. unfold JsonProgram.on_connect, JsonProgram.print, publish_json, st_bind.
    cbn [line outbox printed].
    rewrite Hrun. split; [reflexivity|]. split; [|split; [exact Hl | exact Hp]]. rewrite Ho. cbn [outbox].
    rewrite <- app_assoc. reflexivity.
  - apply text_loop_stops.
Qed.


Lemma bridges_liveness_witness :
  let msgs := [NotJson; JsonPayload (JObj [jfield "cmd" (JStr "reboot")])] in
  let b := mk_bridge (mk_serial [] [] [] []) [] [] in
  let t := mk_tstate (mk_serial [] [] [] []) [] [] in
  let t' := snd (TextProgram.loop 1 (app [] ["out 9 on"]) t) in
  Forall answerable msgs /\
  TextProgram.loop 1 (app [] ["out 9 on"]) t = (Raise (ValueError "channel must be 1-8"), t') /\
  (exists ms b', JsonProgram.main (default_args "COM16") None "Success" msgs b = (Ok tt, b') /\
     outbox b' = app (outbox b) (JObj [jfield "status" (JStr "online")] :: ms) /\
     List.length ms = List.length msgs /\
     printed b' = app (printed b) [py_join " " ["MQTT connected:"; "Success"]]) /\
  TextProgram.loop 1 (app [] ("out 9 on" :: ["status inp"])) t
  = (Raise (ValueError "channel must be 1-8"), t').
Proof.
  intros msgs b t t'.
  assert (H1 : Forall answerable msgs).
  { apply Forall_cons; [left; reflexivity|]. apply Forall_cons; [right; eexists; reflexivity|].
    apply Forall_nil. }
  assert (H2 : TextProgram.loop 1 (app [] ["out 9 on"]) t = (Raise (ValueError "channel must be 1-8"), t'))
    by (vm_compute; reflexivity).
  split; [exact H1|]. split; [exact H2|].
  destruct (bridges_liveness (default_args "COM16") "Success" msgs b 1 [] "out 9 on" ["status inp"] t
              (ValueError "channel must be 1-8") t') as [HJ HT].
  split; [exact (HJ H1) | exact (HT H2)].
Defined.
