(* ===== verification/Wire.v ===== *)
(** * What the three programs put on the wire

    The handlers of the three Modbus scripts reach the device only
    through [exchange] (reset, write, sleep, read). This file proves two
    things about the line, by composing the lemmas of each statement form
    of the handler monad, so that a handler's proof follows its code:
    - [keeps]: a statement that writes only well-formed frames (8 bytes,
      CRC residue 0, [Frames.frame_ok]) keeps the log of written frames
      well formed; every handler and every program [main] does, whatever
      the messages, the typed lines, the arguments and the device's
      replies;
    - [lsim R]: two statements, possibly over different handler states,
      that leave the line in the same state and have outcomes related by
      [R] (both raise, or both return related values); the JSON bridge,
      the text bridge and the raw tester are related on the eight-channel
      commands they share. *)

From Stdlib Require Import ZArith List Lia String.
From S2P Require Import Prelude PyBytes PyStr Crc16 Frames Serial Decode JsonBridge TextBridge Sessions.
Import ListNotations.
Open Scope Z_scope.
Local Open Scope py_scope.


(** One exchange on the line alone: [ser.reset_input_buffer()],
    [ser.write(frame)], [ser.read(256)]. *)
Definition exchange_line (frame : list Z) (x : serial) : list Z * serial :=
  read 256 (write frame (reset_input_buffer x)).

(** Every frame written so far is well formed. *)
Definition frames_ok (x : serial) : Prop := Forall (fun f => frame_ok f = true) (written x).

Section Keeps.
Context {S : Type} `{HasSerial S}.

(** A statement keeps the written frames well formed. *)
Definition keeps {A} (c : st S A) : Prop :=
  forall s, frames_ok (ser_of s) -> frames_ok (ser_of (snd (c s))).

(** A statement that does not touch the line. *)
Definition quiet {A} (c : st S A) : Prop := forall s, ser_of (snd (c s)) = ser_of s.

(** A statement whose outcome is [r] from every state and that does not
    touch the line: [st_lift r], or the text scripts' relay builder,
    which also prints. *)
Definition fixed {A} (r : result A) (c : st S A) : Prop :=
  forall s, fst (c s) = r /\ ser_of (snd (c s)) = ser_of s.

End Keeps.


(** Any two results. *)
Definition rel_any {A B} (_ : A) (_ : B) : Prop := True.

(** Two outcomes related by [R]: both return, with related values, or
    both raise. *)
Definition res_rel {A B} (R : A -> B -> Prop) (x : result A) (y : result B) : Prop :=
  match x, y with
  | Ok a, Ok b => R a b
  | Raise _, Raise _ => True
  | _, _ => False
  end.

Section Sim.
Context {S T : Type} `{HasSerial S} `{HasSerial T}.

(** [c] and [d], run from states with the same line, leave the line in
    the same state and have related outcomes. *)
Definition lsim {A B} (R : A -> B -> Prop) (c : st S A) (d : st T B) : Prop :=
  forall s t, ser_of s = ser_of t ->
    res_rel R (fst (c s)) (fst (d t)) /\ ser_of (snd (c s)) = ser_of (snd (d t)).

End Sim.

(** A statement that neither touches the line nor raises. *)
Definition inert {S A} `{HasSerial S} (c : st S A) : Prop :=
  quiet c /\ forall s, is_ok (fst (c s)) = true.

(** The JSON requests of the eight-channel commands. *)
Definition output_all_request (a : AddressMap.relay_action) : json :=
  JObj [jfield "cmd" (JStr "output_all"); jfield "state" (JStr (AddressMap.action_token a))].

Definition status_request (target : string) : json :=
  JObj [jfield "cmd" (JStr "status"); jfield "target" (JStr target)].

(** ** Lemmas *)

Section KeepsLaws.
Context {S : Type} `{HasSerialLaws S}.

Lemma exchange_spec frame (s : S) :
  exchange frame s = (Ok (fst (exchange_line frame (ser_of s))),
                      with_ser (snd (exchange_line frame (ser_of s))) s).
Proof.
  unfold exchange, exchange_line, st_bind, ser_reset_input_buffer, ser_write, time_sleep,
    st_ret, ser_read.
  rewrite !ser_of_with. destruct (read 256 _). rewrite !with_ser_with. reflexivity.
Qed.

Lemma exchange_line_written frame x : written (snd (exchange_line frame x)) = written x ++ [frame].
Proof. unfold exchange_line, write. cbn. destruct (replies x) as [|[]]; reflexivity. Qed.

Lemma keeps_quiet {A} (c : st S A) : quiet c -> keeps c.
Proof. intros Hq s Hs. rewrite Hq. exact Hs. Qed.

Lemma quiet_lift {A} (r : result A) : quiet (st_lift r).
Proof. intros s. reflexivity. Qed.

Lemma quiet_ret {A} (a : A) : quiet (st_ret a).
Proof. intros s. reflexivity. Qed.

Lemma quiet_raise {A} e : quiet (@st_raise S A e).
Proof. intros s. reflexivity. Qed.

Lemma keeps_exchange frame : frame_ok frame = true -> keeps (exchange frame).
Proof.
  intros Hf s Hs. rewrite exchange_spec. cbn [snd]. rewrite ser_of_with.
  unfold frames_ok. rewrite exchange_line_written. apply Forall_app. auto.
Qed.

Lemma keeps_bind {A B} (c : st S A) (k : A -> st S B) :
  keeps c -> (forall a, keeps (k a)) -> keeps (st_bind c k).
Proof.
  intros Hc Hk s Hs. unfold st_bind. specialize (Hc s Hs).
  destruct (c s) as [[a|e] s']; [apply Hk|]; exact Hc.
Qed.

(** A value taken out of a [result]: what follows may use that it is [Ok]. *)
Lemma keeps_bind_lift {A B} (r : result A) (k : A -> st S B) :
  (forall a, r = Ok a -> keeps (k a)) -> keeps (st_bind (st_lift r) k).
Proof. intros Hk s Hs. unfold st_bind, st_lift. destruct r as [a|e]; [apply Hk|]; auto. Qed.

Lemma fixed_lift {A} (r : result A) : fixed r (st_lift r).
Proof. intros s. split; reflexivity. Qed.

(** A statement of fixed outcome: what follows may use that it is [Ok]. *)
Lemma keeps_bind_fixed {A B} (r : result A) (c : st S A) (k : A -> st S B) :
  fixed r c -> (forall a, r = Ok a -> keeps (k a)) -> keeps (st_bind c k).
Proof.
  intros Hc Hk s Hs. unfold st_bind. destruct (Hc s) as [Hr Hl].
  destruct (c s) as [[a|e] s']; cbn in Hr, Hl; rewrite <- Hl in Hs; [apply Hk|]; auto.
Qed.

Lemma keeps_try {A} (c : st S A) h : keeps c -> (forall e, keeps (h e)) -> keeps (st_try c h).
Proof.
  intros Hc Hh s Hs. unfold st_try. specialize (Hc s Hs).
  destruct (c s) as [[a|e] s']; [|apply Hh]; exact Hc.
Qed.

Lemma keeps_if {A} (b : bool) (c1 c2 : st S A) : keeps c1 -> keeps c2 -> keeps (if b then c1 else c2).
Proof. destruct b; auto. Qed.

Lemma keeps_for_acc {A} xs (acc : A) body :
  (forall acc i, keeps (body acc i)) -> keeps (st_for_acc xs acc body).
Proof.
  intros Hb. revert acc; induction xs as [|x xs IH]; intros acc; cbn [st_for_acc].
  - apply keeps_quiet, quiet_ret.
  - apply keeps_bind; auto.
Qed.

Lemma keeps_for xs body : (forall i, keeps (body i)) -> keeps (st_for xs body).
Proof.
  intros Hb. induction xs as [|x xs IH]; cbn [st_for].
  - apply keeps_quiet, quiet_ret.
  - apply keeps_bind; auto.
Qed.

End KeepsLaws.

Lemma quiet_publish_json m : quiet (publish_json m).
Proof. intros b. reflexivity. Qed.

Lemma quiet_print args : quiet (print args).
Proof. intros t. reflexivity. Qed.

Lemma quiet_print_pubish args : quiet (TextMqtt.print_pubish args).
Proof. intros t. reflexivity. Qed.

Lemma quiet_text_on_connect rc : quiet (TextProgram.on_connect rc).
Proof. intros t. reflexivity. Qed.

Lemma quiet_json_print args : quiet (JsonProgram.print args).
Proof. intros b. reflexivity. Qed.

(** The text scripts' relay builder: the frame of [Frames], the line
    untouched. *)
Lemma fixed_text_relay d c a : fixed (Bridge.build_relay_command d c a) (TextMqtt.build_relay_command d c a).
Proof. intros t. destruct (text_relay_io d c a t) as [con ->]. split; reflexivity. Qed.

Lemma fixed_raw_relay d c a : fixed (Raw.build_relay_command d c a) (RawMain.build_relay_command d c a).
Proof. intros t. destruct (raw_relay_io d c a t) as [con ->]. split; reflexivity. Qed.

Create HintDb wire discriminated.
#[export] Hint Resolve quiet_lift quiet_ret quiet_raise quiet_publish_json quiet_print
  quiet_print_pubish quiet_text_on_connect quiet_json_print : wire.

Section Cycles.
Context {S : Type} `{HasSerialLaws S}.
Variable build : Z -> result (list Z).
Hypothesis build_ok : forall i f, build i = Ok f -> frame_ok f = true.

Lemma keeps_poll_cycle {A} (item : Z -> list Z -> result A) acc i :
  keeps (S := S) (poll_cycle build item acc i).
Proof.
  unfold poll_cycle. apply keeps_bind_lift; intros f Hf.
  apply keeps_bind; [apply keeps_exchange; eauto | intros resp].
  apply keeps_bind_lift; intros x _. apply keeps_quiet, quiet_ret.
Qed.

End Cycles.

Lemma keeps_print_cycle build args_of i :
  (forall i f, build i = Ok f -> frame_ok f = true) -> keeps (print_cycle build args_of i).
Proof.
  intros Hb. unfold print_cycle. apply keeps_bind_lift; intros f Hf.
  apply keeps_bind; [apply keeps_exchange; eauto | intros resp].
  apply keeps_bind_lift; intros x _. apply keeps_quiet, quiet_print.
Qed.

(** One step of a [keeps] proof, chosen by the form of the statement. *)
Ltac keeps_step :=
  match goal with
  | |- keeps (st_bind (st_lift _) _) => apply keeps_bind_lift; intros ? ?
  | |- keeps (st_bind (TextMqtt.build_relay_command ?d ?c ?x) _) =>
      refine (keeps_bind_fixed _ _ _ (fixed_text_relay d c x) _); intros ? ?
  | |- keeps (st_bind (RawMain.build_relay_command ?d ?c ?x) _) =>
      refine (keeps_bind_fixed _ _ _ (fixed_raw_relay d c x) _); intros ? ?
  | |- keeps (TextMqtt.relay_cycle _ _ _ _ _ _) => unfold TextMqtt.relay_cycle
  | |- keeps (RawMain.relay_cycle _ _ _ _) => unfold RawMain.relay_cycle
  | |- keeps (st_bind _ _) => apply keeps_bind; [|intros]
  | |- keeps (st_try _ _) => apply keeps_try; [|intros]
  | |- keeps (if _ then _ else _) => apply keeps_if
  | |- keeps (st_for_acc _ _ _) => apply keeps_for_acc; intros
  | |- keeps (st_for _ _) => apply keeps_for; intros
  | |- keeps (exchange _) => apply keeps_exchange; cbv beta in *; eauto with frames
  | |- keeps (poll_cycle _ _ _ _) =>
      apply keeps_poll_cycle; intros ? ?; cbv beta; eauto with frames
  | |- keeps (print_cycle _ _ _) =>
      apply keeps_print_cycle; intros ? ?; cbv beta; eauto with frames
  | |- keeps _ => apply keeps_quiet; solve [auto with wire]
  end.

Ltac keeps_tac := repeat keeps_step.

(** ** Every handler writes only well-formed frames *)

Lemma keeps_status_build dev target i f :
  status_build dev target i = Ok f -> frame_ok f = true.
Proof. unfold status_build. destruct (py_eq_str target "inputs"); eauto with frames. Qed.

#[export] Hint Resolve keeps_status_build : frames.

Lemma keeps_process_command dev data : keeps (process_command dev data).
Proof.
  unfold process_command. apply keeps_bind_lift; intros cmd _.
  apply keeps_try; [|intros e; apply keeps_quiet, quiet_publish_json].
  unfold dispatch. keeps_tac.
Qed.

Lemma keeps_json_on_message dev p : keeps (on_message dev p).
Proof. destruct p; cbn [on_message]; [keeps_tac | keeps_tac | apply keeps_process_command]. Qed.

Lemma keeps_text_on_message dev m : keeps (TextMqtt.on_message dev m).
Proof.
  unfold TextMqtt.on_message, TextMqtt.process_command. cbv zeta. keeps_tac.
Qed.

Lemma keeps_run_command dev cmd : keeps (RawMain.run_command dev cmd).
Proof. unfold RawMain.run_command, for_channels. cbv zeta. keeps_tac. Qed.

Lemma keeps_command_loop dev lines : keeps (RawMain.command_loop dev lines).
Proof.
  induction lines as [|l lines IH]; cbn [RawMain.command_loop]; [keeps_tac|].
  cbv zeta. apply keeps_if; [keeps_tac|]. apply keeps_bind; [apply keeps_run_command | intros; exact IH].
Qed.

(** The frames of [EXAMPLES] parse and are well formed. *)
Lemma examples_frames_ok :
  Forall (fun e => forall f, hexstr_to_bytes (snd e) = Ok f -> frame_ok f = true) Raw.EXAMPLES.
Proof.
  assert (H : forallb (fun e => match hexstr_to_bytes (snd e) with
                                | Ok f => frame_ok f | Raise _ => true end) Raw.EXAMPLES = true)
    by (vm_compute; reflexivity).
  rewrite forallb_forall in H. apply Forall_forall. intros e He f Hf.
  specialize (H e He). rewrite Hf in H. exact H.
Qed.

Lemma keeps_send_examples exs :
  Forall (fun e => forall f, hexstr_to_bytes (snd e) = Ok f -> frame_ok f = true) exs ->
  keeps (RawMain.send_examples exs).
Proof.
  induction 1 as [|[name hexframe] exs Hok _ IH]; cbn [RawMain.send_examples]; [keeps_tac|].
  apply keeps_bind_lift; intros data Hd. apply keeps_bind; [keeps_tac | intros _].
  apply keeps_bind; [apply keeps_exchange, Hok, Hd | intros resp].
  apply keeps_bind; [destruct resp; keeps_tac | intros _; exact IH].
Qed.

Lemma keeps_print_lines ls : keeps (print_lines ls).
Proof. induction ls as [|l ls IH]; cbn [print_lines]; keeps_tac; exact IH. Qed.

Lemma keeps_text_start a err k : keeps k -> keeps (text_start a err k).
Proof.
  intros Hk. unfold text_start. keeps_tac. destruct err; keeps_tac; [apply keeps_print_lines | exact Hk].
Qed.

Lemma keeps_text_loop dev msgs : keeps (TextProgram.loop dev msgs).
Proof.
  induction msgs as [|m msgs IH]; cbn [TextProgram.loop]; keeps_tac;
    [apply keeps_text_on_message | exact IH].
Qed.

Lemma keeps_json_loop dev msgs : keeps (JsonProgram.loop dev msgs).
Proof.
  induction msgs as [|m msgs IH]; cbn [JsonProgram.loop]; keeps_tac;
    [apply keeps_json_on_message | exact IH].
Qed.

(** C36: every frame any of the three programs writes to the serial line
    is a well-formed Modbus RTU frame: 8 bytes, each in [0, 256), with
    the CRC-16 of the first six in its last two bytes (CRC residue 0).
    This holds for any command-line arguments (any [--device], also
    outside [0, 256)), any outcome of opening the port, any MQTT messages
    or typed lines and any replies of the device, on every path,
    including those that end in an exception. *)
Theorem wire_frames_well_formed :
  (forall a err rc msgs b, frames_ok (line b) -> frames_ok (line (snd (JsonProgram.main a err rc msgs b)))) /\
  (forall a err rc msgs t,
     frames_ok (tline t) -> frames_ok (tline (snd (TextProgram.main a err rc msgs t)))) /\
  (forall a err lines t,
     frames_ok (tline t) -> frames_ok (tline (snd (RawProgram.main a err lines t)))).
Proof.
  split; [|split].
  - intros a err rc msgs. change (keeps (JsonProgram.main a err rc msgs)). unfold JsonProgram.main, JsonProgram.on_connect.
    destruct err; keeps_tac. apply keeps_json_loop.
  - intros a err rc msgs. change (keeps (TextProgram.main a err rc msgs)). apply keeps_text_start. keeps_tac. apply keeps_text_loop.
  - intros a err lines. change (keeps (RawProgram.main a err lines)). apply keeps_text_start. unfold RawMain.main_session. keeps_tac;
      [apply keeps_command_loop | apply keeps_send_examples, examples_frames_ok].
Qed.

Lemma wire_frames_well_formed_witness :
  let x := mk_serial [] [] [] [] in
  frames_ok x /\
  frames_ok (line (snd (JsonProgram.main (default_args "COM16"%string) None "Success"%string
                          [JsonPayload (JObj [jfield "cmd" (JStr "output_all"%string); jfield "state" (JStr "on"%string)])]
                          (mk_bridge x [] [])))) /\
  frames_ok (tline (snd (TextProgram.main (mk_args "COM16"%string 300 9600 "0.1"%string) None "0"%string ["status inp"%string]
                           (mk_tstate x [] [])))) /\
  frames_ok (tline (snd (RawProgram.main (default_args "COM16"%string) None ["on all"%string; "exit"%string]
                           (mk_tstate x [] [])))).
Proof.
  intros x. assert (H0 : frames_ok x) by constructor.
  destruct wire_frames_well_formed as (HJ & HT & HR).
  split; [exact H0|]. split; [apply HJ; exact H0|]. split; [apply HT; exact H0 | apply HR; exact H0].
Defined.

(** ** The front ends drive the line alike *)

Section SimLaws.
Context {S T : Type} `{HasSerialLaws S} `{HasSerialLaws T}.

Lemma lsim_bind {A B C D} (R : A -> B -> Prop) (R' : C -> D -> Prop) c d k k' :
  lsim R c d -> (forall a b, R a b -> lsim R' (k a) (k' b)) ->
  lsim (S := S) (T := T) R' (st_bind c k) (st_bind d k').
Proof.
  intros Hc Hk s t Hst. unfold st_bind. destruct (Hc s t Hst) as [Hr Hl].
  destruct (c s) as [[a|e] s'], (d t) as [[b|e'] t']; cbn in Hr, Hl |- *;
    [apply Hk | contradiction | contradiction | split]; auto.
Qed.

Lemma lsim_inert_l {A B C} (R : B -> C -> Prop) (c : st S A) k (d : st T C) :
  inert c -> (forall a, lsim R (k a) d) -> lsim R (st_bind c k) d.
Proof.
  intros [Hq Ho] Hk s t Hst. unfold st_bind. specialize (Ho s). specialize (Hq s).
  destruct (c s) as [[a|e] s']; [|discriminate]. cbn in Hq. apply Hk. congruence.
Qed.

Lemma lsim_inert_r {A B C} (R : A -> C -> Prop) (c : st S A) (d : st T B) k :
  inert d -> (forall b, lsim R c (k b)) -> lsim R c (st_bind d k).
Proof.
  intros [Hq Ho] Hk s t Hst. unfold st_bind. specialize (Ho t). specialize (Hq t).
  destruct (d t) as [[b|e] t']; [|discriminate]. cbn in Hq. apply Hk. congruence.
Qed.

Lemma lsim_inert {A B} (c : st S A) (d : st T B) : inert c -> inert d -> lsim rel_any c d.
Proof.
  intros [Hq Ho] [Hq' Ho'] s t Hst. specialize (Ho s). specialize (Ho' t).
  split; [|rewrite Hq, Hq'; exact Hst].
  destruct (fst (c s)), (fst (d t)); easy.
Qed.

Lemma lsim_exchange frame : lsim (S := S) (T := T) eq (exchange frame) (exchange frame).
Proof.
  intros s t Hst. rewrite !exchange_spec. cbn [fst snd]. rewrite !ser_of_with, Hst. split; reflexivity.
Qed.

Lemma lsim_fixed {A} (r : result A) (c : st S A) (d : st T A) :
  fixed r c -> fixed r d -> lsim eq c d.
Proof.
  intros Hc Hd s t Hst. destruct (Hc s) as [Hr Hl], (Hd t) as [Hr' Hl'].
  split; [rewrite Hr, Hr'; destruct r; cbn; auto | congruence].
Qed.

Lemma lsim_lift {A} (r : result A) : lsim (S := S) (T := T) eq (st_lift r) (st_lift r).
Proof. intros s t Hst. split; [destruct r; cbn; auto | exact Hst]. Qed.

Lemma lsim_lift_ok {A B} (r : result A) (r' : result B) :
  is_ok r = is_ok r' -> lsim (S := S) (T := T) rel_any (st_lift r) (st_lift r').
Proof. intros Hr s t Hst. split; [destruct r, r'; easy | exact Hst]. Qed.

Lemma lsim_for_acc {A B} xs (acc : A) (acc' : B) body body' :
  (forall a b i, In i xs -> lsim rel_any (body a i) (body' b i)) ->
  lsim (S := S) (T := T) rel_any (st_for_acc xs acc body) (st_for_acc xs acc' body').
Proof.
  revert acc acc'; induction xs as [|x xs IH]; intros acc acc' Hb; cbn [st_for_acc].
  - intros s t Hst. split; [exact I | exact Hst].
  - apply (lsim_bind rel_any); [apply Hb; left; reflexivity|].
    intros a b _. apply IH. intros a' b' i Hi. apply Hb. right. exact Hi.
Qed.

Lemma lsim_for_acc_for {A} xs (acc : A) body body' :
  (forall a i, In i xs -> lsim rel_any (body a i) (body' i)) ->
  lsim (S := S) (T := T) rel_any (st_for_acc xs acc body) (st_for xs body').
Proof.
  revert acc; induction xs as [|x xs IH]; intros acc Hb; cbn [st_for_acc st_for].
  - intros s t Hst. split; [exact I | exact Hst].
  - apply (lsim_bind rel_any); [apply Hb; left; reflexivity|].
    intros a b _. apply IH. intros a' i Hi. apply Hb. right. exact Hi.
Qed.

(** One channel of two sweeps that send the same frame and whose items
    fail on the same replies. *)
Lemma lsim_poll_cycle {A B} build build' (item : Z -> list Z -> result A)
    (item' : Z -> list Z -> result B) acc acc' i :
  build i = build' i -> (forall r, is_ok (item i r) = is_ok (item' i r)) ->
  lsim (S := S) (T := T) rel_any (poll_cycle build item acc i) (poll_cycle build' item' acc' i).
Proof.
  intros Hb Hi. unfold poll_cycle. rewrite <- Hb.
  apply (lsim_bind eq); [apply lsim_lift | intros f _ <-].
  apply (lsim_bind eq); [apply lsim_exchange | intros r _ <-].
  apply (lsim_bind rel_any); [apply lsim_lift_ok, Hi | intros x y _].
  intros s t Hst. split; [exact I | exact Hst].
Qed.

(** A [try] whose handler does not touch the line: the line ends as it
    would without the [try]. *)
Lemma lsim_try_line {A B} R (c : st S A) h (d : st T B) :
  lsim R c d -> (forall e, quiet (h e)) ->
  forall s t, ser_of s = ser_of t -> ser_of (snd (st_try c h s)) = ser_of (snd (d t)).
Proof.
  intros Hc Hh s t Hst. unfold st_try. destruct (Hc s t Hst) as [_ Hl].
  destruct (c s) as [[a|e] s']; [exact Hl | rewrite Hh; exact Hl].
Qed.

End SimLaws.

Lemma lsim_poll_print {S A} `{HasSerialLaws S} build build' (item : Z -> list Z -> result A)
    args_of acc i :
  build i = build' i -> (forall r, is_ok (item i r) = is_ok (args_of i r)) ->
  lsim (S := S) (T := tstate) rel_any (poll_cycle build item acc i) (print_cycle build' args_of i).
Proof.
  intros Hb Hi. unfold poll_cycle, print_cycle. rewrite <- Hb.
  apply (lsim_bind eq); [apply lsim_lift | intros f _ <-].
  apply (lsim_bind eq); [apply lsim_exchange | intros r _ <-].
  apply (lsim_bind rel_any); [apply lsim_lift_ok, Hi | intros x y _].
  apply lsim_inert; split; intros t; reflexivity.
Qed.

(** One channel of the JSON bridge's relay sweep and of the text
    bridge's: the same frame, an item that never fails. *)
Lemma lsim_poll_relay {S A} `{HasSerialLaws S} build (item : Z -> list Z -> result A)
    d act word sep acc acc' i :
  build i = Bridge.build_relay_command d i act -> (forall r, is_ok (item i r) = true) ->
  lsim (S := S) (T := tstate) rel_any (poll_cycle build item acc i)
       (TextMqtt.relay_cycle d act word sep acc' i).
Proof.
  intros Hb Hi. unfold poll_cycle, TextMqtt.relay_cycle.
  apply (lsim_bind eq).
  { apply (lsim_fixed (build i)); [apply fixed_lift | rewrite Hb; apply fixed_text_relay]. }
  intros f _ <-. apply (lsim_bind eq); [apply lsim_exchange | intros r _ <-].
  intros s t Hst. unfold st_bind, st_lift, st_ret. specialize (Hi r).
  destruct (item i r); [split; [exact I | exact Hst] | discriminate].
Qed.

(** One channel of the text bridge's relay sweep and of the raw
    tester's: the two scripts' builders have the same code. *)
Lemma lsim_relay_cycles d act word word' sep acc i :
  lsim rel_any (TextMqtt.relay_cycle d act word sep acc i) (RawMain.relay_cycle d act word' i).
Proof.
  unfold TextMqtt.relay_cycle, RawMain.relay_cycle.
  apply (lsim_bind eq).
  { apply (lsim_fixed (Bridge.build_relay_command d i act)); [apply fixed_text_relay | exact (fixed_raw_relay d i act)]. }
  intros f _ <-. apply (lsim_bind eq); [apply lsim_exchange | intros r _ <-].
  apply lsim_inert; split; intros t; reflexivity.
Qed.

Section SimSteps.
Context {S T : Type} `{HasSerialLaws S} `{HasSerialLaws T}.

(** [x <- Ok a; k x] is [k a]. *)
Lemma lsim_lift_ok_l {A B C} R a (k : A -> st S B) (d : st T C) :
  lsim R (k a) d -> lsim R (st_bind (st_lift (Ok a)) k) d.
Proof. intros Hk. exact Hk. Qed.

Lemma lsim_lift_ok_r {A B C} R (c : st S A) b (k : B -> st T C) :
  lsim R c (k b) -> lsim R c (st_bind (st_lift (Ok b)) k).
Proof. intros Hk. exact Hk. Qed.

(** A tail that neither touches the line nor raises. *)
Lemma lsim_then_l {A B C} R (c : st S A) (k : A -> st S B) (d : st T C) :
  lsim R c d -> (forall a, inert (k a)) -> lsim rel_any (st_bind c k) d.
Proof.
  intros Hc Hk s t Hst. unfold st_bind. destruct (Hc s t Hst) as [Hr Hl].
  destruct (c s) as [[a|e] s']; cbn in Hr, Hl.
  - destruct (Hk a) as [Hq Ho]. specialize (Ho s'). specialize (Hq s').
    destruct (k a s') as [[b|e'] s'']; [|discriminate]. cbn in Hq |- *.
    split; [destruct (fst (d t)); easy | congruence].
  - split; [destruct (fst (d t)); easy | exact Hl].
Qed.

Lemma inert_ret {A} (a : A) : inert (S := S) (st_ret a).
Proof. split; intros s; reflexivity. Qed.

End SimSteps.

Lemma inert_print args : inert (print args).
Proof. split; intros s; reflexivity. Qed.

Lemma inert_print_pubish args : inert (TextMqtt.print_pubish args).
Proof. split; intros s; reflexivity. Qed.

Lemma inert_publish_json m : inert (publish_json m).
Proof. split; intros s; reflexivity. Qed.

#[export] Hint Resolve inert_ret inert_print inert_print_pubish inert_publish_json : wire.

(** The three programs' builders agree: the raw tester's and the text
    bridge's have the same code; the JSON bridge's agree with them on
    every integer channel (relay, input) and on every byte (output). *)
Lemma json_bridge_relay dev i a :
  Json.build_relay_command dev (JInt i) (JStr (AddressMap.action_token a))
  = Bridge.build_relay_command dev i (AddressMap.action_token a).
Proof.
  unfold Json.build_relay_command, Bridge.build_relay_command.
  destruct a; cbn -[py_bytes py_bytes_vals Crc16.crc16 Crc16.crc16_register le_digits Z.land Z.shiftr];
    destruct (i <? 1), (8 <? i); cbn [bind orb]; try reflexivity.
  all: rewrite <- py_bytes_vals_ints; reflexivity.
Qed.

Lemma json_bridge_output dev i :
  0 <= i < 256 -> Json.build_read_output dev (JInt i) = Bridge.builst_read_output dev i.
Proof.
  intros Hi. unfold Json.build_read_output, Bridge.builst_read_output.
  rewrite <- py_bytes_vals_ints. cbn [map].
  rewrite (proj2 (small_addr_hi i Hi)), (small_addr_lo i Hi). reflexivity.
Qed.

(** The JSON bridge's and the text handlers' reply tests fail on the
    same replies (a reply of 1 to 4 bytes). *)
Lemma json_text_state_ok r : is_ok (json_state r) = is_ok (text_state r).
Proof.
  destruct r as [|z r]; [reflexivity|]. unfold json_state, text_state.
  cbn [Datatypes.length]. rewrite (proj2 (Z.ltb_lt 0 _)) by lia.
  destruct (py_getitem (z :: r) 4); reflexivity.
Qed.

Lemma status_msg_state_ok i r : is_ok (TextMqtt.status_msg i r) = is_ok (text_state r).
Proof. unfold TextMqtt.status_msg. destruct (text_state r); reflexivity. Qed.

Lemma status_args_state_ok label i r : is_ok (RawMain.status_args label i r) = is_ok (text_state r).
Proof. unfold RawMain.status_args. destruct (text_state r); reflexivity. Qed.

Lemma status_item_state_ok i r : is_ok (status_item i r) = is_ok (text_state r).
Proof. unfold status_item. rewrite <- json_text_state_ok. destruct (json_state r); reflexivity. Qed.

(** Evaluate the branch tests of a handler on a closed command. *)
Ltac branch_simpl := cbn [Datatypes.length Nat.eqb andb orb negb nth]; cbv beta iota.

(** Two items that fail on the same replies. *)
Ltac item_ok :=
  try (rewrite ?status_item_state_ok, ?status_msg_state_ok, ?status_args_state_ok; reflexivity).

(** One step of an [lsim] proof between two handlers. *)
Ltac lsim_step :=
  match goal with
  | |- lsim _ (st_bind (st_lift (Ok _)) _) _ => apply lsim_lift_ok_l
  | |- lsim _ _ (st_bind (st_lift (Ok _)) _) => apply lsim_lift_ok_r
  | |- lsim _ (st_bind _ _) _ => apply lsim_inert_l; [solve [auto with wire] | intros ?]
  | |- lsim _ _ (st_bind _ _) => apply lsim_inert_r; [solve [auto with wire] | intros ?]
  | |- lsim rel_any (st_bind (st_for_acc _ _ _) _) (st_bind (st_for_acc _ _ _) _) =>
      apply (lsim_bind rel_any); [apply lsim_for_acc; intros ? ? ? ? | intros ? ? ?]
  | |- lsim rel_any (st_bind (st_for_acc _ _ _) _) _ =>
      apply (lsim_then_l rel_any); [|intros; auto with wire]
  | |- lsim rel_any (st_for_acc _ _ _) (st_for _ _) => apply lsim_for_acc_for; intros ? ? ?
  | |- lsim rel_any (poll_cycle _ _ _ _) (poll_cycle _ _ _ _) =>
      apply lsim_poll_cycle; [cbv beta; json_simpl; try reflexivity | intros ?; item_ok]
  | |- lsim rel_any (poll_cycle _ _ _ _) (TextMqtt.relay_cycle _ _ _ _ _ _) =>
      apply lsim_poll_relay; [cbv beta; json_simpl; try reflexivity | intros ?; reflexivity]
  | |- lsim rel_any (TextMqtt.relay_cycle _ _ _ _ _ _) (RawMain.relay_cycle _ _ _ _) =>
      apply lsim_relay_cycles
  | |- lsim rel_any (poll_cycle _ _ _ _) (print_cycle _ _ _) =>
      apply lsim_poll_print; [cbv beta; json_simpl; try reflexivity | intros ?; item_ok]
  | |- lsim rel_any _ _ => apply lsim_inert; solve [auto with wire]
  end.

Local Open Scope string_scope.

Ltac open_text := unfold TextMqtt.on_message, TextMqtt.process_command; cbv zeta.
Ltac open_raw := unfold RawMain.run_command, for_channels; cbv zeta.

Lemma sim_json_text_relay dev a :
  lsim rel_any (dispatch dev (output_all_request a) (JStr "output_all"))
               (TextMqtt.on_message dev (all_command a)).
Proof.
  unfold dispatch, output_all_request. json_simpl. open_text.
  destruct a; cbn [all_command AddressMap.action_token]; text_simpl; branch_simpl;
    repeat lsim_step;
    first [apply (json_bridge_relay dev i AddressMap.On) | apply (json_bridge_relay dev i AddressMap.Off)].
Qed.

Lemma sim_text_raw_relay dev a :
  lsim rel_any (TextMqtt.on_message dev (all_command a)) (RawMain.run_command dev (all_command a)).
Proof.
  open_text. open_raw.
  destruct a; cbn [all_command AddressMap.action_token]; text_simpl; str_simpl; branch_simpl;
    repeat lsim_step.
Qed.

Lemma sim_json_text_status dev :
  lsim rel_any (dispatch dev (status_request "inputs") (JStr "status"))
               (TextMqtt.on_message dev "status inp") /\
  lsim rel_any (dispatch dev (status_request "outputs") (JStr "status"))
               (TextMqtt.on_message dev "status out").
Proof.
  unfold dispatch, status_request, status_build. json_simpl. open_text. text_simpl. branch_simpl.
  split; repeat lsim_step.
  apply json_bridge_output. apply in_py_range in H. lia.
Qed.

Lemma sim_text_raw_status dev :
  lsim rel_any (TextMqtt.on_message dev "status inp") (RawMain.run_command dev "status inp").
Proof. open_text. open_raw. text_simpl. str_simpl. branch_simpl. repeat lsim_step. Qed.

(** What the JSON bridge does to the line is what its [dispatch] does:
    the handler of [except] only publishes. *)
Lemma json_line dev data cmd (d : st tstate unit) :
  dict_get data "cmd" = Ok cmd -> lsim rel_any (dispatch dev data cmd) d ->
  forall b t, line b = tline t -> line (snd (process_command dev data b)) = tline (snd (d t)).
Proof.
  intros Hc Hs b t Hbt. unfold process_command, st_bind at 1, st_lift. rewrite Hc.
  apply (lsim_try_line rel_any _ _ _ Hs); [intros e; apply quiet_publish_json | exact Hbt].
Qed.

Lemma lsim_same_line {S T A B} `{HasSerial S} `{HasSerial T} R (c : st S A) (d : st T B) s t :
  lsim R c d -> ser_of s = ser_of t ->
  ser_of (snd (c s)) = ser_of (snd (d t)) /\ is_ok (fst (c s)) = is_ok (fst (d t)).
Proof.
  intros Hs Hst. destruct (Hs s t Hst) as [Hr Hl]. split; [exact Hl|].
  destruct (fst (c s)), (fst (d t)); easy.
Qed.

(** C37: the three front ends drive the device alike. From the same
    line state, the JSON request [{"cmd": "output_all", "state": a}], the
    text bridge's message ["on all"] / ["off all"] and the raw tester's
    command of the same text leave the serial line in the same state: the
    same frames written in the same order, the same replies consumed, the
    same bytes left in the buffer, for every device id and every reply of
    the device; the same holds for [{"cmd": "status", "target":
    "inputs"}] and ["status inp"], and between the two bridges for the
    outputs' status. The text bridge and the raw tester raise on the same
    replies (the JSON bridge reports the exception instead). *)
Theorem front_ends_equivalent dev x o p c :
  let J data := line (snd (process_command dev data (mk_bridge x o c))) in
  let T m := TextMqtt.on_message dev m (mk_tstate x p c) in
  let R m := RawMain.run_command dev m (mk_tstate x p c) in
  (forall a, J (output_all_request a) = tline (snd (T (all_command a))) /\
             tline (snd (T (all_command a))) = tline (snd (R (all_command a))) /\
             is_ok (fst (T (all_command a))) = is_ok (fst (R (all_command a)))) /\
  (J (status_request "inputs") = tline (snd (T "status inp")) /\
   tline (snd (T "status inp")) = tline (snd (R "status inp")) /\
   is_ok (fst (T "status inp")) = is_ok (fst (R "status inp"))) /\
  J (status_request "outputs") = tline (snd (T "status out")).
Proof.
  cbv zeta. destruct (sim_json_text_status dev) as [Hin Hout].
  split; [intros a; split|split; [split|]].
  - apply (json_line dev _ (JStr "output_all") (TextMqtt.on_message dev (all_command a))); [destruct a; reflexivity | apply sim_json_text_relay | reflexivity].
  - exact (lsim_same_line rel_any _ _ _ _ (sim_text_raw_relay dev a) eq_refl).
  - apply (json_line dev _ (JStr "status") (TextMqtt.on_message dev "status inp")); [reflexivity | exact Hin | reflexivity].
  - exact (lsim_same_line rel_any _ _ _ _ (sim_text_raw_status dev) eq_refl).
  - apply (json_line dev _ (JStr "status") (TextMqtt.on_message dev "status out")); [reflexivity | exact Hout | reflexivity].
Qed.
