(* ===== verification/System.v ===== *)
(** * The programs and the board together

    [Serial] takes the device's replies as an input of the line. Here
    the device is the relay board of [Device]: the replies on the line
    are the board's answers ([Device.answers]) to exactly the frames the
    handler writes, in the order it writes them, which each theorem also
    states ([written]). The theorems are end-to-end: what a command does
    to the relays, and what a poll reports about them. *)

From Stdlib Require Import ZArith List Lia String Bool Setoid Morphisms.
From S2P Require Import Prelude PyBytes PyStr Crc16 Frames Serial Decode Device JsonBridge TextBridge Sessions Wire.
Import ListNotations.
Open Scope Z_scope.
Local Open Scope py_scope.
Import Device.

(** The line of [x] with the device's next replies [rs]. *)
Definition answering (x : serial) (rs : list (list Z * list Z)) : serial :=
  mk_serial (rx x) (late x) rs (written x).

(** What the JSON bridge's [status] should publish about the values [v]
    of the eight channels. *)
Definition board_report (target : string) (v : Z -> bool) : json :=
  JObj [jfield "cmd" (JStr "status"); jfield "target" (JStr target);
        jfield "states" (JArr (map (fun i => JObj [jfield "channel" (JInt i);
                                                   jfield "state" (JStr (if v i then "on" else "off")%string)])
                                   (py_range 1 9)))].

(** The register of channel [i] for a [status] target. *)
Definition target_register (target : string) (i : Z) : Z :=
  if String.eqb target "inputs" then 0x0080 + i else i.

(** ** Lemmas *)

Lemma status_frames_reads dev target :
  status_frames dev (JStr target) = map (read_holding_frame dev) (map (target_register target) (py_range 1 9)).
Proof. unfold status_frames, target_register. rewrite map_map. reflexivity. Qed.

Lemma target_register_byte target i : 1 <= i <= 8 -> 0 <= target_register target i < 256.
Proof. intros Hi. unfold target_register. destruct (String.eqb target "inputs"); lia. Qed.

Lemma target_register_valid target i :
  1 <= i <= 8 -> valid_register (target_register target i) = true.
Proof.
  intros Hi. unfold valid_register, target_register.
  destruct (String.eqb target "inputs"); apply orb_true_iff; [right | left];
    apply andb_true_iff; split; apply Z.leb_le; lia.
Qed.

(** A valid read is answered with the register's value, as the spec's
    decoder reads it. *)
Lemma decode_valid_read b r :
  valid_register r = true ->
  Spec.decode_response (reply_seen (read_reply b r, [])) = if register_value b r then Spec.On else Spec.Off.
Proof.
  intros Hv. unfold reply_seen, read_reply. rewrite Hv. cbn [fst].
  rewrite reply_seen_seal by (cbn; lia). rewrite decode_read_reply.
  destruct (register_value b r); reflexivity.
Qed.

Lemma read_reply_complete b r : reply_seen (read_reply b r, []) = [] \/ (5 <= List.length (reply_seen (read_reply b r, [])))%nat.
Proof.
  right. unfold reply_seen, read_reply, exception, seal. cbn [fst].
  destruct (valid_register r); rewrite firstn_all2; rewrite length_app, length_le_digits; cbn; lia.
Qed.

Lemma register_value_target b target i :
  1 <= i <= 8 ->
  register_value b (target_register target i)
  = if String.eqb target "inputs" then input b i else relay b i.
Proof.
  intros Hi. unfold register_value, target_register.
  destruct (String.eqb target "inputs").
  - rewrite (proj2 (Z.leb_gt _ 8)) by lia. f_equal. lia.
  - rewrite (proj2 (Z.leb_le i 8)) by lia. reflexivity.
Qed.

(** The JSON bridge's [status] on the board: eight reads, the board
    unchanged, and the published states are the board's relays
    ("outputs") or inputs ("inputs"). *)
Lemma json_status_board b target y rest :
  0 <= slave b < 256 ->
  replies (line y) = fst (answers b (status_frames (slave b) (JStr target))) ++ rest ->
  snd (answers b (status_frames (slave b) (JStr target))) = b /\
  exists y',
    process_command (slave b) (status_request target) y = (Ok tt, y') /\
    written (line y') = written (line y) ++ status_frames (slave b) (JStr target) /\
    replies (line y') = rest /\
    outbox y' = outbox y ++ [board_report target
                               (if String.eqb target "inputs" then input b else relay b)].
Proof.
  intros Hs Hr. rewrite status_frames_reads in *.
  assert (Hregs : Forall (fun r => 0 <= r < 256) (map (target_register target) (py_range 1 9))).
  { apply Forall_forall. intros r (i & <- & Hi%in_py_range)%in_map_iff. apply target_register_byte; lia. }
  rewrite (answers_reads b _ Hs Hregs) in *. cbn [fst snd] in Hr |- *. split; [reflexivity|].
  destruct (status_run (slave b) (JStr target) _ rest y Hs Hr) as (y' & Hrun & Hw & Hrep & Ho).
  { rewrite !length_map. reflexivity. }
  { apply Forall_forall. intros p (r & <- & _)%in_map_iff. apply read_reply_complete. }
  exists y'. split; [exact Hrun|]. split; [exact Hw|]. split; [exact Hrep|].
  rewrite Ho. unfold status_report, board_report.
  rewrite map_map, combine_map_r, map_map. erewrite map_ext_in; [reflexivity|]. intros i Hi%in_py_range.
  cbn [fst snd]. rewrite decode_valid_read by (apply target_register_valid; lia).
  rewrite register_value_target by lia. destruct (String.eqb target "inputs"), (input b i), (relay b i);
    reflexivity.
Qed.

Lemma board_report_ext target v w :
  (forall i, 1 <= i <= 8 -> v i = w i) -> board_report target v = board_report target w.
Proof.
  intros H. unfold board_report. erewrite map_ext_in; [reflexivity|].
  intros i Hi%in_py_range. rewrite H by lia. reflexivity.
Qed.

Lemma relays_after_range b a i :
  relay (relays_after b a (py_range 1 9)) i = if (1 <=? i) && (i <=? 8) then action_on a else relay b i.
Proof.
  cbn [relays_after relay]. destruct (existsb (Z.eqb i) (py_range 1 9)) eqn:E.
  - apply existsb_eqb_In, in_py_range in E. rewrite (proj2 (Z.leb_le 1 i)), (proj2 (Z.leb_le i 8)) by lia.
    reflexivity.
  - destruct ((1 <=? i) && (i <=? 8)) eqn:E'; [|reflexivity].
    apply andb_true_iff in E' as [E1 E2]. apply Z.leb_le in E1, E2.
    assert (Hin : existsb (Z.eqb i) (py_range 1 9) = true) by (apply existsb_eqb_In, py_range_In; lia).
    congruence.
Qed.

(** The JSON bridge's [output_all] on the board: eight echoed writes, the
    eight relays set by the action, the others untouched. *)
Lemma json_output_all_board b a y rest :
  0 <= slave b < 256 ->
  replies (line y) = fst (answers b (relay_frames (slave b) a)) ++ rest ->
  board_equiv (snd (answers b (relay_frames (slave b) a))) (relays_after b a (py_range 1 9)) /\
  exists y',
    process_command (slave b) (output_all_request a) y = (Ok tt, y') /\
    written (line y') = written (line y) ++ relay_frames (slave b) a /\
    replies (line y') = rest /\
    outbox y' = outbox y ++ [output_all_report a (fst (answers b (relay_frames (slave b) a)))].
Proof.
  intros Hs Hr.
  assert (Hch : Forall (fun i => 1 <= i <= 8) (py_range 1 9))
    by (apply Forall_forall; intros i Hi%in_py_range; lia).
  destruct (answers_relay_sweep b a _ Hs Hch) as [H1 H2]. unfold relay_frames in *.
  split; [exact H2|].
  apply (output_all_run (slave b) a _ rest y Hs Hr). rewrite H1, length_map. reflexivity.
Qed.

(** C38: the JSON bridge controls the board (refinement of the abstract
    board by the bridge with the board answering on the line). Running
    the bridge's message loop on [{"cmd": "output_all", "state": a}]
    followed by [{"cmd": "status", "target": "outputs"}] against a board
    with a byte address: the bridge writes the eight relay frames then
    the eight read frames, in order; the board ends with relays 1..8 set
    by [a] and every other relay as it was; and the bridge publishes the
    eight echoed writes, then a status naming every channel in the state
    [a] that was commanded. *)
Theorem json_bridge_controls_board a b x o pr :
  0 <= slave b < 256 ->
  let F1 := relay_frames (slave b) a in
  let b1 := snd (answers b F1) in
  let F2 := status_frames (slave b) (JStr "outputs") in
  exists y,
    JsonProgram.loop (slave b) [JsonPayload (output_all_request a); JsonPayload (status_request "outputs")]
      (mk_bridge (answering x (fst (answers b F1) ++ fst (answers b1 F2))) o pr) = (Ok tt, y) /\
    written (line y) = written x ++ F1 ++ F2 /\
    (forall i, relay b1 i = if (1 <=? i) && (i <=? 8) then action_on a else relay b i) /\
    outbox y = o ++ [output_all_report a (fst (answers b F1));
                     board_report "outputs" (fun _ => action_on a)].
Proof.
  intros Hs F1 b1 F2.
  destruct (json_output_all_board b a (mk_bridge (answering x (fst (answers b F1) ++ fst (answers b1 F2))) o pr)
              (fst (answers b1 F2)) Hs eq_refl) as [Hb1 (y1 & Hrun1 & Hw1 & Hr1 & Ho1)].
  fold F1 b1 in Hb1, Hrun1, Hw1, Ho1.
  assert (Hsl : slave b1 = slave b) by (rewrite Hb1; reflexivity).
  assert (Hrel : forall i, relay b1 i = if (1 <=? i) && (i <=? 8) then action_on a else relay b i)
    by (intros i; rewrite Hb1; apply relays_after_range).
  destruct (json_status_board b1 "outputs" y1 [] ltac:(rewrite Hsl; exact Hs))
    as [_ (y & Hrun2 & Hw2 & Hr2 & Ho2)].
  { rewrite Hr1, app_nil_r, Hsl. reflexivity. }
  rewrite Hsl in Hrun2, Hw2. exists y.
  cbn [JsonProgram.loop on_message]. unfold st_bind at 1. rewrite Hrun1. unfold st_bind. rewrite Hrun2.
  split; [reflexivity|]. split; [|split; [exact Hrel|]].
  - rewrite Hw2, Hw1, <- app_assoc. reflexivity.
  - rewrite Ho2, Ho1. cbn [outbox]. rewrite <- app_assoc. cbn [app]. do 3 f_equal.
    apply board_report_ext. intros i Hi. cbn [String.eqb]. rewrite Hrel.
    rewrite (proj2 (Z.leb_le 1 i)), (proj2 (Z.leb_le i 8)) by lia. reflexivity.
Qed.

Lemma json_bridge_controls_board_witness :
  let b := mk_board 1 (fun _ => false) (fun _ => false) in
  let F1 := relay_frames 1 AddressMap.On in
  let F2 := status_frames 1 (JStr "outputs") in
  0 <= slave b < 256 /\
  exists y,
    JsonProgram.loop 1 [JsonPayload (output_all_request AddressMap.On); JsonPayload (status_request "outputs")]
      (mk_bridge (answering (mk_serial [] [] [] [])
                   (fst (answers b F1) ++ fst (answers (snd (answers b F1)) F2))) [] []) = (Ok tt, y) /\
    outbox y = [output_all_report AddressMap.On (fst (answers b F1));
                board_report "outputs" (fun _ => true)].
Proof.
  intros b F1 F2. assert (H : 0 <= slave b < 256) by (cbn; lia). split; [exact H|].
  destruct (json_bridge_controls_board AddressMap.On b (mk_serial [] [] [] []) [] [] H) as (y & H1 & _ & _ & H4).
  exists y. split; [exact H1 | exact H4].
Defined.

Local Open Scope string_scope.

Lemma decode_reading b r :
  valid_register r = true ->
  text_reading_of (Spec.decode_response (reply_seen (read_reply b r, [])))
  = if register_value b r then TextOn else TextOff.
Proof. intros Hv. rewrite decode_valid_read by exact Hv. destruct (register_value b r); reflexivity. Qed.

(** C39: end to end, the raw tester's [status out] reports the next
    relay. Against a board with a byte address, the line printed for
    channel [i] = 1..7 is the state of relay [i + 1], and the line for
    channel 8 is the board's exception reply to register 9 read as a
    state; relay [i] itself is never read. The board is unchanged. *)
Theorem raw_status_out_reads_next_relay b t :
  0 <= slave b < 256 ->
  let F := read_frames (slave b) (fun i => i + 1) in
  exists x,
    RawMain.run_command (slave b) "status out"
      (mk_tstate (answering (tline t) (fst (answers b F))) (published t) (console t))
    = (Ok tt, mk_tstate x (published t)
                (app (console t) (py_join " " ["You typed: "; "status out"]
                   :: app (map (fun i => RawMain.status_line "Output" i
                                           (if relay b (i + 1) then TextOn else TextOff)) (py_range 1 8))
                          [RawMain.status_line "Output" 8
                             (text_reading_of (Spec.decode_response (exception (slave b) 3 2)))]))) /\
    written x = app (written (tline t)) F /\
    snd (answers b F) = b.
Proof.
  intros Hs F.
  assert (HF : F = map (read_holding_frame (slave b)) (map (fun i => i + 1) (py_range 1 9)))
    by (unfold F, read_frames; rewrite map_map; reflexivity).
  assert (Hregs : Forall (fun r => 0 <= r < 256) (map (fun i => i + 1) (py_range 1 9)))
    by (apply Forall_forall; intros r (i & <- & Hi%in_py_range)%in_map_iff; lia).
  rewrite HF, (answers_reads b _ Hs Hregs). cbn [fst snd].
  destruct (raw_status_run (slave b) "status out" (map (fun r => (read_reply b r, [])) (map (fun i => i + 1) (py_range 1 9))) []
              (mk_tstate (answering (tline t) (map (fun r => (read_reply b r, [])) (map (fun i => i + 1) (py_range 1 9))))
                         (published t) (console t)) Hs (or_intror eq_refl))
    as (x & Hrun & Hw & _).
  { rewrite app_nil_r. reflexivity. }
  { rewrite !length_map. reflexivity. }
  { apply Forall_forall. intros p (r & <- & _)%in_map_iff. apply read_reply_complete. }
  exists x. rewrite Hrun. split; [|split; [rewrite Hw; reflexivity | reflexivity]].
  cbn [published console]. do 3 f_equal. unfold status_lines.
  rewrite map_map, combine_map_r, map_map.
  change (py_range 1 9) with (app (py_range 1 8) [8]). rewrite map_app. str_simpl.
  cbv iota. f_equal. apply (f_equal2 (@app _)).
  - apply map_ext_in. intros i Hi%in_py_range. cbn [fst snd].
    rewrite decode_reading by (unfold valid_register; apply orb_true_iff; left;
                               apply andb_true_iff; split; apply Z.leb_le; lia).
    unfold register_value. rewrite (proj2 (Z.leb_le (i + 1) 8)) by lia. reflexivity.
  - reflexivity.
Qed.

Lemma raw_status_out_reads_next_relay_witness :
  let b := mk_board 1 (fun j => (j =? 2)%Z) (fun _ => false) in
  let t := mk_tstate (mk_serial [] [] [] []) [] [] in
  0 <= slave b < 256 /\
  exists x,
    RawMain.run_command 1 "status out"
      (mk_tstate (answering (tline t) (fst (answers b (read_frames 1 (fun i => i + 1))))) [] [])
    = (Ok tt, mk_tstate x []
                ["You typed:  status out"; "Output 1 is ON"; "Output 2 is OFF"; "Output 3 is OFF";
                 "Output 4 is OFF"; "Output 5 is OFF"; "Output 6 is OFF"; "Output 7 is OFF";
                 "Output 8 is OFF"]).
Proof.
  intros b t. assert (H : 0 <= slave b < 256) by (cbn; lia). split; [exact H|].
  destruct (raw_status_out_reads_next_relay b t H) as (x & H1 & _ & _).
  exists x. etransitivity; [exact H1|]. vm_compute. reflexivity.
Defined.
